(** * TiXL security gate: evaluator and dashboard ranking

    A shallow embedding of [.github/scripts/security-gate-evaluator.py]
    (class [SecurityGateEvaluator]) and of the ranking function of
    [.github/scripts/generate-security-dashboard.py]
    ([SecurityDashboardGenerator._get_top_vulnerabilities]).

    Python values are the values [json.load] produces.  Exceptions are an
    explicit result type; [try/except] blocks are matches on it. *)

From Stdlib Require Import List String Ascii ZArith Bool Arith Lia.
From Stdlib Require Import Sorting.Sorted Sorting.Permutation DecimalString.
Import ListNotations.

Open Scope string_scope.

(* ===================================================================== *)
(** * Python values and the builtins the scripts use *)
(* ===================================================================== *)

Module Py.

(** What [json.load] returns.  Numbers are the integers (floating-point
    numbers are left out); a [dict] is the list of its items, in insertion
    order, and a lookup takes the first item with the key ([json.load]
    never produces two).  Strings are strings of 8-bit characters; case
    conversion acts on the ASCII letters. *)
#[local] Unset Elimination Schemes.
Inductive json : Type :=
| JNull
| JBool (b : bool)
| JNum (n : Z)
| JStr (s : string)
| JArr (l : list json)
| JObj (d : list (string * json)).
#[local] Set Elimination Schemes.

Definition dict : Type := list (string * json).

Inductive exn_kind : Type :=
  TypeError | AttributeError | KeyError | IndexError | OSError.

Inductive exn : Type := Exn (k : exn_kind) (msg : string).

Inductive result (A : Type) : Type :=
| Ok (a : A)
| Raise (e : exn).

Arguments Ok {A} a.
Arguments Raise {A} e.

Definition bind {A B : Type} (r : result A) (k : A -> result B) : result B :=
  match r with
  | Ok a => k a
  | Raise e => Raise e
  end.

Notation "x <- r ;; k" := (bind r (fun x => k))
  (at level 61, r at next level, right associativity).

(** [for x in xs: body], where the body may raise. *)
Fixpoint mapM {A B : Type} (f : A -> result B) (xs : list A) : result (list B) :=
  match xs with
  | [] => Ok []
  | x :: xs' => y <- f x ;; ys <- mapM f xs' ;; Ok (y :: ys)
  end.

Fixpoint foldM {A S : Type} (f : S -> A -> result S) (s : S) (xs : list A)
  : result S :=
  match xs with
  | [] => Ok s
  | x :: xs' => s' <- f s x ;; foldM f s' xs'
  end.

(** [type(v).__name__] *)
Definition type_name (v : json) : string :=
  match v with
  | JNull => "NoneType"
  | JBool _ => "bool"
  | JNum _ => "int"
  | JStr _ => "str"
  | JArr _ => "list"
  | JObj _ => "dict"
  end.

(** [bool(v)] *)
Definition truthy (v : json) : bool :=
  match v with
  | JNull => false
  | JBool b => b
  | JNum n => negb (n =? 0)%Z
  | JStr s => negb (s =? "")
  | JArr l => match l with [] => false | _ => true end
  | JObj d => match d with [] => false | _ => true end
  end.

(** [d.get(k)] on a dict: [None] stands for the missing key. *)
Fixpoint lookup {V : Type} (d : list (string * V)) (k : string) : option V :=
  match d with
  | [] => None
  | (k', v) :: d' => if k' =? k then Some v else lookup d' k
  end.

(** [d.get(k, dflt)] *)
Definition get (d : dict) (k : string) (dflt : json) : json :=
  match lookup d k with
  | Some v => v
  | None => dflt
  end.

(** [d.get(k)], whose default is [None]. *)
Definition get_none (d : dict) (k : string) : json := get d k JNull.

(** [d[k] = v]: an existing key keeps its place, a new one goes last. *)
Fixpoint set (d : dict) (k : string) (v : json) : dict :=
  match d with
  | [] => [(k, v)]
  | (k', v') :: d' => if k' =? k then (k, v) :: d' else (k', v') :: set d' k v
  end.

(** [v.get(k, dflt)] where [v] may be any value: only dicts have [get]. *)
Definition vget (v : json) (k : string) (dflt : json) : result json :=
  match v with
  | JObj d => Ok (get d k dflt)
  | _ => Raise (Exn AttributeError
                  ("'" ++ type_name v ++ "' object has no attribute 'get'"))
  end.

(** [v == s] for a string literal [s]. *)
Definition eq_str (v : json) (s : string) : bool :=
  match v with
  | JStr t => t =? s
  | _ => false
  end.

(** [needle in hay] on strings: [needle] occurs in [hay]. *)
Fixpoint contains (needle hay : string) : bool :=
  prefix needle hay ||
  match hay with
  | EmptyString => false
  | String _ hay' => contains needle hay'
  end.

(** [s in v] for a string [s]: substring of a string, element of a list,
    key of a dict; other values are no containers. *)
Definition str_in (s : string) (v : json) : result bool :=
  match v with
  | JStr t => Ok (contains s t)
  | JArr l => Ok (existsb (fun x => eq_str x s) l)
  | JObj d => Ok (existsb (fun kv => fst kv =? s) d)
  | _ => Raise (Exn TypeError
                  ("argument of type '" ++ type_name v ++ "' is not iterable"))
  end.

(** [v in l] for a list [l] of strings. *)
Definition in_strs (v : json) (l : list string) : bool :=
  existsb (fun s => eq_str v s) l.

Definition lower_ascii (c : ascii) : ascii :=
  let n := nat_of_ascii c in
  if ((65 <=? n) && (n <=? 90))%nat then ascii_of_nat (n + 32) else c.

(** [s.lower()] *)
Fixpoint lower (s : string) : string :=
  match s with
  | EmptyString => EmptyString
  | String c s' => String (lower_ascii c) (lower s')
  end.

(** [v.lower()]: only strings have it. *)
Definition vlower (v : json) : result string :=
  match v with
  | JStr s => Ok (lower s)
  | _ => Raise (Exn AttributeError
                  ("'" ++ type_name v ++ "' object has no attribute 'lower'"))
  end.

Fixpoint chars (s : string) : list json :=
  match s with
  | EmptyString => []
  | String c s' => JStr (String c EmptyString) :: chars s'
  end.

(** [for x in v]: the elements of a list, the keys of a dict, the
    characters of a string. *)
Definition iter (v : json) : result (list json) :=
  match v with
  | JArr l => Ok l
  | JObj d => Ok (map (fun kv => JStr (fst kv)) d)
  | JStr s => Ok (chars s)
  | _ => Raise (Exn TypeError
                  ("'" ++ type_name v ++ "' object is not iterable"))
  end.

(** [v[0]] *)
Definition first (v : json) : result json :=
  match v with
  | JArr [] => Raise (Exn IndexError "list index out of range")
  | JArr (x :: _) => Ok x
  | JStr EmptyString => Raise (Exn IndexError "string index out of range")
  | JStr (String c _) => Ok (JStr (String c EmptyString))
  | JObj _ => Raise (Exn KeyError "0")
  | _ => Raise (Exn TypeError
                  ("'" ++ type_name v ++ "' object is not subscriptable"))
  end.

(** [v[k]] for a string key [k]. *)
Definition item (v : json) (k : string) : result json :=
  match v with
  | JObj d => match lookup d k with
              | Some x => Ok x
              | None => Raise (Exn KeyError ("'" ++ k ++ "'"))
              end
  | JArr _ => Raise (Exn TypeError "list indices must be integers or slices, not str")
  | JStr _ => Raise (Exn TypeError "string indices must be integers, not 'str'")
  | _ => Raise (Exn TypeError
                  ("'" ++ type_name v ++ "' object is not subscriptable"))
  end.

(** Keys of a Python dict are the hashable values, here the atoms. *)
Definition hashable (v : json) : bool :=
  match v with
  | JArr _ | JObj _ => false
  | _ => true
  end.

(** Equality of dict keys: [True == 1] and [False == 0]. *)
Definition key_eqb (a b : json) : bool :=
  match a, b with
  | JNull, JNull => true
  | JBool x, JBool y => Bool.eqb x y
  | JBool x, JNum n | JNum n, JBool x => (n =? (if x then 1 else 0))%Z
  | JNum n, JNum m => (n =? m)%Z
  | JStr s, JStr t => s =? t
  | _, _ => false
  end.

(** A [defaultdict(int)]: keys in insertion order. *)
Definition counter : Type := list (json * nat).

Fixpoint count_of (c : counter) (k : json) : nat :=
  match c with
  | [] => 0
  | (k', n) :: c' => if key_eqb k' k then n else count_of c' k
  end.

Fixpoint incr (c : counter) (k : json) : counter :=
  match c with
  | [] => [(k, 1)]
  | (k', n) :: c' => if key_eqb k' k then (k', S n) :: c' else (k', n) :: incr c' k
  end.

(** [c[k] += 1] *)
Definition bump (c : counter) (k : json) : result counter :=
  if hashable k then Ok (incr c k)
  else Raise (Exn TypeError ("unhashable type: '" ++ type_name k ++ "'")).

(** [str(n)] for a count. *)
Definition str_nat (n : nat) : string := NilEmpty.string_of_uint (Nat.to_uint n).

(** [str(n)] for an integer. *)
Definition str_Z (n : Z) : string := NilZero.string_of_int (Z.to_int n).

(** [str(v)], as an f-string formats a value.  The text Python prints
    for a list or a dict is left to [repr_container]. *)
Definition str (repr_container : json -> string) (v : json) : string :=
  match v with
  | JStr s => s
  | JNull => "None"
  | JBool true => "True"
  | JBool false => "False"
  | JNum n => str_Z n
  | _ => repr_container v
  end.

(** The [Some] elements of a list, in order. *)
Fixpoint somes {A : Type} (xs : list (option A)) : list A :=
  match xs with
  | [] => []
  | Some x :: xs' => x :: somes xs'
  | None :: xs' => somes xs'
  end.

(** [s.rstrip('-')] *)
Fixpoint rstrip_dash (s : string) : string :=
  match s with
  | EmptyString => EmptyString
  | String c s' =>
      let r := rstrip_dash s' in
      if (r =? "") && Ascii.eqb c "-"%char then EmptyString else String c r
  end.

(** [a == b] *)
Fixpoint eqb (a b : json) {struct a} : bool :=
  match a, b with
  | JArr l, JArr m =>
      (fix all2 (l m : list json) : bool :=
         match l, m with
         | [], [] => true
         | x :: l', y :: m' => eqb x y && all2 l' m'
         | _, _ => false
         end) l m
  | JObj d, JObj e =>
      (List.length d =? List.length e)%nat &&
      (fix sub (d : list (string * json)) : bool :=
         match d with
         | [] => true
         | (k, v) :: d' =>
             match lookup e k with
             | Some w => eqb v w
             | None => false
             end && sub d'
         end) d
  | JArr _, _ | JObj _, _ | _, JArr _ | _, JObj _ => false
  | _, _ => key_eqb a b
  end.

Definition as_number (v : json) : option Z :=
  match v with
  | JNum n => Some n
  | JBool b => Some (if b then 1 else 0)%Z
  | _ => None
  end.

Definition not_ordered (a b : json) : exn :=
  Exn TypeError ("'<' not supported between instances of '" ++ type_name a
                 ++ "' and '" ++ type_name b ++ "'").

(** [a < b]: strings by code points, numbers by value, lists by their
    first differing elements. *)
Fixpoint ltb (a b : json) {struct a} : result bool :=
  match a, b with
  | JStr s, JStr t => Ok (String.ltb s t)
  | JArr l, JArr m =>
      (fix lex (l m : list json) : result bool :=
         match l, m with
         | [], [] => Ok false
         | [], _ :: _ => Ok true
         | _ :: _, [] => Ok false
         | x :: l', y :: m' => if eqb x y then lex l' m' else ltb x y
         end) l m
  | _, _ =>
      match as_number a, as_number b with
      | Some x, Some y => Ok (x <? y)%Z
      | _, _ => Raise (not_ordered a b)
      end
  end.

(** [(r1, a) < (r2, b)] on pairs of an integer and a value: the first
    components decide unless they are equal. *)
Definition pair_ltb (x y : nat * json) : result bool :=
  if (fst x =? fst y)%nat then
    if eqb (snd x) (snd y) then Ok false else ltb (snd x) (snd y)
  else Ok (fst x <? fst y)%nat.

(** [sorted(xs, key=..., reverse=True)] on elements paired with their
    keys.  Python sorts stably with [<] on the keys: the result is in
    descending key order and elements with equal keys keep their input
    order.  Stable insertion gives that list whenever the comparisons
    return; a comparison that raises ends the sort. *)
Fixpoint insert_desc {A : Type} (x : (nat * json) * A) (l : list ((nat * json) * A))
  : result (list ((nat * json) * A)) :=
  match l with
  | [] => Ok [x]
  | y :: l' =>
      lt <- pair_ltb (fst x) (fst y) ;;
      if lt then (r <- insert_desc x l' ;; Ok (y :: r)) else Ok (x :: l)
  end.

Fixpoint sorted_reverse {A : Type} (l : list ((nat * json) * A))
  : result (list ((nat * json) * A)) :=
  match l with
  | [] => Ok []
  | x :: l' => s <- sorted_reverse l' ;; insert_desc x s
  end.

End Py.

(* ===================================================================== *)
(** * security-gate-evaluator.py: policy, metrics, rules, gate *)
(* ===================================================================== *)

Module Gate.
Import Py.

(** [@dataclass SecurityGateConfig], with the types of its annotations;
    [Any] is a JSON value. *)
Record SecurityGateConfig : Type := {
  severity_thresholds : list (string * Z);
  tool_requirements : list (string * dict);
  policy_rules : list dict;
  allow_list : list string;
  fail_conditions : list string
}.

Definition default_rule (name condition : string) : dict :=
  [("name", JStr name); ("condition", JStr condition); ("action", JStr "fail")].

Definition default_tool (required : bool) : dict :=
  [("required", JBool required); ("min_score", JNum 0)].

Definition _get_default_policy : SecurityGateConfig := {|
  severity_thresholds :=
    [("critical", 0%Z); ("high", 10%Z); ("medium", 50%Z); ("low", 100%Z)];
  tool_requirements :=
    [("CodeQL", default_tool true);
     ("Grype", default_tool true);
     ("Semgrep", default_tool false)];
  policy_rules :=
    [default_rule "No critical vulnerabilities" "critical_count == 0";
     default_rule "Limited high-severity issues" "high_count <= 10";
     default_rule "No secrets in code" "secret_count == 0";
     default_rule "All required tools must pass" "required_tools_passed"];
  allow_list := ["CWE-999"; "info-only"; "documentation"];
  fail_conditions :=
    ["critical_vulnerabilities_exist"; "excessive_high_vulnerabilities";
     "secrets_detected"; "required_tools_failed"]
|}.

(** The dict [_calculate_vulnerability_metrics] returns: its keys are
    fixed, so it is a record. *)
Record Metrics : Type := {
  total_vulnerabilities : nat;
  critical_count : nat;
  high_count : nat;
  medium_count : nat;
  low_count : nat;
  secret_count : nat;
  cve_count : nat;
  tool_counts : counter;
  category_counts : counter;
  critical_vulnerabilities_exist : bool;
  excessive_high_vulnerabilities : bool;
  secrets_detected : bool;
  required_tools_passed : bool
}.

(** A rule result; the entry appended for the required tools has
    neither [condition] nor [action]. *)
Record RuleResult : Type := {
  name : json;
  passed : bool;
  condition : option json;
  reason : string;
  action : option json
}.

Inductive Status : Type := UNKNOWN | PASSED | FAILED.

(** [self.gate_details] after an evaluation: the FAILED branch stores
    [failed_rules], the PASSED branch [passed_rules]. *)
Record Details : Type := {
  status : Status;
  failed_rules : option (list RuleResult);
  passed_rules : option (list json);
  metrics : Metrics;
  timestamp : string
}.

(** The attributes of a [SecurityGateEvaluator]; [gate_details] is
    [None] for the empty dict of [__init__]. *)
Record Evaluator : Type := {
  config : SecurityGateConfig;
  scan_results : dict;
  vulnerabilities : list dict;
  gate_status : Status;
  gate_details : option Details
}.

Definition __init__ (policy : SecurityGateConfig) : Evaluator := {|
  config := policy;
  scan_results := [];
  vulnerabilities := [];
  gate_status := UNKNOWN;
  gate_details := None
|}.


(** ** Loading the scan results *)

(** A file as the loader sees it: [None] when [open] or [json.load]
    raises, which the handler around each file catches. *)
Definition parsed : Type := option json.

(** [vulnerability-analysis/]: each file is absent ([None]) or present. *)
Record AnalysisDir : Type := {
  vulnerabilities_json : option parsed;
  analysis_json : option parsed
}.

(** A tool directory: its [*.sarif] files and its [*.json] files, the
    latter with their names. *)
Record ToolDir : Type := {
  sarif_files : list parsed;
  json_files : list (string * parsed)
}.

(** The scan results directory: the analysis directory if it exists and,
    for a name prefix, the entries [glob(prefix + "*")] finds. *)
Record ScanDir : Type := {
  vulnerability_analysis : option AnalysisDir;
  glob : string -> list ToolDir
}.

Definition with_vulnerabilities (self : Evaluator) (vs : list dict) : Evaluator :=
  {| config := config self; scan_results := scan_results self;
     vulnerabilities := vs;
     gate_status := gate_status self; gate_details := gate_details self |}.

Definition with_scan_results (self : Evaluator) (sr : dict) : Evaluator :=
  {| config := config self; scan_results := sr;
     vulnerabilities := vulnerabilities self;
     gate_status := gate_status self; gate_details := gate_details self |}.

(** [self.vulnerabilities.extend(vs)] *)
Definition extend (self : Evaluator) (vs : list dict) : Evaluator :=
  with_vulnerabilities self (vulnerabilities self ++ vs)%list.

(** [mapping.get(level, 'low')] *)
Definition _map_sarif_level_to_severity (level : json) : result string :=
  if hashable level then
    Ok (if eq_str level "error" then "high"
        else if eq_str level "warning" then "medium"
        else if eq_str level "note" then "low"
        else "low")
  else Raise (Exn TypeError ("unhashable type: '" ++ type_name level ++ "'")).

(** The try block of [_create_vulnerability_from_data]; a value without
    [get] raises, and the handler returns [None]. *)
Definition _create_vulnerability_from_data (vuln_data : json) : option dict :=
  match vuln_data with
  | JObj d =>
      Some [("id", get d "id" (JStr "unknown"));
            ("title", get d "title" (JStr ""));
            ("description", get d "description" (JStr ""));
            ("severity", get d "severity" (JStr "low"));
            ("tool", get d "tool" (JStr "unknown"));
            ("category", get d "category" (JStr "unknown"));
            ("file_path", get_none d "file_path");
            ("line_number", get_none d "line_number");
            ("cve_id", get_none d "cve_id");
            ("cwe_id", get_none d "cwe_id");
            ("package_name", get_none d "package_name");
            ("package_version", get_none d "package_version");
            ("is_false_positive", get d "is_false_positive" (JBool false));
            ("status", get d "status" (JStr "open"))]
  | _ => None
  end.

Section Loading.

(** Two builtins the loader calls and this file leaves open: the text of
    a list or dict, and [hash], which Python salts per process. *)
Variable repr_container : json -> string.
Variable hash : json -> Z.

Definition hash_of (v : json) : result Z :=
  if hashable v then Ok (hash v)
  else Raise (Exn TypeError ("unhashable type: '" ++ type_name v ++ "'")).

(** The block under [# Extract location]: [file_path] and [line_number]
    of the Finding are set from the first location, if it has a physical
    one. *)
Definition extract_location (res : json) (processed_result : dict)
  : result dict :=
  locations <- vget res "locations" JNull ;;
  if truthy locations then
    location <- first locations ;;
    has_pl <- str_in "physicalLocation" location ;;
    if has_pl then
      pl <- item location "physicalLocation" ;;
      artifact <- vget pl "artifactLocation" (JObj []) ;;
      uri <- vget artifact "uri" JNull ;;
      region <- vget pl "region" (JObj []) ;;
      start_line <- vget region "startLine" JNull ;;
      Ok (set (set processed_result "file_path" uri) "line_number" start_line)
    else Ok processed_result
  else Ok processed_result.

(** The body of the inner loop of [_process_sarif_for_tool]: the Finding
    of one entry of [results], if its level is one of the three. *)
Definition sarif_result (tool_name : string) (res : json) : result (option dict) :=
  level <- vget res "level" JNull ;;
  if in_strs level ["error"; "warning"; "note"] then
    rule_id <- vget res "ruleId" (JStr "unknown") ;;
    severity <- _map_sarif_level_to_severity level ;;
    message <- vget res "message" (JObj []) ;;
    title <- vget message "text" (JStr (tool_name ++ " finding")) ;;
    message' <- vget res "message" (JObj []) ;;
    description <- vget message' "text" (JStr "") ;;
    let processed_result : dict :=
      [("id", JStr (tool_name ++ "-" ++ str repr_container rule_id));
       ("tool", JStr tool_name);
       ("severity", JStr severity);
       ("title", title);
       ("description", description);
       ("file_path", JNull);
       ("line_number", JNull);
       ("category", JStr "SAST")] in
    located <- extract_location res processed_result ;;
    Ok (Some located)
  else Ok None.

Definition sarif_run (tool_name : string) (run : json) : result (list dict) :=
  results <- vget run "results" (JArr []) ;;
  entries <- iter results ;;
  found <- mapM (sarif_result tool_name) entries ;;
  Ok (somes found).

Definition _process_sarif_for_tool (sarif_data : json) (tool_name : string)
  : result (list dict) :=
  runs <- vget sarif_data "runs" (JArr []) ;;
  run_list <- iter runs ;;
  per_run <- mapM (sarif_run tool_name) run_list ;;
  Ok (List.concat per_run).

Definition grype_match (m : json) : result dict :=
  vuln <- vget m "vulnerability" (JObj []) ;;
  artifact <- vget m "artifact" (JObj []) ;;
  id <- vget vuln "id" (JStr "unknown") ;;
  severity <- vget vuln "severity" (JStr "low") ;;
  severity_lower <- vlower severity ;;
  title <- vget vuln "description" (JStr "Vulnerable dependency") ;;
  description <- vget vuln "description" (JStr "") ;;
  package_name <- vget artifact "name" JNull ;;
  package_version <- vget artifact "version" JNull ;;
  Ok [("id", JStr ("grype-" ++ str repr_container id));
      ("tool", JStr "Grype");
      ("severity", JStr severity_lower);
      ("title", title);
      ("description", description);
      ("file_path", JNull);
      ("line_number", JNull);
      ("category", JStr "SCA");
      ("package_name", package_name);
      ("package_version", package_version)].

Definition retire_finding (finding : json) : result dict :=
  file <- vget finding "file" (JStr "") ;;
  h <- hash_of file ;;
  description <- vget finding "recommendation" (JStr "") ;;
  file_path <- vget finding "file" JNull ;;
  package_name <- vget finding "packageName" JNull ;;
  package_version <- vget finding "version" JNull ;;
  Ok [("id", JStr ("retire-" ++ str_Z h));
      ("tool", JStr "dotnet-retire");
      ("severity", JStr "high");
      ("title", JStr "Known vulnerable .NET package");
      ("description", description);
      ("file_path", file_path);
      ("line_number", JNull);
      ("category", JStr "SCA");
      ("package_name", package_name);
      ("package_version", package_version)].

Definition trufflehog_finding (json_data : json) : result dict :=
  source_metadata <- vget json_data "SourceMetadata" (JObj []) ;;
  data <- vget source_metadata "Data" (JObj []) ;;
  git <- vget data "Filesystem" (JObj []) ;;
  detector <- vget json_data "DetectorName" (JStr "Unknown") ;;
  redacted <- vget json_data "Redacted" (JStr "REDACTED") ;;
  file_path <- vget git "file" JNull ;;
  line_number <- vget git "line" JNull ;;
  Ok [("id", JStr ("secret-" ++ str_Z (hash (JStr (str repr_container json_data)))));
      ("tool", JStr "TruffleHog");
      ("severity", JStr "high");
      ("title", JStr ("Secret detected: " ++ str repr_container detector));
      ("description",
       JStr ("Potential secret detected: " ++ str repr_container redacted));
      ("file_path", file_path);
      ("line_number", line_number);
      ("category", JStr "Secret Scanning");
      ("cwe_id", JStr "CWE-798")].

Definition has_key (d : dict) (k : string) : bool :=
  existsb (fun kv => fst kv =? k) d.

Definition _process_json_for_tool (json_data : json) (tool_name : string)
  : result (list dict) :=
  if (lower tool_name =? "grype") || contains "sca" (lower tool_name) then
    match json_data with
    | JObj d =>
        if has_key d "matches" then
          matches <- item json_data "matches" ;;
          entries <- iter matches ;;
          mapM grype_match entries
        else Ok []
    | _ => Ok []
    end
  else if lower tool_name =? "retire" then
    match json_data with
    | JArr findings => mapM retire_finding findings
    | _ => Ok []
    end
  else if lower tool_name =? "trufflehog" then
    match json_data with
    | JObj d =>
        if has_key d "SourceMetadata" then
          f <- trufflehog_finding json_data ;; Ok [f]
        else Ok []
    | _ => Ok []
    end
  else Ok [].

(** One [*.sarif] file of [_process_tool_directory]: any exception leaves
    the evaluator as it was. *)
Definition load_sarif_file (tool_name : string) (self : Evaluator) (f : parsed)
  : Evaluator :=
  match f with
  | Some sarif_data =>
      match _process_sarif_for_tool sarif_data tool_name with
      | Ok results => extend self results
      | Raise _ => self
      end
  | None => self
  end.

(** One [*.json] file; a name containing [sarif] is skipped before the
    file is opened. *)
Definition load_json_file (tool_name : string) (self : Evaluator)
  (f : string * parsed) : Evaluator :=
  if contains "sarif" (lower (fst f)) then self
  else
    match snd f with
    | Some json_data =>
        match _process_json_for_tool json_data tool_name with
        | Ok results => extend self results
        | Raise _ => self
        end
    | None => self
    end.

Definition _process_tool_directory (tool_name : string) (self : Evaluator)
  (tool_dir : ToolDir) : Evaluator :=
  let self1 := fold_left (load_sarif_file tool_name) (sarif_files tool_dir) self in
  fold_left (load_json_file tool_name) (json_files tool_dir) self1.

Definition tool_dirs : list string :=
  ["codeql-results-"; "semgrep-results-"; "sca-results-"; "sonarqube-results-";
   "secret-scanning-"; "container-security-"; "iac-security-"].

Definition _load_tool_results (self : Evaluator) (scan_results_dir : ScanDir)
  : Evaluator :=
  fold_left
    (fun self' tool_dir_pattern =>
       fold_left (_process_tool_directory (rstrip_dash tool_dir_pattern))
         (glob scan_results_dir tool_dir_pattern) self')
    tool_dirs self.

Definition _load_vulnerability_analysis (self : Evaluator) (dir : AnalysisDir)
  : Evaluator :=
  let self1 :=
    match vulnerabilities_json dir with
    | Some (Some vuln_data) =>
        match iter vuln_data with
        | Ok entries => extend self (somes (map _create_vulnerability_from_data entries))
        | Raise _ => self
        end
    | _ => self
    end in
  match analysis_json dir with
  | Some (Some analysis_data) =>
      with_scan_results self1 (set (scan_results self1) "analysis" analysis_data)
  | _ => self1
  end.

Definition load_scan_results (self : Evaluator) (scan_results_dir : ScanDir)
  : Evaluator :=
  let self1 :=
    match vulnerability_analysis scan_results_dir with
    | Some dir => _load_vulnerability_analysis self dir
    | None => self
    end in
  _load_tool_results self1 scan_results_dir.

End Loading.

(** ** Evaluating the gate *)

Definition _is_allowed_vulnerability (cfg : SecurityGateConfig) (vuln : dict)
  : result bool :=
  let cwe_id := get_none vuln "cwe_id" in
  if truthy cwe_id && in_strs cwe_id (allow_list cfg) then Ok true
  else
    title <- vlower (get vuln "title" (JStr "")) ;;
    Ok (existsb (fun allowed_item => contains (lower allowed_item) title)
          (allow_list cfg)).

Fixpoint required_tools_loop (tool_results : json) (reqs : list (string * dict))
  : result bool :=
  match reqs with
  | [] => Ok true
  | (tool, requirements) :: rest =>
      if truthy (get requirements "required" (JBool false)) then
        tool_result <- vget tool_results tool (JStr "unknown") ;;
        if negb (in_strs tool_result ["passed"; "success"]) then Ok false
        else required_tools_loop tool_results rest
      else required_tools_loop tool_results rest
  end.

Definition _evaluate_required_tools (self : Evaluator) : result bool :=
  let tool_results := get (scan_results self) "tool_results" (JObj []) in
  required_tools_loop tool_results (tool_requirements (config self)).

(** The five accumulators of the counting loop. *)
Record Tally : Type := {
  severity_counts : counter;
  tool_tally : counter;
  category_tally : counter;
  secret_tally : nat;
  cve_tally : nat
}.

Definition empty_tally : Tally :=
  {| severity_counts := []; tool_tally := []; category_tally := [];
     secret_tally := 0; cve_tally := 0 |}.

Definition is_false_positive (vuln : dict) : bool :=
  truthy (get vuln "is_false_positive" (JBool false)).

(** One iteration of [for vuln in self.vulnerabilities]. *)
Definition tally_step (cfg : SecurityGateConfig) (t : Tally) (vuln : dict)
  : result Tally :=
  if is_false_positive vuln then Ok t
  else
    allowed <- _is_allowed_vulnerability cfg vuln ;;
    if allowed then Ok t
    else
      let severity := get vuln "severity" (JStr "low") in
      let tool := get vuln "tool" (JStr "unknown") in
      let category := get vuln "category" (JStr "unknown") in
      sc <- bump (severity_counts t) severity ;;
      tc <- bump (tool_tally t) tool ;;
      cc <- bump (category_tally t) category ;;
      Ok {| severity_counts := sc;
            tool_tally := tc;
            category_tally := cc;
            secret_tally :=
              if eq_str category "Secret Scanning" then S (secret_tally t)
              else secret_tally t;
            cve_tally :=
              if truthy (get_none vuln "cve_id") then S (cve_tally t)
              else cve_tally t |}.

(** [self.config.severity_thresholds['high']] *)
Definition high_threshold (cfg : SecurityGateConfig) : result Z :=
  match lookup (severity_thresholds cfg) "high" with
  | Some n => Ok n
  | None => Raise (Exn KeyError "'high'")
  end.

Definition _calculate_vulnerability_metrics (self : Evaluator) : result Metrics :=
  t <- foldM (tally_step (config self)) empty_tally (vulnerabilities self) ;;
  let sev := severity_counts t in
  threshold <- high_threshold (config self) ;;
  tools_ok <- _evaluate_required_tools self ;;
  Ok {| total_vulnerabilities :=
          List.length (filter (fun v => negb (is_false_positive v))
                         (vulnerabilities self));
        critical_count := count_of sev (JStr "critical");
        high_count := count_of sev (JStr "high");
        medium_count := count_of sev (JStr "medium");
        low_count := count_of sev (JStr "low");
        secret_count := secret_tally t;
        cve_count := cve_tally t;
        tool_counts := tool_tally t;
        category_counts := category_tally t;
        critical_vulnerabilities_exist := (0 <? count_of sev (JStr "critical"))%nat;
        excessive_high_vulnerabilities :=
          (threshold <? Z.of_nat (count_of sev (JStr "high")))%Z;
        secrets_detected := (0 <? secret_tally t)%nat;
        required_tools_passed := tools_ok |}.

(** The [try] block of [_evaluate_rule] up to the values of [passed]
    and [reason]. *)
Definition rule_verdict (cond : json) (m : Metrics) : result (bool * string) :=
  c1 <- str_in "critical_count == 0" cond ;;
  if c1 then
    let p := (critical_count m =? 0)%nat in
    Ok (p, if negb p then "Critical vulnerabilities found"
           else "No critical vulnerabilities")
  else
    c2 <- str_in "high_count <= 10" cond ;;
    if c2 then
      let p := (high_count m <=? 10)%nat in
      Ok (p, if negb p then
               "High severity count (" ++ str_nat (high_count m)
               ++ ") exceeds threshold (10)"
             else "High severity within limits")
    else
      c3 <- str_in "secret_count == 0" cond ;;
      if c3 then
        let p := (secret_count m =? 0)%nat in
        Ok (p, if negb p then "Secrets detected in codebase"
               else "No secrets detected")
      else
        c4 <- str_in "required_tools_passed" cond ;;
        if c4 then
          let p := required_tools_passed m in
          Ok (p, if negb p then "Required security tools failed"
                 else "All required tools passed")
        else Ok (true, "Rule condition not recognized").

Definition _evaluate_rule (rule : dict) (m : Metrics) : RuleResult :=
  let cond := get rule "condition" (JStr "") in
  match rule_verdict cond m with
  | Ok (p, why) =>
      {| name := get rule "name" (JStr "Unknown Rule");
         passed := p;
         condition := Some cond;
         reason := why;
         action := Some (get rule "action" (JStr "fail")) |}
  | Raise (Exn _ msg) =>
      {| name := get rule "name" (JStr "Unknown Rule");
         passed := false;
         condition := Some cond;
         reason := "Evaluation error: " ++ msg;
         action := Some (get rule "action" (JStr "fail")) |}
  end.

Definition required_tools_entry : RuleResult :=
  {| name := JStr "Required tools evaluation";
     passed := false;
     condition := None;
     reason := "One or more required security tools failed";
     action := None |}.

(** [self.gate_details['failed_rules'].append(entry)] *)
Definition append_failed_rule (d : Details) (entry : RuleResult) : result Details :=
  match failed_rules d with
  | Some rs =>
      Ok {| status := status d;
            failed_rules := Some (rs ++ [entry])%list;
            passed_rules := passed_rules d;
            metrics := metrics d;
            timestamp := timestamp d |}
  | None => Raise (Exn KeyError "'failed_rules'")
  end.

(** [evaluate_security_gates]; [now] is [datetime.utcnow().isoformat()]. *)
Definition evaluate_security_gates (now : string) (self : Evaluator)
  : result Evaluator :=
  m <- _calculate_vulnerability_metrics self ;;
  let gate_results := map (fun rule => _evaluate_rule rule m)
                          (policy_rules (config self)) in
  let failed := filter (fun r => negb (passed r)) gate_results in
  let self1 :=
    match failed with
    | _ :: _ =>
        {| config := config self; scan_results := scan_results self;
           vulnerabilities := vulnerabilities self;
           gate_status := FAILED;
           gate_details := Some {| status := FAILED;
                                   failed_rules := Some failed;
                                   passed_rules := None;
                                   metrics := m;
                                   timestamp := now |} |}
    | [] =>
        {| config := config self; scan_results := scan_results self;
           vulnerabilities := vulnerabilities self;
           gate_status := PASSED;
           gate_details := Some {| status := PASSED;
                                   failed_rules := None;
                                   passed_rules := Some (map name gate_results);
                                   metrics := m;
                                   timestamp := now |} |}
    end in
  tools_ok <- _evaluate_required_tools self1 ;;
  if negb tools_ok then
    match gate_details self1 with
    | Some d =>
        d' <- append_failed_rule d required_tools_entry ;;
        Ok {| config := config self1; scan_results := scan_results self1;
              vulnerabilities := vulnerabilities self1;
              gate_status := FAILED;
              gate_details := Some d' |}
    | None => Raise (Exn KeyError "'failed_rules'")
    end
  else Ok self1.

(** The figure [save_evaluation_results] stores as
    [gate_details['total_vulnerabilities']]. *)
Definition saved_total_vulnerabilities (m : Metrics) : nat :=
  critical_count m + high_count m + medium_count m + low_count m.

(** The object [save_evaluation_results] writes: [gate_details] with
    seven more keys and a new timestamp.  [stamp] is the time as
    [strftime('%Y%m%d-%H%M%S')] prints it, [now] its ISO form; without an
    evaluation [gate_details] is empty and has no 'metrics'. *)
Record Report : Type := {
  details : Details;
  scan_id : string;
  saved_gate_status : Status;
  saved_total : nat;
  critical_issues : nat;
  high_issues : nat;
  medium_issues : nat;
  low_issues : nat
}.

Definition save_evaluation_results (stamp now : string) (self : Evaluator)
  : result Report :=
  match gate_details self with
  | Some d =>
      Ok {| details := {| status := status d;
                          failed_rules := failed_rules d;
                          passed_rules := passed_rules d;
                          metrics := metrics d;
                          timestamp := now |};
            scan_id := "scan-" ++ stamp;
            saved_gate_status := gate_status self;
            saved_total := saved_total_vulnerabilities (metrics d);
            critical_issues := critical_count (metrics d);
            high_issues := high_count (metrics d);
            medium_issues := medium_count (metrics d);
            low_issues := low_count (metrics d) |}
  | None => Raise (Exn KeyError "'metrics'")
  end.

(** The [try] block of [main] from the evaluation on: evaluate, build the
    report, write it.  [write] is what creating the directory and dumping
    the report to the output file do: they return or raise.  [stamp] and
    [later] are the two times [save_evaluation_results] reads. *)
Definition main_try (now stamp later : string) (write : Report -> result unit)
  (self : Evaluator) : result (Status * Report) :=
  self1 <- evaluate_security_gates now self ;;
  report <- save_evaluation_results stamp later self1 ;;
  _ <- write report ;;
  Ok (gate_status self1, report).

(** The lines [main] prints for CI and the code it exits with, once the
    scan results are loaded.  An exception of the evaluation or of the
    writing ends in the handler of [main]. *)
Definition main_report (now stamp later : string) (write : Report -> result unit)
  (self : Evaluator) : list string * Z :=
  match main_try now stamp later write self with
  | Ok (FAILED, report) =>
      (["SECURITY_GATE_STATUS=FAILED";
        "CRITICAL_ISSUES=" ++ str_nat (critical_issues report);
        "HIGH_ISSUES=" ++ str_nat (high_issues report)], 1%Z)
  | Ok (_, _) => (["SECURITY_GATE_STATUS=PASSED"], 0%Z)
  | Raise _ => (["SECURITY_GATE_STATUS=ERROR"], 1%Z)
  end.

End Gate.

(* ===================================================================== *)
(** * generate-security-dashboard.py: the findings shown first *)
(* ===================================================================== *)

Module Dashboard.
Import Py.

Definition severity_order : list (string * nat) :=
  [("critical", 4); ("high", 3); ("medium", 2); ("low", 1)].

(** [severity_order.get(sev, 0)] *)
Definition severity_rank (sev : json) : result nat :=
  if hashable sev then
    Ok (match sev with
        | JStr s => match lookup severity_order s with
                    | Some n => n
                    | None => 0
                    end
        | _ => 0
        end)
  else Raise (Exn TypeError ("unhashable type: '" ++ type_name sev ++ "'")).

(** The [key] lambda of [_get_top_vulnerabilities]. *)
Definition sort_key (v : json) : result (nat * json) :=
  sev <- vget v "severity" (JStr "low") ;;
  rank <- severity_rank sev ;;
  title <- vget v "title" (JStr "") ;;
  Ok (rank, title).

(** The local [sorted_vulns]: the keys are computed first, once for each
    element, then the list is sorted and cut to [limit] elements. *)
Definition sorted_vulns (limit : nat) (vulnerability_data : json)
  : result (list json) :=
  entries <- iter vulnerability_data ;;
  keyed <- mapM (fun v => k <- sort_key v ;; Ok (k, v)) entries ;;
  sorted <- sorted_reverse keyed ;;
  Ok (firstn limit (map snd sorted)).

Section Formatting.

Variable repr_container : json -> string.

Definition _format_location (vuln : json) : result json :=
  file_path <- vget vuln "file_path" (JStr "") ;;
  line_number <- vget vuln "line_number" JNull ;;
  if truthy file_path && truthy line_number then
    Ok (JStr (str repr_container file_path ++ ":" ++ str repr_container line_number))
  else if truthy file_path then Ok file_path
  else Ok (JStr "N/A").

Definition formatted_vuln (vuln : json) : result dict :=
  severity <- vget vuln "severity" (JStr "unknown") ;;
  title <- vget vuln "title" (JStr "Unknown vulnerability") ;;
  tool <- vget vuln "tool" (JStr "unknown") ;;
  category <- vget vuln "category" (JStr "unknown") ;;
  location <- _format_location vuln ;;
  Ok [("severity", severity); ("title", title); ("tool", tool);
      ("category", category); ("location", location)].

(** [_get_top_vulnerabilities(limit)], for a limit that is not negative
    (the script calls it with 10). *)
Definition _get_top_vulnerabilities (limit : nat) (vulnerability_data : json)
  : result (list dict) :=
  top <- sorted_vulns limit vulnerability_data ;;
  mapM formatted_vuln top.

End Formatting.

End Dashboard.

(* ===================================================================== *)
(** * security-notification-handler.py: urgency and channels *)
(* ===================================================================== *)

Module Notify.
Import Py.

(** [scan_data.get('severity_counts', {}).get(severity, 0)] *)
Definition severity_count (scan_data : dict) (severity : string) : result json :=
  vget (get scan_data "severity_counts" (JObj [])) severity (JNum 0).

(** [v > n] for an integer literal [n]. *)
Definition gt_int (v : json) (n : Z) : result bool :=
  match as_number v with
  | Some x => Ok (n <? x)%Z
  | None =>
      Raise (Exn TypeError ("'>' not supported between instances of '"
                            ++ type_name v ++ "' and 'int'"))
  end.

(** [_determine_notification_requirements]: the urgency and the channels
    to notify. *)
Definition _determine_notification_requirements (gate_result : string)
  (scan_data : dict) : result (string * list string) :=
  if gate_result =? "failure" then
    critical_count <- severity_count scan_data "critical" ;;
    is_critical <- gt_int critical_count 0 ;;
    if is_critical then Ok ("critical", ["email"; "slack"; "teams"; "webhook"])
    else Ok ("high", ["email"; "slack"; "webhook"])
  else
    high_count <- severity_count scan_data "high" ;;
    many_high <- gt_int high_count 5 ;;
    if many_high then Ok ("high", ["email"; "slack"])
    else
      medium_count <- severity_count scan_data "medium" ;;
      many_medium <- gt_int medium_count 10 ;;
      if many_medium then Ok ("medium", ["slack"; "webhook"])
      else Ok ("info", ["webhook"]).

End Notify.

(* ===================================================================== *)
(** * Facts about the Python builtins *)
(* ===================================================================== *)

Module PyFacts.
Import Py.

Lemma bind_ok {A B : Type} (r : result A) (k : A -> result B) (b : B) :
  (x <- r ;; k x) = Ok b -> exists a, r = Ok a /\ k a = Ok b.
Proof.
  destruct r as [a | e]; simpl; intros H; [eauto | discriminate].
Qed.

(** Inverts one [bind] in a hypothesis. *)
Ltac bind_inv H :=
  let a := fresh "a" in
  let Ha := fresh "Ha" in
  apply bind_ok in H; destruct H as (a & Ha & H).

Lemma prefix_app (p s : string) :
  prefix p s = true <-> exists post, s = p ++ post.
Proof.
  revert s; induction p as [| c p IH]; intros s; simpl.
  - destruct s; split; intros; eauto.
  - destruct s as [| d s]; simpl.
    + split; [discriminate | intros [post H]; discriminate].
    + destruct (ascii_dec c d) as [-> | Hne].
      * rewrite IH. split; intros [post H]; exists post.
        -- now rewrite H.
        -- now inversion H.
      * split; [discriminate | intros [post H]; inversion H; congruence].
Qed.

(** [contains] is the substring relation. *)
Lemma contains_app (p s : string) :
  contains p s = true <-> exists pre post, s = pre ++ p ++ post.
Proof.
  induction s as [| c s IH].
  - change (contains p "") with (prefix p "" || false).
    rewrite orb_false_r, prefix_app. split.
    + intros [post H]. exists "", post. exact H.
    + intros (pre & post & H). destruct pre; simpl in H; [eauto | discriminate].
  - change (contains p (String c s))
      with (prefix p (String c s) || contains p s).
    rewrite orb_true_iff, IH, prefix_app. split.
    + intros [[post H] | (pre & post & H)].
      * exists "", post. exact H.
      * exists (String c pre), post. simpl. now rewrite H.
    + intros (pre & post & H). destruct pre as [| d pre]; simpl in H.
      * left. eauto.
      * right. inversion H. eauto.
Qed.

Lemma contains_empty (s : string) : contains "" s = true.
Proof. destruct s; reflexivity. Qed.

Lemma in_strs_In (v : json) (l : list string) :
  in_strs v l = true <-> exists s, v = JStr s /\ In s l.
Proof.
  unfold in_strs. rewrite existsb_exists. split.
  - intros (s & Hin & He). destruct v; simpl in He; try discriminate.
    apply String.eqb_eq in He. subst. eauto.
  - intros (s & -> & Hin). exists s. split; [exact Hin |].
    simpl. apply String.eqb_refl.
Qed.

Lemma lookup_set_same (d : dict) (k : string) (v : json) :
  lookup (set d k v) k = Some v.
Proof.
  induction d as [| [k' v'] d IH]; simpl.
  - now rewrite String.eqb_refl.
  - destruct (k' =? k) eqn:E; simpl.
    + now rewrite String.eqb_refl.
    + now rewrite E.
Qed.

Lemma lookup_set_other (d : dict) (k k' : string) (v : json) :
  k <> k' -> lookup (set d k v) k' = lookup d k'.
Proof.
  intros Hne. induction d as [| [k0 v0] d IH]; simpl.
  - apply String.eqb_neq in Hne. now rewrite Hne.
  - destruct (k0 =? k) eqn:E; simpl.
    + apply String.eqb_eq in E. subst k0.
      apply String.eqb_neq in Hne. now rewrite Hne.
    + now rewrite IH.
Qed.

End PyFacts.

(* ===================================================================== *)
(** * The gate decision *)
(* ===================================================================== *)

Module GateFacts.
Import Py PyFacts Gate.

(** The status an evaluation ends with, or the exception it raises. *)
Definition status_of (r : result Evaluator) : result Status :=
  self <- r ;; Ok (gate_status self).

(** The evaluator with other rules, other thresholds. *)
Definition with_rules (self : Evaluator) (rules : list dict) : Evaluator :=
  {| config := {| severity_thresholds := severity_thresholds (config self);
                  tool_requirements := tool_requirements (config self);
                  policy_rules := rules;
                  allow_list := allow_list (config self);
                  fail_conditions := fail_conditions (config self) |};
     scan_results := scan_results self;
     vulnerabilities := vulnerabilities self;
     gate_status := gate_status self;
     gate_details := gate_details self |}.

Definition with_thresholds (self : Evaluator) (th : list (string * Z)) : Evaluator :=
  {| config := {| severity_thresholds := th;
                  tool_requirements := tool_requirements (config self);
                  policy_rules := policy_rules (config self);
                  allow_list := allow_list (config self);
                  fail_conditions := fail_conditions (config self) |};
     scan_results := scan_results self;
     vulnerabilities := vulnerabilities self;
     gate_status := gate_status self;
     gate_details := gate_details self |}.

(** An evaluator as [main] builds it, before anything is loaded. *)
Definition fresh (policy : SecurityGateConfig) (vs : list dict) : Evaluator :=
  with_vulnerabilities (__init__ policy) vs.

(** Metrics of a run without findings. *)
Definition no_metrics : Metrics :=
  {| total_vulnerabilities := 0; critical_count := 0; high_count := 0;
     medium_count := 0; low_count := 0; secret_count := 0; cve_count := 0;
     tool_counts := []; category_counts := [];
     critical_vulnerabilities_exist := false;
     excessive_high_vulnerabilities := false;
     secrets_detected := false; required_tools_passed := true |}.

(** The rule results whose [passed] is false. *)
Definition failed_of (rules : list dict) (m : Metrics) : list RuleResult :=
  filter (fun r => negb (passed r)) (map (fun rule => _evaluate_rule rule m) rules).

Lemma metrics_required_tools (self : Evaluator) (m : Metrics) :
  _calculate_vulnerability_metrics self = Ok m ->
  _evaluate_required_tools self = Ok (required_tools_passed m).
Proof.
  unfold _calculate_vulnerability_metrics. intros H.
  bind_inv H. bind_inv H. bind_inv H.
  inversion H; subst; simpl. assumption.
Qed.

(** With no recorded tool results, a tool that is required fails the
    check. *)
Lemma required_tools_loop_empty (reqs : list (string * dict)) :
  required_tools_loop (JObj []) reqs =
  Ok (forallb (fun tr => negb (truthy (get (snd tr) "required" (JBool false)))) reqs).
Proof.
  induction reqs as [| [tool requirements] reqs IH]; simpl; [reflexivity |].
  destruct (truthy (get requirements "required" (JBool false))); simpl; auto.
Qed.

(** The three ways an evaluation ends, by the failed rules and the
    required tools. *)
Lemma evaluate_status (now : string) (self : Evaluator) (m : Metrics) :
  _calculate_vulnerability_metrics self = Ok m ->
  status_of (evaluate_security_gates now self) =
    match failed_of (policy_rules (config self)) m, required_tools_passed m with
    | _ :: _, _ => Ok FAILED
    | [], true => Ok PASSED
    | [], false => Raise (Exn KeyError "'failed_rules'")
    end.
Proof.
  intros Hm. pose proof (metrics_required_tools _ _ Hm) as Ht.
  unfold evaluate_security_gates, status_of. rewrite Hm. simpl.
  fold (failed_of (policy_rules (config self)) m).
  destruct (failed_of (policy_rules (config self)) m) as [| r rs];
    unfold _evaluate_required_tools in *; simpl; rewrite Ht; simpl;
    destruct (required_tools_passed m); reflexivity.
Qed.

Lemma failed_of_nil (rules : list dict) (m : Metrics) :
  failed_of rules m = [] <->
  forall rule, In rule rules -> passed (_evaluate_rule rule m) = true.
Proof.
  unfold failed_of. induction rules as [| r rules IH]; simpl.
  - split; [intros _ rule [] | reflexivity].
  - destruct (passed (_evaluate_rule r m)) eqn:E; simpl.
    + rewrite IH. split.
      * intros H rule [<- | Hin]; auto.
      * intros H rule Hin. apply H. now right.
    + split; [discriminate |].
      intros H. specialize (H r (or_introl eq_refl)). congruence.
Qed.

Lemma failed_of_app (pre post : list dict) (m : Metrics) :
  failed_of (pre ++ post) m = (failed_of pre m ++ failed_of post m)%list.
Proof. unfold failed_of. now rewrite map_app, filter_app. Qed.

(** The metrics do not read [policy_rules]. *)
Lemma metrics_with_rules (self : Evaluator) (rules : list dict) :
  _calculate_vulnerability_metrics (with_rules self rules) =
  _calculate_vulnerability_metrics self.
Proof. reflexivity. Qed.

(** When the condition is a string, [rule_verdict] is a cascade of
    substring tests. *)
Lemma rule_verdict_str (c : string) (m : Metrics) :
  rule_verdict (JStr c) m =
    if contains "critical_count == 0" c then
      Ok ((critical_count m =? 0)%nat,
          if negb (critical_count m =? 0)%nat then "Critical vulnerabilities found"
          else "No critical vulnerabilities")
    else if contains "high_count <= 10" c then
      Ok ((high_count m <=? 10)%nat,
          if negb (high_count m <=? 10)%nat then
            "High severity count (" ++ str_nat (high_count m)
            ++ ") exceeds threshold (10)"
          else "High severity within limits")
    else if contains "secret_count == 0" c then
      Ok ((secret_count m =? 0)%nat,
          if negb (secret_count m =? 0)%nat then "Secrets detected in codebase"
          else "No secrets detected")
    else if contains "required_tools_passed" c then
      Ok (required_tools_passed m,
          if negb (required_tools_passed m) then "Required security tools failed"
          else "All required tools passed")
    else Ok (true, "Rule condition not recognized").
Proof.
  unfold rule_verdict, str_in, bind.
  repeat match goal with |- context [contains ?p c] => destruct (contains p c) end;
    reflexivity.
Qed.

(** The condition is what raises, and only when it is no container. *)
Lemma rule_verdict_raises (cond : json) (m : Metrics) (e : exn) :
  rule_verdict cond m = Raise e <->
  (cond = JNull \/ (exists b, cond = JBool b) \/ (exists n, cond = JNum n)) /\
  e = Exn TypeError ("argument of type '" ++ type_name cond ++ "' is not iterable").
Proof.
  unfold rule_verdict. destruct cond; simpl.
  - split; [intros H; inversion H; auto | intros [_ ->]; reflexivity].
  - split; [intros H; inversion H; eauto | intros [_ ->]; reflexivity].
  - split; [intros H; inversion H; eauto 6 | intros [_ ->]; reflexivity].
  - split.
    + intros H.
      repeat match type of H with
             | context [if ?b then _ else _] => destruct b; simpl in H
             end; discriminate.
    + intros [[H | [[b H] | [n H]]] _]; discriminate.
  - split.
    + intros H.
      repeat match type of H with
             | context [if ?b then _ else _] => destruct b; simpl in H
             end; discriminate.
    + intros [[H | [[b H] | [n H]]] _]; discriminate.
  - split.
    + intros H.
      repeat match type of H with
             | context [if ?b then _ else _] => destruct b; simpl in H
             end; discriminate.
    + intros [[H | [[b H] | [n H]]] _]; discriminate.
Qed.

Lemma evaluate_raises (now : string) (self : Evaluator) (e : exn) :
  _calculate_vulnerability_metrics self = Raise e ->
  evaluate_security_gates now self = Raise e.
Proof. intros H. unfold evaluate_security_gates. now rewrite H. Qed.

(** An evaluation that raises ends in the handler of [main], whatever
    the writing would have done. *)
Lemma main_report_raises (now stamp later : string) (write : Report -> result unit)
  (self : Evaluator) (e : exn) :
  evaluate_security_gates now self = Raise e ->
  main_report now stamp later write self = (["SECURITY_GATE_STATUS=ERROR"], 1%Z).
Proof. intros H. unfold main_report, main_try. now rewrite H. Qed.

Lemma rule_result_str (rule : dict) (c : string) (m : Metrics) :
  get rule "condition" (JStr "") = JStr c ->
  exists p why,
    rule_verdict (JStr c) m = Ok (p, why) /\
    passed (_evaluate_rule rule m) = p /\ reason (_evaluate_rule rule m) = why.
Proof.
  intros Hc. unfold _evaluate_rule. rewrite Hc.
  destruct (rule_verdict (JStr c) m) as [[p why] | e] eqn:E.
  - exists p, why. auto.
  - apply rule_verdict_raises in E.
    destruct E as [[H | [[b H] | [n H]]] _]; discriminate.
Qed.

(** A passing rule can be dropped from the policy without changing how
    the evaluation ends. *)
Lemma passing_rule_is_neutral (now : string) (self : Evaluator)
  (pre post : list dict) (rule : dict) :
  (forall m, passed (_evaluate_rule rule m) = true) ->
  policy_rules (config self) = (pre ++ rule :: post)%list ->
  status_of (evaluate_security_gates now self) =
  status_of (evaluate_security_gates now (with_rules self (pre ++ post))).
Proof.
  intros Hp Hr.
  destruct (_calculate_vulnerability_metrics self) as [m | e] eqn:Hm.
  - rewrite (evaluate_status now self m Hm).
    rewrite (evaluate_status now (with_rules self (pre ++ post)) m Hm).
    rewrite Hr. simpl policy_rules. rewrite !failed_of_app.
    replace (failed_of (rule :: post) m) with (failed_of post m); [reflexivity |].
    unfold failed_of. simpl. now rewrite Hp.
  - rewrite (evaluate_raises now self e Hm).
    now rewrite (evaluate_raises now (with_rules self (pre ++ post)) e Hm).
Qed.

(** C5. A rule whose condition is a string containing none of the four
    known patterns evaluates to passed, with the reason "Rule condition
    not recognized"; wherever it stands in the policy, the evaluation ends
    as it does without the rule. *)
Theorem unrecognized_condition_passes (rule : dict) (c : string) :
  get rule "condition" (JStr "") = JStr c ->
  contains "critical_count == 0" c = false ->
  contains "high_count <= 10" c = false ->
  contains "secret_count == 0" c = false ->
  contains "required_tools_passed" c = false ->
  (forall m,
     passed (_evaluate_rule rule m) = true /\
     reason (_evaluate_rule rule m) = "Rule condition not recognized") /\
  (forall now self pre post,
     policy_rules (config self) = (pre ++ rule :: post)%list ->
     status_of (evaluate_security_gates now self) =
     status_of (evaluate_security_gates now (with_rules self (pre ++ post)))).
Proof.
  intros Hc H1 H2 H3 H4.
  assert (Hm : forall m,
             passed (_evaluate_rule rule m) = true /\
             reason (_evaluate_rule rule m) = "Rule condition not recognized").
  { intros m. destruct (rule_result_str rule c m Hc) as (p & why & Hv & Hp & Hw).
    rewrite rule_verdict_str, H1, H2, H3, H4 in Hv. inversion Hv.
    split; congruence. }
  split; [exact Hm |].
  intros now self pre post Hr.
  apply passing_rule_is_neutral with (rule := rule); [| exact Hr].
  intros m. apply Hm.
Qed.

Definition audit_rule : dict :=
  [("name", JStr "Dependencies reviewed");
   ("condition", JStr "medium_count <= 50");
   ("action", JStr "fail")].

Lemma unrecognized_condition_passes_witness :
  passed (_evaluate_rule audit_rule no_metrics) = true /\
  reason (_evaluate_rule audit_rule no_metrics) = "Rule condition not recognized".
Proof.
  exact (proj1 (unrecognized_condition_passes audit_rule "medium_count <= 50"
                  eq_refl eq_refl eq_refl eq_refl eq_refl) no_metrics).
Defined.

Definition null_condition_rule : dict :=
  [("name", JStr "No critical vulnerabilities"); ("condition", JNull)].

(** A rule that has a name and an action but no condition. *)
Definition no_condition_rule : dict :=
  [("name", JStr "No critical vulnerabilities"); ("action", JStr "fail")].

(** C4 (as the code has it). Matching the condition of a rule raises
    exactly when the condition is null, a boolean or a number.  When it
    raises, the rule result has passed = false and the reason
    "Evaluation error: " followed by the text of the exception, which
    says that the argument is not iterable, and an evaluation whose
    policy holds the rule ends with status FAILED.  A rule that has no
    [condition] key does not raise: it is evaluated on the empty
    condition, passes with the reason "Rule condition not recognized",
    and the evaluation ends as it does without the rule. *)
Theorem raising_condition_fails_closed (rule : dict) :
  (forall m,
     (exists e, rule_verdict (get rule "condition" (JStr "")) m = Raise e) <->
     (get rule "condition" (JStr "") = JNull \/
      (exists b, get rule "condition" (JStr "") = JBool b) \/
      (exists n, get rule "condition" (JStr "") = JNum n))) /\
  (forall m k msg,
     rule_verdict (get rule "condition" (JStr "")) m = Raise (Exn k msg) ->
     msg = "argument of type '" ++ type_name (get rule "condition" (JStr ""))
           ++ "' is not iterable" /\
     passed (_evaluate_rule rule m) = false /\
     reason (_evaluate_rule rule m) = "Evaluation error: " ++ msg /\
     (forall now self,
        In rule (policy_rules (config self)) ->
        _calculate_vulnerability_metrics self = Ok m ->
        status_of (evaluate_security_gates now self) = Ok FAILED)) /\
  (lookup rule "condition" = None ->
   (forall m,
      passed (_evaluate_rule rule m) = true /\
      reason (_evaluate_rule rule m) = "Rule condition not recognized") /\
   (forall now self pre post,
      policy_rules (config self) = (pre ++ rule :: post)%list ->
      status_of (evaluate_security_gates now self) =
      status_of (evaluate_security_gates now (with_rules self (pre ++ post))))).
Proof.
  split; [| split].
  - intros m. split.
    + intros [e He]. apply rule_verdict_raises in He. tauto.
    + intros H. eexists. apply rule_verdict_raises. split; [exact H | reflexivity].
  - intros m k msg Hv.
    assert (Hp : passed (_evaluate_rule rule m) = false).
    { unfold _evaluate_rule. now rewrite Hv. }
    split; [| split; [exact Hp | split]].
    + apply rule_verdict_raises in Hv. destruct Hv as [_ Hv]. now injection Hv.
    + unfold _evaluate_rule. now rewrite Hv.
    + intros now self Hin Hm. rewrite (evaluate_status now self m Hm).
      destruct (failed_of (policy_rules (config self)) m) eqn:E; [| reflexivity].
      rewrite failed_of_nil in E. specialize (E rule Hin). congruence.
  - intros Hnone.
    assert (Hc : get rule "condition" (JStr "") = JStr "").
    { unfold get. now rewrite Hnone. }
    assert (Hm : forall m,
               passed (_evaluate_rule rule m) = true /\
               reason (_evaluate_rule rule m) = "Rule condition not recognized").
    { intros m. destruct (rule_result_str rule "" m Hc) as (p & why & Hv & Hp & Hw).
      rewrite rule_verdict_str in Hv. cbn in Hv. injection Hv as Ep Ew.
      split; congruence. }
    split; [exact Hm |].
    intros now self pre post Hr.
    apply passing_rule_is_neutral with (rule := rule); [| exact Hr].
    intros m. apply Hm.
Qed.

Lemma raising_condition_fails_closed_witness :
  (passed (_evaluate_rule null_condition_rule no_metrics) = false /\
   reason (_evaluate_rule null_condition_rule no_metrics) =
     "Evaluation error: argument of type 'NoneType' is not iterable") /\
  (passed (_evaluate_rule no_condition_rule no_metrics) = true /\
   reason (_evaluate_rule no_condition_rule no_metrics)
     = "Rule condition not recognized").
Proof.
  split.
  - destruct (proj1 (proj2 (raising_condition_fails_closed null_condition_rule))
                no_metrics TypeError "argument of type 'NoneType' is not iterable"
                eq_refl)
      as (_ & Hp & Hr & _).
    split; [exact Hp | exact Hr].
  - exact (proj1 (proj2 (proj2 (raising_condition_fails_closed no_condition_rule))
                    eq_refl) no_metrics).
Defined.

Definition no_condition_policy : SecurityGateConfig :=
  {| severity_thresholds := severity_thresholds _get_default_policy;
     tool_requirements := [];
     policy_rules := [no_condition_rule];
     allow_list := [];
     fail_conditions := [] |}.

Definition critical_finding : dict :=
  [("id", JStr "codeql-results-cs/sql-injection");
   ("title", JStr "SQL injection");
   ("severity", JStr "critical");
   ("tool", JStr "codeql-results");
   ("category", JStr "SAST")].

(** C4, refuted as stated: a rule without a [condition] key is evaluated
    on the empty condition, passes, and the gate passes with it, here
    over a critical finding. *)
Lemma missing_condition_passes :
  lookup no_condition_rule "condition" = None /\
  passed (_evaluate_rule no_condition_rule no_metrics) = true /\
  reason (_evaluate_rule no_condition_rule no_metrics)
    = "Rule condition not recognized" /\
  status_of (evaluate_security_gates "2024-01-01T00:00:00"
               (fresh no_condition_policy [critical_finding])) = Ok PASSED.
Proof. repeat split; reflexivity. Qed.

(** A rule reads four entries of the metrics and nothing else. *)
Lemma evaluate_rule_reads (rule : dict) (m m' : Metrics) :
  critical_count m = critical_count m' ->
  high_count m = high_count m' ->
  secret_count m = secret_count m' ->
  required_tools_passed m = required_tools_passed m' ->
  _evaluate_rule rule m = _evaluate_rule rule m'.
Proof.
  intros H1 H2 H3 H4. unfold _evaluate_rule, rule_verdict.
  now rewrite H1, H2, H3, H4.
Qed.

(** The counts do not depend on the configured thresholds. *)
Lemma metrics_thresholds (self : Evaluator) (th th' : list (string * Z))
  (m m' : Metrics) :
  _calculate_vulnerability_metrics (with_thresholds self th) = Ok m ->
  _calculate_vulnerability_metrics (with_thresholds self th') = Ok m' ->
  critical_count m = critical_count m' /\
  high_count m = high_count m' /\
  secret_count m = secret_count m' /\
  required_tools_passed m = required_tools_passed m'.
Proof.
  unfold _calculate_vulnerability_metrics. intros H H'.
  bind_inv H. bind_inv H. bind_inv H.
  bind_inv H'. bind_inv H'. bind_inv H'.
  change (foldM (tally_step (config self)) empty_tally (vulnerabilities self)
          = Ok a) in Ha.
  change (foldM (tally_step (config self)) empty_tally (vulnerabilities self)
          = Ok a2) in Ha2.
  change (_evaluate_required_tools self = Ok a1) in Ha1.
  change (_evaluate_required_tools self = Ok a4) in Ha4.
  assert (a2 = a) by congruence. assert (a4 = a1) by congruence. subst.
  inversion H; inversion H'; subst; simpl. auto.
Qed.

(** The two reasons of the high-severity branch. *)
Definition high_reason (why : string) : Prop :=
  why = "High severity within limits" \/
  exists n, why = "High severity count (" ++ str_nat n ++ ") exceeds threshold (10)".

(** C8. For a rule whose condition is a string: the rule gets the
    high-severity verdict only if the condition contains the text
    "high_count <= 10"; if it does, and does not contain
    "critical_count == 0", which is tested first, the rule passes exactly
    when high_count is at most the constant 10, and the result is the same
    whatever thresholds the policy configures. *)
Theorem high_rule_uses_constant_10 (rule : dict) (c : string) :
  get rule "condition" (JStr "") = JStr c ->
  (forall m, high_reason (reason (_evaluate_rule rule m)) ->
             contains "high_count <= 10" c = true) /\
  (contains "critical_count == 0" c = false ->
   contains "high_count <= 10" c = true ->
   (forall m, passed (_evaluate_rule rule m) = (high_count m <=? 10)%nat /\
              high_reason (reason (_evaluate_rule rule m))) /\
   (forall self th th' m m',
      _calculate_vulnerability_metrics (with_thresholds self th) = Ok m ->
      _calculate_vulnerability_metrics (with_thresholds self th') = Ok m' ->
      _evaluate_rule rule m = _evaluate_rule rule m')).
Proof.
  intros Hc. split.
  - intros m Hr.
    destruct (rule_result_str rule c m Hc) as (p & why & Hv & _ & Hw).
    rewrite Hw in Hr. rewrite rule_verdict_str in Hv.
    destruct (contains "high_count <= 10" c) eqn:E; [reflexivity |].
    exfalso.
    repeat match type of Hv with
           | context [if ?b then _ else _] => destruct b; simpl in Hv
           end;
      inversion Hv;
      destruct Hr as [Hr | [n Hr]]; simpl in Hr; congruence.
  - intros H1 H2. split.
    + intros m.
      destruct (rule_result_str rule c m Hc) as (p & why & Hv & Hp & Hw).
      rewrite rule_verdict_str, H1, H2 in Hv. injection Hv as Ep Ew. split.
      * congruence.
      * rewrite Hw, <- Ew. unfold high_reason.
        destruct (high_count m <=? 10)%nat; simpl;
          [left; reflexivity | right; exists (high_count m); reflexivity].
    + intros self th th' m m' Hm Hm'.
      destruct (metrics_thresholds self th th' m m' Hm Hm') as (E1 & E2 & E3 & E4).
      now apply evaluate_rule_reads.
Qed.

Definition high_100_rule : dict :=
  [("name", JStr "Limited high-severity issues");
   ("condition", JStr "high_count <= 100");
   ("action", JStr "fail")].

Definition fifty_high : Metrics :=
  {| total_vulnerabilities := 50; critical_count := 0; high_count := 50;
     medium_count := 0; low_count := 0; secret_count := 0; cve_count := 0;
     tool_counts := []; category_counts := [];
     critical_vulnerabilities_exist := false;
     excessive_high_vulnerabilities := false;
     secrets_detected := false; required_tools_passed := true |}.

Lemma high_rule_uses_constant_10_witness :
  passed (_evaluate_rule high_100_rule fifty_high) = (50 <=? 10)%nat /\
  high_reason (reason (_evaluate_rule high_100_rule fifty_high)).
Proof.
  exact (proj1 (proj2 (high_rule_uses_constant_10 high_100_rule
                         "high_count <= 100" eq_refl) eq_refl eq_refl)
           fifty_high).
Defined.

(** The condition [high_count <= 100] is read as the threshold 10. *)
Example high_100_is_10 :
  _evaluate_rule high_100_rule fifty_high =
    {| name := JStr "Limited high-severity issues";
       passed := false;
       condition := Some (JStr "high_count <= 100");
       reason := "High severity count (50) exceeds threshold (10)";
       action := Some (JStr "fail") |}.
Proof. reflexivity. Qed.

(** When every rule passes and a required tool did not, the append to
    [failed_rules] finds no such key. *)
Lemma passing_rules_failed_tool (now : string) (self : Evaluator) (m : Metrics) :
  _calculate_vulnerability_metrics self = Ok m ->
  (forall rule, In rule (policy_rules (config self)) ->
                passed (_evaluate_rule rule m) = true) ->
  required_tools_passed m = false ->
  evaluate_security_gates now self = Raise (Exn KeyError "'failed_rules'") /\
  (forall stamp later write,
     main_report now stamp later write self = (["SECURITY_GATE_STATUS=ERROR"], 1%Z)).
Proof.
  intros Hm Hall Ht.
  pose proof (evaluate_status now self m Hm) as Hs.
  apply failed_of_nil in Hall. rewrite Hall, Ht in Hs.
  assert (He : evaluate_security_gates now self = Raise (Exn KeyError "'failed_rules'")).
  { unfold status_of in Hs.
    destruct (evaluate_security_gates now self); simpl in Hs; congruence. }
  split; [exact He |]. intros stamp later write.
  now apply main_report_raises with (e := Exn KeyError "'failed_rules'").
Qed.

(** A policy file with the three count rules and one required tool. *)
Definition codeql_policy : SecurityGateConfig :=
  {| severity_thresholds := severity_thresholds _get_default_policy;
     tool_requirements := [("CodeQL", default_tool true)];
     policy_rules :=
       [default_rule "No critical vulnerabilities" "critical_count == 0";
        default_rule "Limited high-severity issues" "high_count <= 10";
        default_rule "No secrets in code" "secret_count == 0"];
     allow_list := [];
     fail_conditions := [] |}.

(** C3, the failing run: no findings, every rule of the policy passes,
    the required tool has no recorded result.  The evaluation raises
    KeyError instead of producing a decision, and [main] reports ERROR. *)
Theorem evaluation_raises_KeyError :
  _calculate_vulnerability_metrics (fresh codeql_policy []) =
    Ok {| total_vulnerabilities := 0; critical_count := 0; high_count := 0;
          medium_count := 0; low_count := 0; secret_count := 0; cve_count := 0;
          tool_counts := []; category_counts := [];
          critical_vulnerabilities_exist := false;
          excessive_high_vulnerabilities := false;
          secrets_detected := false; required_tools_passed := false |} /\
  evaluate_security_gates "2024-01-01T00:00:00" (fresh codeql_policy [])
    = Raise (Exn KeyError "'failed_rules'") /\
  (forall stamp later write,
     main_report "2024-01-01T00:00:00" stamp later write (fresh codeql_policy [])
     = (["SECURITY_GATE_STATUS=ERROR"], 1%Z)).
Proof. repeat split; reflexivity. Qed.

(** The four default rules, one by one. *)
Lemma default_rules_passed (m : Metrics) :
  map (fun rule => passed (_evaluate_rule rule m)) (policy_rules _get_default_policy)
  = [(critical_count m =? 0)%nat; (high_count m <=? 10)%nat;
     (secret_count m =? 0)%nat; required_tools_passed m].
Proof. reflexivity. Qed.

Lemma all_passed_map (rules : list dict) (m : Metrics) :
  (forall rule, In rule rules -> passed (_evaluate_rule rule m) = true) <->
  forallb (fun b => b) (map (fun rule => passed (_evaluate_rule rule m)) rules) = true.
Proof.
  rewrite forallb_forall. split.
  - intros H b Hb. apply in_map_iff in Hb. destruct Hb as (rule & <- & Hin). auto.
  - intros H rule Hin. apply H. apply in_map_iff. eauto.
Qed.

Lemma default_rules_all_passed (m : Metrics) :
  (forall rule, In rule (policy_rules _get_default_policy) ->
                passed (_evaluate_rule rule m) = true) <->
  critical_count m = 0 /\ high_count m <= 10 /\ secret_count m = 0 /\
  required_tools_passed m = true.
Proof.
  rewrite all_passed_map, default_rules_passed. simpl.
  rewrite !andb_true_iff, Nat.eqb_eq, Nat.leb_le, Nat.eqb_eq. tauto.
Qed.

(** C1 (as the code has it). Given the metrics of a run: a rule of
    [policy_rules] that evaluates to not-passed gives status FAILED; the
    status is PASSED exactly when every rule of [policy_rules] evaluates to
    passed and the required tools passed.  The policy's rules decide what
    is checked: with the four default rules the status is PASSED exactly
    when critical_count = 0, high_count <= 10 (the constant of the rule),
    secret_count = 0 and the required tools passed, and FAILED otherwise. *)
Theorem gate_status_follows_rules (now : string) (self : Evaluator) (m : Metrics) :
  _calculate_vulnerability_metrics self = Ok m ->
  let outcome := status_of (evaluate_security_gates now self) in
  let rules := policy_rules (config self) in
  ((exists rule, In rule rules /\ passed (_evaluate_rule rule m) = false) ->
   outcome = Ok FAILED) /\
  (outcome = Ok PASSED <->
   (forall rule, In rule rules -> passed (_evaluate_rule rule m) = true) /\
   required_tools_passed m = true) /\
  (rules = policy_rules _get_default_policy ->
   (outcome = Ok PASSED <->
    critical_count m = 0 /\ high_count m <= 10 /\ secret_count m = 0 /\
    required_tools_passed m = true) /\
   (outcome = Ok PASSED \/ outcome = Ok FAILED)).
Proof.
  intros Hm outcome rules.
  pose proof (evaluate_status now self m Hm) as Hs.
  fold outcome rules in Hs.
  assert (Hiff : outcome = Ok PASSED <->
                 (forall rule, In rule rules -> passed (_evaluate_rule rule m) = true)
                 /\ required_tools_passed m = true).
  { rewrite <- failed_of_nil, Hs.
    destruct (failed_of rules m), (required_tools_passed m);
      intuition congruence. }
  split; [| split; [exact Hiff |]].
  - intros (rule & Hin & Hp). rewrite Hs.
    destruct (failed_of rules m) eqn:E; [| reflexivity].
    rewrite failed_of_nil in E. specialize (E rule Hin). congruence.
  - intros Hd. split.
    + rewrite Hiff, Hd, default_rules_all_passed. tauto.
    + rewrite Hs. destruct (failed_of rules m) eqn:E; [| now right].
      destruct (required_tools_passed m) eqn:Et; [now left |].
      rewrite failed_of_nil, Hd, default_rules_all_passed in E.
      destruct E as (_ & _ & _ & E). congruence.
Qed.

(** The default rules with no required tool. *)
Definition counts_policy (high : Z) : SecurityGateConfig :=
  {| severity_thresholds :=
       [("critical", 0%Z); ("high", high); ("medium", 50%Z); ("low", 100%Z)];
     tool_requirements := [("Semgrep", default_tool false)];
     policy_rules := policy_rules _get_default_policy;
     allow_list := allow_list _get_default_policy;
     fail_conditions := fail_conditions _get_default_policy |}.

Lemma gate_status_follows_rules_witness :
  status_of (evaluate_security_gates "2024-01-01T00:00:00"
               (fresh (counts_policy 10) [])) = Ok PASSED <->
  critical_count no_metrics = 0 /\ high_count no_metrics <= 10 /\
  secret_count no_metrics = 0 /\ required_tools_passed no_metrics = true.
Proof.
  exact (proj1 (proj2 (proj2 (gate_status_follows_rules "2024-01-01T00:00:00"
                                (fresh (counts_policy 10) []) no_metrics eq_refl))
                  eq_refl)).
Defined.

Definition high_finding : dict :=
  [("id", JStr "semgrep-results-csharp.lang.security.insecure-deserialization");
   ("title", JStr "Insecure deserialization");
   ("severity", JStr "high");
   ("tool", JStr "semgrep-results");
   ("category", JStr "SAST")].

(** A policy without rules and without required tools. *)
Definition empty_policy : SecurityGateConfig :=
  {| severity_thresholds := severity_thresholds _get_default_policy;
     tool_requirements := [];
     policy_rules := [];
     allow_list := [];
     fail_conditions := [] |}.

(** C1, refuted as stated, on both sides.  A policy without rules passes
    over a critical finding; under the default rules with the high
    threshold set to 100 and no tool required, eleven high findings fail
    the gate although every condition of the claim holds. *)
Lemma status_not_decided_by_thresholds :
  (exists m,
     _calculate_vulnerability_metrics (fresh empty_policy [critical_finding]) = Ok m /\
     critical_count m = 1 /\
     status_of (evaluate_security_gates "2024-01-01T00:00:00"
                  (fresh empty_policy [critical_finding])) = Ok PASSED) /\
  (exists m,
     _calculate_vulnerability_metrics
       (fresh (counts_policy 100) (repeat high_finding 11)) = Ok m /\
     high_threshold (counts_policy 100) = Ok 100%Z /\
     critical_count m = 0 /\ (Z.of_nat (high_count m) <= 100)%Z /\
     secret_count m = 0 /\ required_tools_passed m = true /\
     status_of (evaluate_security_gates "2024-01-01T00:00:00"
                  (fresh (counts_policy 100) (repeat high_finding 11)))
       = Ok FAILED).
Proof.
  split.
  - eexists. split; [reflexivity |]. split; reflexivity.
  - eexists. split; [vm_compute; reflexivity |].
    repeat split; try reflexivity. vm_compute. discriminate.
Qed.

End GateFacts.

(* ===================================================================== *)
(** * The aggregator: allow-list and counts *)
(* ===================================================================== *)

Module AggregatorFacts.
Import Py PyFacts Gate GateFacts.

Lemma foldM_app {A S : Type} (f : S -> A -> result S) (s : S) (xs ys : list A) :
  foldM f s (xs ++ ys) = (s' <- foldM f s xs ;; foldM f s' ys).
Proof.
  revert s; induction xs as [| x xs IH]; intros s; simpl; [reflexivity |].
  destruct (f s x); simpl; auto.
Qed.

(** An element the step ignores can be dropped from the list. *)
Lemma foldM_skip {A S : Type} (f : S -> A -> result S) (s : S)
  (pre post : list A) (x : A) :
  (forall s', f s' x = Ok s') ->
  foldM f s (pre ++ x :: post) = foldM f s (pre ++ post).
Proof.
  intros Hx. rewrite !foldM_app. destruct (foldM f s pre); simpl; [| reflexivity].
  now rewrite Hx.
Qed.

(** The allow-list test, for a finding whose title is a string (or
    absent): the CWE id is an entry of the list, or the lower-cased title
    contains a lower-cased entry. *)
Lemma is_allowed_iff (cfg : SecurityGateConfig) (vuln : dict) (t : string) :
  get vuln "title" (JStr "") = JStr t ->
  exists b,
    _is_allowed_vulnerability cfg vuln = Ok b /\
    (b = true <->
     (exists s, get_none vuln "cwe_id" = JStr s /\ In s (allow_list cfg)) \/
     (exists a pre post, In a (allow_list cfg) /\
                         lower t = pre ++ lower a ++ post)).
Proof.
  intros Ht. unfold _is_allowed_vulnerability. rewrite Ht. simpl.
  set (by_title := existsb (fun a => contains (lower a) (lower t)) (allow_list cfg)).
  assert (Htitle : by_title = true <->
                   exists a pre post, In a (allow_list cfg) /\
                                      lower t = pre ++ lower a ++ post).
  { unfold by_title. rewrite existsb_exists. split.
    - intros (a & Hin & Hc). apply contains_app in Hc.
      destruct Hc as (pre & post & Hc). eauto 6.
    - intros (a & pre & post & Hin & Hc). exists a. split; [exact Hin |].
      apply contains_app. eauto. }
  destruct (truthy (get_none vuln "cwe_id") && in_strs (get_none vuln "cwe_id")
              (allow_list cfg)) eqn:E.
  - exists true. split; [reflexivity |]. split; [intros _ | reflexivity].
    apply andb_true_iff in E. destruct E as [_ E]. left. now apply in_strs_In.
  - exists by_title. split; [reflexivity |]. rewrite Htitle. split; [tauto |].
    intros [(s & Hs & Hin) | H]; [| exact H].
    rewrite Hs in E. apply andb_false_iff in E. destruct E as [E | E].
    + simpl in E. apply negb_false_iff, String.eqb_eq in E. subst s.
      exists "", "", (lower t). auto.
    + assert (in_strs (JStr s) (allow_list cfg) = true)
        by (apply in_strs_In; eauto).
      congruence.
Qed.

(** A false positive or an allow-listed finding leaves every accumulator
    as it is. *)
Lemma tally_step_excluded (cfg : SecurityGateConfig) (t : Tally) (vuln : dict) :
  is_false_positive vuln = true \/ _is_allowed_vulnerability cfg vuln = Ok true ->
  tally_step cfg t vuln = Ok t.
Proof.
  unfold tally_step. intros [H | H].
  - now rewrite H.
  - destruct (is_false_positive vuln); [reflexivity |]. now rewrite H.
Qed.

(** A finding the loop can count: a text title (or none), and a
    severity, tool and category that can be dict keys. *)
Definition countable (vuln : dict) : bool :=
  match get vuln "title" (JStr "") with
  | JStr _ => true
  | _ => false
  end &&
  hashable (get vuln "severity" (JStr "low")) &&
  hashable (get vuln "tool" (JStr "unknown")) &&
  hashable (get vuln "category" (JStr "unknown")).

Lemma tally_step_returns (cfg : SecurityGateConfig) (t : Tally) (vuln : dict) :
  countable vuln = true -> exists t', tally_step cfg t vuln = Ok t'.
Proof.
  unfold countable. rewrite !andb_true_iff. intros [[[Ht Hs] Hto] Hc].
  unfold tally_step. destruct (is_false_positive vuln); [eauto |].
  destruct (get vuln "title" (JStr "")) as [| | | title | |] eqn:Etitle;
    try discriminate.
  destruct (is_allowed_iff cfg vuln title Etitle) as (b & Hb & _).
  rewrite Hb. cbn [bind]. destruct b; [eauto |].
  unfold bump. rewrite Hs, Hto, Hc. cbn [bind]. eauto.
Qed.

(** The metrics are computed whenever the findings can be counted, the
    policy has a high threshold and no tool results are recorded. *)
Lemma metrics_returns (self : Evaluator) :
  forallb countable (vulnerabilities self) = true ->
  lookup (severity_thresholds (config self)) "high" <> None ->
  lookup (scan_results self) "tool_results" = None ->
  exists m, _calculate_vulnerability_metrics self = Ok m.
Proof.
  intros Hv Hth Htr. unfold _calculate_vulnerability_metrics.
  assert (Hfold : forall vs t, forallb countable vs = true ->
                               exists t', foldM (tally_step (config self)) t vs = Ok t').
  { induction vs as [| v vs IH]; simpl; intros t H; [eauto |].
    apply andb_true_iff in H. destruct H as [H1 H2].
    destruct (tally_step_returns (config self) t v H1) as (t1 & Ht1).
    rewrite Ht1. cbn [bind]. auto. }
  destruct (Hfold _ empty_tally Hv) as (t & Ht). rewrite Ht. cbn [bind].
  unfold high_threshold.
  destruct (lookup (severity_thresholds (config self)) "high"); [| congruence].
  cbn [bind]. unfold _evaluate_required_tools, get. rewrite Htr.
  rewrite required_tools_loop_empty. cbn [bind]. eauto.
Qed.

(** A policy file without [severity_thresholds]: the metrics raise. *)
Example missing_threshold_raises :
  _calculate_vulnerability_metrics
    (fresh {| severity_thresholds := [];
              tool_requirements := [];
              policy_rules := policy_rules _get_default_policy;
              allow_list := [];
              fail_conditions := [] |} [])
  = Raise (Exn KeyError "'high'").
Proof. reflexivity. Qed.

(** The title is matched without regard to case. *)
Example title_match_ignores_case :
  _is_allowed_vulnerability _get_default_policy
    [("title", JStr "Outdated DOCUMENTATION link"); ("severity", JStr "low")]
  = Ok true.
Proof. reflexivity. Qed.

(** C7, what holds and what does not: an allow-listed finding (one that
    is not marked as a false positive) changes none of the severity, tool,
    category, secret and CVE counts, and it adds one to
    total_vulnerabilities. *)
Theorem allow_listed_counted_in_total (self : Evaluator) (pre post : list dict)
  (vuln : dict) (m : Metrics) :
  _is_allowed_vulnerability (config self) vuln = Ok true ->
  is_false_positive vuln = false ->
  _calculate_vulnerability_metrics (with_vulnerabilities self (pre ++ post)) = Ok m ->
  exists m',
    _calculate_vulnerability_metrics
      (with_vulnerabilities self (pre ++ vuln :: post)) = Ok m' /\
    critical_count m' = critical_count m /\
    high_count m' = high_count m /\
    medium_count m' = medium_count m /\
    low_count m' = low_count m /\
    tool_counts m' = tool_counts m /\
    category_counts m' = category_counts m /\
    secret_count m' = secret_count m /\
    cve_count m' = cve_count m /\
    total_vulnerabilities m' = S (total_vulnerabilities m).
Proof.
  intros Ha Hfp Hm. unfold _calculate_vulnerability_metrics in *.
  simpl vulnerabilities in *.
  change (config (with_vulnerabilities self (pre ++ vuln :: post)))
    with (config self).
  change (config (with_vulnerabilities self (pre ++ post)))
    with (config self) in Hm.
  rewrite foldM_skip by (intros s'; apply tally_step_excluded; now right).
  bind_inv Hm. bind_inv Hm. bind_inv Hm. rewrite Ha0. simpl.
  rewrite Ha1. simpl.
  change (_evaluate_required_tools (with_vulnerabilities self (pre ++ vuln :: post)))
    with (_evaluate_required_tools self).
  change (_evaluate_required_tools (with_vulnerabilities self (pre ++ post)))
    with (_evaluate_required_tools self) in Ha2.
  rewrite Ha2. simpl. eexists. split; [reflexivity |].
  injection Hm as <-. simpl.
  repeat split; try reflexivity.
  rewrite !filter_app. simpl. rewrite Hfp. simpl.
  rewrite !length_app. simpl. lia.
Qed.

(** A finding the default allow-list matches by its title. *)
Definition documentation_finding : dict :=
  [("id", JStr "semgrep-results-docs.hardcoded-token");
   ("title", JStr "Hardcoded token in API Documentation sample");
   ("severity", JStr "high");
   ("tool", JStr "semgrep-results");
   ("category", JStr "Secret Scanning");
   ("cve_id", JStr "CVE-2024-0001")].

Lemma allow_listed_counted_in_total_witness :
  exists m',
    _calculate_vulnerability_metrics
      (with_vulnerabilities (__init__ _get_default_policy)
         ([] ++ documentation_finding :: [])) = Ok m' /\
    critical_count m' = 0 /\
    high_count m' = 0 /\
    medium_count m' = 0 /\
    low_count m' = 0 /\
    tool_counts m' = [] /\
    category_counts m' = [] /\
    secret_count m' = 0 /\
    cve_count m' = 0 /\
    total_vulnerabilities m' = 1.
Proof.
  exact (allow_listed_counted_in_total (__init__ _get_default_policy) [] []
           documentation_finding
           {| total_vulnerabilities := 0; critical_count := 0; high_count := 0;
              medium_count := 0; low_count := 0; secret_count := 0; cve_count := 0;
              tool_counts := []; category_counts := [];
              critical_vulnerabilities_exist := false;
              excessive_high_vulnerabilities := false;
              secrets_detected := false; required_tools_passed := false |}
           eq_refl eq_refl eq_refl).
Defined.

(** The finding of the scenario: critical, with an allow-listed CWE id. *)
Definition cwe_999_finding : dict :=
  [("id", JStr "codeql-results-cs/test-fixture");
   ("title", JStr "Unsafe call in test fixture");
   ("severity", JStr "critical");
   ("tool", JStr "codeql-results");
   ("category", JStr "SAST");
   ("cwe_id", JStr "CWE-999")].

(** C2, the failing input: the allow-listed critical finding is in no
    severity count, so their sum (the total [save_evaluation_results]
    stores) is 0, and total_vulnerabilities is 1. *)
Theorem total_counts_allow_listed :
  _is_allowed_vulnerability _get_default_policy cwe_999_finding = Ok true /\
  exists m,
    _calculate_vulnerability_metrics (fresh _get_default_policy [cwe_999_finding])
      = Ok m /\
    critical_count m + high_count m + medium_count m + low_count m = 0 /\
    saved_total_vulnerabilities m = 0 /\
    total_vulnerabilities m = 1.
Proof.
  split; [reflexivity |]. eexists. split; [reflexivity |].
  repeat split; reflexivity.
Qed.

End AggregatorFacts.

(* ===================================================================== *)
(** * Loading: what reaches [scan_results], what SARIF becomes *)
(* ===================================================================== *)

Module LoaderFacts.
Import Py PyFacts Gate GateFacts.

(** The two attributes the required-tools check reads. *)
Definition frame (self : Evaluator) : SecurityGateConfig * dict :=
  (config self, scan_results self).

Lemma fold_left_frame {A : Type} (f : Evaluator -> A -> Evaluator) (l : list A)
  (self : Evaluator) :
  (forall s x, frame (f s x) = frame s) ->
  frame (fold_left f l self) = frame self.
Proof.
  intros Hf. revert self. induction l as [| x l IH]; intros self; simpl.
  - reflexivity.
  - now rewrite IH, Hf.
Qed.

Section Loading.

Variable repr_container : json -> string.
Variable hash : json -> Z.

Lemma load_sarif_file_frame (tool_name : string) (self : Evaluator) (f : parsed) :
  frame (load_sarif_file repr_container tool_name self f) = frame self.
Proof.
  unfold load_sarif_file. destruct f as [sarif_data |]; [| reflexivity].
  destruct (_process_sarif_for_tool _ _ _); reflexivity.
Qed.

Lemma load_json_file_frame (tool_name : string) (self : Evaluator)
  (f : string * parsed) :
  frame (load_json_file repr_container hash tool_name self f) = frame self.
Proof.
  unfold load_json_file. destruct (contains "sarif" (lower (fst f))); [reflexivity |].
  destruct (snd f) as [json_data |]; [| reflexivity].
  destruct (_process_json_for_tool _ _ _ _); reflexivity.
Qed.

Lemma process_tool_directory_frame (tool_name : string) (self : Evaluator)
  (tool_dir : ToolDir) :
  frame (_process_tool_directory repr_container hash tool_name self tool_dir)
  = frame self.
Proof.
  unfold _process_tool_directory.
  rewrite fold_left_frame by (intros; apply load_json_file_frame).
  apply fold_left_frame. intros. apply load_sarif_file_frame.
Qed.

(** The tool names the loader passes on. *)
Example tool_names :
  map rstrip_dash tool_dirs =
  ["codeql-results"; "semgrep-results"; "sca-results"; "sonarqube-results";
   "secret-scanning"; "container-security"; "iac-security"].
Proof. reflexivity. Qed.

(** The tool results only extend [vulnerabilities]. *)
Lemma load_tool_results_frame (self : Evaluator) (dir : ScanDir) :
  frame (_load_tool_results repr_container hash self dir) = frame self.
Proof.
  unfold _load_tool_results. apply fold_left_frame. intros s pattern.
  apply fold_left_frame. intros. apply process_tool_directory_frame.
Qed.

(** The one assignment to [scan_results]. *)
Lemma load_vulnerability_analysis_frame (self : Evaluator) (dir : AnalysisDir) :
  config (_load_vulnerability_analysis self dir) = config self /\
  (scan_results (_load_vulnerability_analysis self dir) = scan_results self \/
   exists analysis_data,
     scan_results (_load_vulnerability_analysis self dir)
     = set (scan_results self) "analysis" analysis_data).
Proof.
  unfold _load_vulnerability_analysis.
  set (self1 := match vulnerabilities_json dir with
                | Some (Some vuln_data) => _
                | _ => self
                end).
  assert (H1 : frame self1 = frame self).
  { unfold self1. destruct (vulnerabilities_json dir) as [[vuln_data |] |];
      try reflexivity.
    destruct (iter vuln_data); reflexivity. }
  injection H1 as Hc Hs.
  destruct (analysis_json dir) as [[analysis_data |] |]; simpl; rewrite ?Hc, ?Hs; eauto.
Qed.

Lemma load_scan_results_frame (policy : SecurityGateConfig) (dir : ScanDir) :
  let self := load_scan_results repr_container hash (__init__ policy) dir in
  config self = policy /\
  (scan_results self = [] \/
   exists analysis_data, scan_results self = [("analysis", analysis_data)]).
Proof.
  unfold load_scan_results.
  set (self1 := match vulnerability_analysis dir with
                | Some d => _
                | None => __init__ policy
                end).
  pose proof (load_tool_results_frame self1 dir) as Hf.
  injection Hf as Hc Hs. simpl. rewrite Hc, Hs. unfold self1.
  destruct (vulnerability_analysis dir) as [d |]; simpl; [| auto].
  destruct (load_vulnerability_analysis_frame (__init__ policy) d) as [Hc' [Hs' | [a Hs']]];
    rewrite Hc', Hs'; simpl; eauto.
Qed.

End Loading.

(** C6. After [__init__] and [load_scan_results], on any directory:
    [scan_results] has no key other than 'analysis', so none named
    'tool_results'; the required-tools check returns true exactly when no
    tool of [tool_requirements] has a true [required] entry; under the
    default policy it returns false. *)
Theorem tool_results_never_loaded (repr_container : json -> string)
  (hash : json -> Z) (policy : SecurityGateConfig) (dir : ScanDir) :
  let self := load_scan_results repr_container hash (__init__ policy) dir in
  (forall k v, lookup (scan_results self) k = Some v -> k = "analysis") /\
  lookup (scan_results self) "tool_results" = None /\
  _evaluate_required_tools self =
    Ok (forallb (fun tr => negb (truthy (get (snd tr) "required" (JBool false))))
          (tool_requirements policy)) /\
  _evaluate_required_tools
    (load_scan_results repr_container hash (__init__ _get_default_policy) dir)
  = Ok false.
Proof.
  intros self.
  assert (Hgen : forall p,
             let s := load_scan_results repr_container hash (__init__ p) dir in
             (forall k v, lookup (scan_results s) k = Some v -> k = "analysis") /\
             lookup (scan_results s) "tool_results" = None /\
             _evaluate_required_tools s =
               Ok (forallb
                     (fun tr => negb (truthy (get (snd tr) "required" (JBool false))))
                     (tool_requirements p))).
  { intros p s.
    destruct (load_scan_results_frame repr_container hash p dir) as [Hc Hs].
    fold s in Hc, Hs. unfold _evaluate_required_tools. rewrite Hc.
    destruct Hs as [Hs | [a Hs]]; rewrite Hs.
    - split; [discriminate |]. split; [reflexivity |].
      apply required_tools_loop_empty.
    - split; [| split; [reflexivity | apply required_tools_loop_empty]].
      intros k v. unfold lookup.
      destruct ("analysis" =? k) eqn:E; [| discriminate].
      intros _. symmetry. now apply String.eqb_eq. }
  destruct (Hgen policy) as (H1 & H2 & H3).
  destruct (Hgen _get_default_policy) as (_ & _ & H4).
  repeat split; assumption.
Qed.

End LoaderFacts.

(* ===================================================================== *)
(** * SARIF results and the Findings made of them *)
(* ===================================================================== *)

Module SarifFacts.
Import Py PyFacts Gate.

(** The entries of [results] the two loops of [_process_sarif_for_tool]
    visit, in their order. *)
Definition run_entries (run : json) : result (list json) :=
  results <- vget run "results" (JArr []) ;; iter results.

Definition sarif_entries (sarif_data : json) : result (list json) :=
  runs <- vget sarif_data "runs" (JArr []) ;;
  run_list <- iter runs ;;
  per_run <- mapM run_entries run_list ;;
  Ok (List.concat per_run).

(** The entry has one of the three levels. *)
Definition reported (res : json) : bool :=
  match res with
  | JObj d => in_strs (get_none d "level") ["error"; "warning"; "note"]
  | _ => false
  end.

(** [locations[0].physicalLocation] of an entry, when there is one. *)
Definition first_physical_location (d : dict) : option json :=
  match lookup d "locations" with
  | Some (JArr (JObj loc :: _)) => lookup loc "physicalLocation"
  | _ => None
  end.

(** [pl.<part>.<field>], [None] when either is missing. *)
Definition nested (pl : json) (part field : string) : json :=
  match pl with
  | JObj p => match lookup p part with
              | Some (JObj a) => get_none a field
              | _ => JNull
              end
  | _ => JNull
  end.

(** What the Finding [f] made of the entry [res] has to be: severity by
    level, location from the first physical location. *)
Definition finding_from (res : json) (f : dict) : Prop :=
  exists d, res = JObj d /\
    ((get_none d "level" = JStr "error" /\ lookup f "severity" = Some (JStr "high")) \/
     (get_none d "level" = JStr "warning" /\ lookup f "severity" = Some (JStr "medium")) \/
     (get_none d "level" = JStr "note" /\ lookup f "severity" = Some (JStr "low"))) /\
    match first_physical_location d with
    | Some pl =>
        lookup f "file_path" = Some (nested pl "artifactLocation" "uri") /\
        lookup f "line_number" = Some (nested pl "region" "startLine")
    | None =>
        lookup f "file_path" = Some JNull /\ lookup f "line_number" = Some JNull
    end.

(** The shape the SARIF schema gives the parts the loader reads: objects
    where it calls [get], arrays where it iterates. *)
Definition obj_or_absent (d : dict) (k : string) : bool :=
  match lookup d k with
  | None | Some (JObj _) => true
  | Some _ => false
  end.

Definition wf_location (loc : json) : bool :=
  match loc with
  | JObj l =>
      match lookup l "physicalLocation" with
      | None => true
      | Some (JObj pl) =>
          obj_or_absent pl "artifactLocation" && obj_or_absent pl "region"
      | Some _ => false
      end
  | _ => false
  end.

Definition wf_entry (res : json) : bool :=
  match res with
  | JObj d =>
      obj_or_absent d "message" &&
      match lookup d "locations" with
      | None | Some (JArr []) => true
      | Some (JArr (loc :: _)) => wf_location loc
      | Some _ => false
      end
  | _ => false
  end.

Definition wf_run (run : json) : bool :=
  match run with
  | JObj r =>
      match lookup r "results" with
      | None => true
      | Some (JArr entries) => forallb wf_entry entries
      | Some _ => false
      end
  | _ => false
  end.

Definition wf_sarif (sarif_data : json) : bool :=
  match sarif_data with
  | JObj d =>
      match lookup d "runs" with
      | None => true
      | Some (JArr runs) => forallb wf_run runs
      | Some _ => false
      end
  | _ => false
  end.

Lemma somes_filter {A B : Type} (p : A -> bool) (R : A -> B -> Prop)
  (xs : list A) (os : list (option B)) :
  Forall2 (fun x o => if p x then exists y, o = Some y /\ R x y else o = None) xs os ->
  Forall2 R (filter p xs) (somes os).
Proof.
  induction 1 as [| x o xs os H _ IH]; simpl; [constructor |].
  destruct (p x).
  - destruct H as (y & -> & Hr). simpl. now constructor.
  - subst o. exact IH.
Qed.

Lemma Forall2_concat {A B : Type} (R : A -> B -> Prop)
  (xss : list (list A)) (yss : list (list B)) :
  Forall2 (Forall2 R) xss yss -> Forall2 R (List.concat xss) (List.concat yss).
Proof.
  induction 1 as [| xs ys xss yss H _ IH]; simpl; [constructor |].
  now apply Forall2_app.
Qed.

Lemma filter_concat {A : Type} (p : A -> bool) (xss : list (list A)) :
  filter p (List.concat xss) = List.concat (map (filter p) xss).
Proof.
  induction xss as [| xs xss IH]; simpl; [reflexivity |].
  now rewrite filter_app, IH.
Qed.

Lemma obj_or_absent_get (d : dict) (k : string) :
  obj_or_absent d k = true ->
  exists o, get d k (JObj []) = JObj o /\
            forall field, get_none o field =
                          match lookup d k with
                          | Some (JObj a) => get_none a field
                          | _ => JNull
                          end.
Proof.
  unfold obj_or_absent, get. destruct (lookup d k) as [[| | | | | o] |];
    try discriminate; intros _; eauto.
Qed.

Lemma has_key_lookup (d : dict) (k : string) :
  existsb (fun kv => fst kv =? k) d = true <-> lookup d k <> None.
Proof.
  induction d as [| [k' v] d IH]; simpl.
  - split; [discriminate | congruence].
  - destruct (k' =? k); simpl; [split; [discriminate | reflexivity] | exact IH].
Qed.

Lemma mapM_ok {A B : Type} (f : A -> result B) (xs : list A) (ys : list B) :
  mapM f xs = Ok ys -> Forall2 (fun x y => f x = Ok y) xs ys.
Proof.
  revert ys. induction xs as [| x xs IH]; simpl; intros ys H.
  - injection H as <-. constructor.
  - bind_inv H. bind_inv H. injection H as <-. constructor; auto.
Qed.

Lemma mapM_through {A B C : Type} (g : A -> result C) (R : C -> B -> Prop)
  (xs : list A) (ys : list B) :
  Forall2 (fun x y => exists z, g x = Ok z /\ R z y) xs ys ->
  exists zs, mapM g xs = Ok zs /\ Forall2 R zs ys.
Proof.
  induction 1 as [| x y xs ys (z & Hz & Hr) _ (zs & Hzs & Hrs)]; simpl.
  - exists []. split; [reflexivity | constructor].
  - exists (z :: zs). rewrite Hz, Hzs. split; [reflexivity | now constructor].
Qed.

Lemma mapM_returns {A B : Type} (f : A -> result B) (xs : list A) :
  (forall x, In x xs -> exists y, f x = Ok y) -> exists ys, mapM f xs = Ok ys.
Proof.
  induction xs as [| x xs IH]; simpl; intros H; [eauto |].
  destruct (H x (or_introl eq_refl)) as (y & Hy).
  destruct IH as (ys & Hys); [auto |]. rewrite Hy, Hys. simpl. eauto.
Qed.

Lemma one_char_no_location (c : ascii) :
  contains "physicalLocation" (String c "") = false.
Proof.
  unfold contains. cbn [prefix]. destruct (ascii_dec "p" c); reflexivity.
Qed.

(** When the location block returns, it has set [file_path] and
    [line_number] from the first physical location, or changed nothing. *)
Lemma extract_location_ok (d : dict) (processed f : dict) :
  extract_location (JObj d) processed = Ok f ->
  match first_physical_location d with
  | Some pl =>
      f = set (set processed "file_path" (nested pl "artifactLocation" "uri"))
            "line_number" (nested pl "region" "startLine")
  | None => f = processed
  end.
Proof.
  unfold extract_location, first_physical_location, vget, get, bind.
  destruct (lookup d "locations") as [[| b | n | s | l | dd] |];
    cbn [truthy].
  - intros H. now injection H as <-.
  - destruct b; [discriminate |]. intros H. now injection H as <-.
  - destruct (n =? 0)%Z; cbn [negb]; [| discriminate].
    intros H. now injection H as <-.
  - destruct s as [| c s].
    + intros H. now injection H as <-.
    + replace (negb (String c s =? "")) with true by reflexivity.
      cbn [first str_in]. rewrite one_char_no_location.
      intros H. now injection H as <-.
  - destruct l as [| loc rest].
    + intros H. now injection H as <-.
    + cbn [first]. destruct loc as [| b | n | s | l | ll]; cbn [str_in type_name];
        try discriminate.
      * destruct (contains "physicalLocation" s); cbn [item]; [discriminate |].
        intros H. now injection H as <-.
      * destruct (existsb _ l); cbn [item]; [discriminate |].
        intros H. now injection H as <-.
      * cbn [item]. destruct (lookup ll "physicalLocation") as [pl |] eqn:Hpl.
        -- assert (Hk : existsb (fun kv => fst kv =? "physicalLocation") ll = true)
             by (apply has_key_lookup; congruence).
           rewrite Hk. destruct pl as [| | | | | p]; try discriminate.
           unfold nested.
           destruct (lookup p "artifactLocation") as [[| | | | | a] |];
             try discriminate;
             destruct (lookup p "region") as [[| | | | | r] |];
             try discriminate;
             intros H; now injection H as <-.
        -- assert (Hk : existsb (fun kv => fst kv =? "physicalLocation") ll = false).
           { destruct (existsb _ ll) eqn:E; [| reflexivity].
             apply has_key_lookup in E. congruence. }
           rewrite Hk. intros H. now injection H as <-.
  - destruct dd; [| discriminate]. intros H. now injection H as <-.
  - intros H. now injection H as <-.
Qed.

(** On an entry of the schema's shape the location block returns. *)
Lemma extract_location_returns (d : dict) (processed : dict) :
  match lookup d "locations" with
  | None | Some (JArr []) => true
  | Some (JArr (loc :: _)) => wf_location loc
  | Some _ => false
  end = true ->
  exists f, extract_location (JObj d) processed = Ok f.
Proof.
  unfold extract_location, vget, get, bind.
  destruct (lookup d "locations") as [[| | | | [| loc rest] |] |];
    try discriminate; intros Hwf; cbn [truthy].
  - eauto.
  - destruct loc as [| | | | | l]; try discriminate.
    unfold wf_location in Hwf. cbn [first str_in item].
    destruct (existsb (fun kv => fst kv =? "physicalLocation") l) eqn:Hk; [| eauto].
    apply has_key_lookup in Hk.
    destruct (lookup l "physicalLocation") as [[| | | | | p] |];
      try discriminate; [| congruence].
    apply andb_true_iff in Hwf. destruct Hwf as [Ha Hr].
    destruct (obj_or_absent_get p "artifactLocation" Ha) as (a & Hga & _).
    destruct (obj_or_absent_get p "region" Hr) as (r & Hgr & _).
    unfold get in Hga, Hgr. rewrite Hga, Hgr. eauto.
  - eauto.
Qed.

Section Sarif.

Variable repr_container : json -> string.

Lemma sarif_result_ok (tool_name : string) (res : json) (o : option dict) :
  sarif_result repr_container tool_name res = Ok o ->
  if reported res then exists f, o = Some f /\ finding_from res f
  else o = None.
Proof.
  destruct res as [| | | | | d]; try discriminate.
  unfold sarif_result, reported.
  change (vget (JObj d) "level" JNull) with (Ok (get_none d "level")).
  cbn [bind].
  destruct (in_strs (get_none d "level") ["error"; "warning"; "note"]) eqn:Hl;
    [| intros H; now injection H as <-].
  apply in_strs_In in Hl. destruct Hl as (lvl & Hlvl & Hin).
  change (vget (JObj d) "ruleId" (JStr "unknown"))
    with (Ok (get d "ruleId" (JStr "unknown"))).
  change (vget (JObj d) "message" (JObj []))
    with (Ok (get d "message" (JObj []))).
  rewrite Hlvl. cbn [bind].
  assert (Hsev : exists sev,
             _map_sarif_level_to_severity (JStr lvl) = Ok sev /\
             ((lvl = "error" /\ sev = "high") \/
              (lvl = "warning" /\ sev = "medium") \/
              (lvl = "note" /\ sev = "low"))).
  { destruct Hin as [<- | [<- | [<- | []]]]; eexists; (split; [reflexivity |]);
      auto. }
  destruct Hsev as (sev & Hsev & Hcases). rewrite Hsev. cbn [bind].
  destruct (get d "message" (JObj [])); try discriminate. cbn [vget bind].
  intros H. bind_inv H. injection H as <-.
  apply extract_location_ok in Ha.
  exists a. split; [reflexivity |]. exists d. split; [reflexivity |]. split.
  - assert (Hs : lookup a "severity" = Some (JStr sev)).
    { destruct (first_physical_location d); subst a; reflexivity. }
    rewrite Hs, Hlvl.
    destruct Hcases as [[-> ->] | [[-> ->] | [-> ->]]]; auto.
  - destruct (first_physical_location d); subst a; split; reflexivity.
Qed.

Lemma sarif_run_ok (tool_name : string) (run : json) (findings : list dict) :
  sarif_run repr_container tool_name run = Ok findings ->
  exists entries,
    run_entries run = Ok entries /\
    Forall2 finding_from (filter reported entries) findings.
Proof.
  unfold sarif_run, run_entries. intros H.
  bind_inv H. bind_inv H. bind_inv H. injection H as <-.
  rewrite Ha. cbn [bind]. exists a0. split; [exact Ha0 |].
  apply somes_filter. apply mapM_ok in Ha1.
  eapply Forall2_impl; [| exact Ha1].
  intros x o Ho. apply sarif_result_ok in Ho.
  destruct (reported x); [| exact Ho].
  destruct Ho as (f & -> & Hf). eauto.
Qed.

Lemma sarif_ok (tool_name : string) (sarif_data : json) (findings : list dict) :
  _process_sarif_for_tool repr_container sarif_data tool_name = Ok findings ->
  exists entries,
    sarif_entries sarif_data = Ok entries /\
    Forall2 finding_from (filter reported entries) findings.
Proof.
  unfold _process_sarif_for_tool, sarif_entries. intros H.
  bind_inv H. bind_inv H. bind_inv H. injection H as <-.
  rewrite Ha. cbn [bind]. rewrite Ha0. cbn [bind]. apply mapM_ok in Ha1.
  destruct (mapM_through run_entries
              (fun es fs => Forall2 finding_from (filter reported es) fs) a0 a1)
    as (ess & Hess & Hrel).
  { eapply Forall2_impl; [| exact Ha1]. intros run fs Hrun.
    now apply sarif_run_ok in Hrun. }
  rewrite Hess. cbn [bind]. exists (List.concat ess). split; [reflexivity |].
  rewrite filter_concat. apply Forall2_concat.
  clear - Hrel. induction Hrel; simpl; constructor; auto.
Qed.

Lemma sarif_result_returns (tool_name : string) (res : json) :
  wf_entry res = true ->
  exists o, sarif_result repr_container tool_name res = Ok o.
Proof.
  destruct res as [| | | | | d]; try discriminate. intros Hwf.
  unfold wf_entry in Hwf. apply andb_true_iff in Hwf. destruct Hwf as [Hmsg Hloc].
  unfold sarif_result.
  change (vget (JObj d) "level" JNull) with (Ok (get_none d "level")).
  cbn [bind].
  destruct (in_strs (get_none d "level") ["error"; "warning"; "note"]) eqn:Hl;
    [| eauto].
  apply in_strs_In in Hl. destruct Hl as (lvl & Hlvl & _).
  destruct (obj_or_absent_get d "message" Hmsg) as (o & Ho & _).
  change (vget (JObj d) "ruleId" (JStr "unknown"))
    with (Ok (get d "ruleId" (JStr "unknown"))).
  change (vget (JObj d) "message" (JObj []))
    with (Ok (get d "message" (JObj []))).
  rewrite Ho, Hlvl. cbn [bind vget _map_sarif_level_to_severity hashable].
  match goal with
  | |- context [extract_location _ ?p] =>
      destruct (extract_location_returns d p Hloc) as (f & Hf)
  end.
  rewrite Hf. cbn [bind]. eauto.
Qed.

Lemma sarif_run_returns (tool_name : string) (run : json) :
  wf_run run = true ->
  exists findings, sarif_run repr_container tool_name run = Ok findings.
Proof.
  destruct run as [| | | | | r]; try discriminate.
  unfold wf_run, sarif_run, vget, get.
  destruct (lookup r "results") as [[| | | | entries |] |]; try discriminate;
    cbn [bind iter]; [| intros _; cbn [mapM bind]; eauto].
  intros Hwf. rewrite forallb_forall in Hwf.
  destruct (mapM_returns (sarif_result repr_container tool_name) entries) as (os & Hos).
  { intros x Hx. apply sarif_result_returns. auto. }
  rewrite Hos. cbn [bind]. eauto.
Qed.

(** Input of the schema's shape is processed without an exception. *)
Lemma sarif_wf_returns (tool_name : string) (sarif_data : json) :
  wf_sarif sarif_data = true ->
  exists findings,
    _process_sarif_for_tool repr_container sarif_data tool_name = Ok findings.
Proof.
  destruct sarif_data as [| | | | | d]; try discriminate.
  unfold wf_sarif, _process_sarif_for_tool, vget, get.
  destruct (lookup d "runs") as [[| | | | runs |] |]; try discriminate;
    cbn [bind iter]; [| intros _; cbn [mapM bind]; eauto].
  intros Hwf. rewrite forallb_forall in Hwf.
  destruct (mapM_returns (sarif_run repr_container tool_name) runs) as (fss & Hfss).
  { intros run Hrun. apply sarif_run_returns. auto. }
  rewrite Hfss. cbn [bind]. eauto.
Qed.

(** C9. Whenever a SARIF file is processed (no exception drops it), the
    Findings are, one for one and in order, the entries of the runs'
    results whose level is error, warning or note; each has the severity
    its level maps to (error to high, warning to medium, note to low) and
    the file and line of the entry's first location's physicalLocation,
    or none when that is absent.  Input of the schema's shape (objects
    where the loader calls [get], arrays where it iterates) is always
    processed. *)
Theorem sarif_levels_become_findings (tool_name : string) (sarif_data : json) :
  (forall findings,
     _process_sarif_for_tool repr_container sarif_data tool_name = Ok findings ->
     exists entries,
       sarif_entries sarif_data = Ok entries /\
       Forall2 finding_from (filter reported entries) findings) /\
  (wf_sarif sarif_data = true ->
   exists findings,
     _process_sarif_for_tool repr_container sarif_data tool_name = Ok findings).
Proof.
  split.
  - intros findings. apply sarif_ok.
  - apply sarif_wf_returns.
Qed.

End Sarif.

(** A CodeQL report: an error with a location, a note without one, and
    an entry of level none. *)
Definition codeql_report : json :=
  JObj [("version", JStr "2.1.0");
        ("runs", JArr [JObj [("results", JArr [
           JObj [("ruleId", JStr "cs/sql-injection");
                 ("level", JStr "error");
                 ("message", JObj [("text", JStr "Query built from user input")]);
                 ("locations", JArr [JObj [("physicalLocation", JObj [
                    ("artifactLocation", JObj [("uri", JStr "Core/Db.cs")]);
                    ("region", JObj [("startLine", JNum 42)])])]])];
           JObj [("ruleId", JStr "cs/useless-cast");
                 ("level", JStr "none");
                 ("message", JObj [("text", JStr "Cast has no effect")])];
           JObj [("ruleId", JStr "cs/todo-comment");
                 ("level", JStr "note");
                 ("message", JObj [("text", JStr "TODO comment")])]])]])].

Definition codeql_findings : list dict :=
  [[("id", JStr "codeql-results-cs/sql-injection");
    ("tool", JStr "codeql-results");
    ("severity", JStr "high");
    ("title", JStr "Query built from user input");
    ("description", JStr "Query built from user input");
    ("file_path", JStr "Core/Db.cs");
    ("line_number", JNum 42);
    ("category", JStr "SAST")];
   [("id", JStr "codeql-results-cs/todo-comment");
    ("tool", JStr "codeql-results");
    ("severity", JStr "low");
    ("title", JStr "TODO comment");
    ("description", JStr "TODO comment");
    ("file_path", JNull);
    ("line_number", JNull);
    ("category", JStr "SAST")]].

Lemma sarif_levels_become_findings_witness :
  (exists entries,
     sarif_entries codeql_report = Ok entries /\
     Forall2 finding_from (filter reported entries) codeql_findings) /\
  (exists findings,
     _process_sarif_for_tool (fun _ => "") codeql_report "codeql-results"
       = Ok findings).
Proof.
  split.
  - exact (proj1 (sarif_levels_become_findings (fun _ => "") "codeql-results"
                    codeql_report) codeql_findings eq_refl).
  - exact (proj2 (sarif_levels_become_findings (fun _ => "") "codeql-results"
                    codeql_report) eq_refl).
Defined.

Example codeql_report_findings :
  _process_sarif_for_tool (fun _ => "") codeql_report "codeql-results"
  = Ok codeql_findings.
Proof. reflexivity. Qed.

End SarifFacts.

(* ===================================================================== *)
(** * The dashboard's top findings *)
(* ===================================================================== *)

Module DashboardFacts.
Import Py PyFacts Dashboard.

(** ** The order of the sort keys *)

Lemma ascii_compare_refl (a : ascii) : Ascii.compare a a = Eq.
Proof. unfold Ascii.compare. apply N.compare_refl. Qed.

Lemma ascii_compare_lt_trans (a b c : ascii) :
  Ascii.compare a b = Lt -> Ascii.compare b c = Lt -> Ascii.compare a c = Lt.
Proof.
  unfold Ascii.compare. rewrite !N.compare_lt_iff. apply N.lt_trans.
Qed.

Lemma string_compare_refl (s : string) : String.compare s s = Eq.
Proof.
  induction s as [| a s IH]; simpl; [reflexivity |].
  now rewrite ascii_compare_refl.
Qed.

Lemma string_compare_lt_trans (s t u : string) :
  String.compare s t = Lt -> String.compare t u = Lt -> String.compare s u = Lt.
Proof.
  revert t u. induction s as [| a s IH]; intros [| b t] [| c u]; simpl;
    try discriminate; try reflexivity.
  destruct (Ascii.compare a b) eqn:Eab; try discriminate.
  - apply Ascii.compare_eq_iff in Eab. subst b.
    destruct (Ascii.compare a c); try discriminate; [apply IH | reflexivity].
  - intros _. destruct (Ascii.compare b c) eqn:Ebc; try discriminate.
    + apply Ascii.compare_eq_iff in Ebc. subst c. now rewrite Eab.
    + intros _. now rewrite (ascii_compare_lt_trans a b c Eab Ebc).
Qed.

(** The comparison of two keys [(rank, title)]. *)
Definition key_compare (x y : nat * string) : comparison :=
  match Nat.compare (fst x) (fst y) with
  | Eq => String.compare (snd x) (snd y)
  | c => c
  end.

Lemma key_compare_antisym (x y : nat * string) :
  key_compare x y = CompOpp (key_compare y x).
Proof.
  unfold key_compare. rewrite (Nat.compare_antisym (fst x) (fst y)).
  destruct (Nat.compare (fst x) (fst y)); simpl; try reflexivity.
  apply String.compare_antisym.
Qed.

Lemma key_compare_eq (x y : nat * string) : key_compare x y = Eq -> x = y.
Proof.
  unfold key_compare. destruct x as [r t], y as [r' t']; simpl.
  destruct (Nat.compare r r') eqn:E; try discriminate.
  apply Nat.compare_eq in E. intros H. apply String.compare_eq_iff in H.
  now subst.
Qed.

Lemma key_compare_lt_trans (x y z : nat * string) :
  key_compare x y = Lt -> key_compare y z = Lt -> key_compare x z = Lt.
Proof.
  unfold key_compare. destruct x as [r1 t1], y as [r2 t2], z as [r3 t3]; simpl.
  destruct (Nat.compare r1 r2) eqn:E12; try discriminate;
    destruct (Nat.compare r2 r3) eqn:E23; try discriminate;
    try apply Nat.compare_eq in E12; try apply Nat.compare_eq in E23;
    try apply Nat.compare_lt_iff in E12; try apply Nat.compare_lt_iff in E23;
    subst; intros H12 H23.
  - rewrite Nat.compare_refl. eapply string_compare_lt_trans; eauto.
  - now apply Nat.compare_lt_iff in E23 as ->.
  - now apply Nat.compare_lt_iff in E12 as ->.
  - assert (H : r1 < r3) by lia. now apply Nat.compare_lt_iff in H as ->.
Qed.

(** "Not less" is transitive: the order is total. *)
Lemma key_compare_ge_trans (x y z : nat * string) :
  key_compare x y <> Lt -> key_compare y z <> Lt -> key_compare x z <> Lt.
Proof.
  intros Hxy Hyz Hxz.
  destruct (key_compare x y) eqn:E; [| congruence |].
  - apply key_compare_eq in E. subst y. contradiction.
  - assert (Hyx : key_compare y x = Lt)
      by (rewrite key_compare_antisym, E; reflexivity).
    apply Hyz. eapply key_compare_lt_trans; eauto.
Qed.

(** On keys with string titles, the pair comparison of the sort is
    [key_compare]. *)
Lemma pair_ltb_str (r1 r2 : nat) (t1 t2 : string) :
  pair_ltb (r1, JStr t1) (r2, JStr t2) =
  Ok (match key_compare (r1, t1) (r2, t2) with Lt => true | _ => false end).
Proof.
  unfold pair_ltb, key_compare. simpl.
  destruct (Nat.compare_spec r1 r2) as [-> | H | H].
  - rewrite Nat.eqb_refl. destruct (String.eqb_spec t1 t2) as [-> | Hne].
    + now rewrite string_compare_refl.
    + reflexivity.
  - assert (E : (r1 =? r2)%nat = false) by (apply Nat.eqb_neq; lia).
    rewrite E. apply Nat.ltb_lt in H. now rewrite H.
  - assert (E : (r1 =? r2)%nat = false) by (apply Nat.eqb_neq; lia).
    rewrite E. assert (E' : (r1 <? r2)%nat = false) by (apply Nat.ltb_ge; lia).
    now rewrite E'.
Qed.

(** ** The sort *)

Section Sort.

Context {A : Type}.

Definition keyed : Type := (nat * json) * A.

(** The key's title is a string. *)
Definition str_keyed (x : keyed) : Prop := exists r t, fst x = (r, JStr t).

(** [x] may stand before [y]: its key is not less. *)
Definition not_less (x y : keyed) : Prop := pair_ltb (fst x) (fst y) = Ok false.

Lemma pair_ltb_total (x y : keyed) :
  str_keyed x -> str_keyed y -> exists b, pair_ltb (fst x) (fst y) = Ok b.
Proof.
  intros (r1 & t1 & ->) (r2 & t2 & ->). rewrite pair_ltb_str. eauto.
Qed.

Lemma less_not_less (x y : keyed) :
  str_keyed x -> str_keyed y ->
  pair_ltb (fst x) (fst y) = Ok true -> not_less y x.
Proof.
  unfold not_less. intros (r1 & t1 & ->) (r2 & t2 & ->).
  rewrite !pair_ltb_str, (key_compare_antisym (r2, t2) (r1, t1)).
  destruct (key_compare (r1, t1) (r2, t2)); simpl; congruence.
Qed.

Lemma not_less_trans (x y z : keyed) :
  str_keyed x -> str_keyed y -> str_keyed z ->
  not_less x y -> not_less y z -> not_less x z.
Proof.
  unfold not_less. intros (r1 & t1 & ->) (r2 & t2 & ->) (r3 & t3 & ->).
  rewrite !pair_ltb_str. intros Hxy Hyz.
  pose proof (key_compare_ge_trans (r1, t1) (r2, t2) (r3, t3)) as H.
  destruct (key_compare (r1, t1) (r2, t2)); try discriminate;
    destruct (key_compare (r2, t2) (r3, t3)); try discriminate;
    destruct (key_compare (r1, t1) (r3, t3)); try reflexivity;
    exfalso; apply H; congruence.
Qed.

Lemma insert_desc_sorted (x : keyed) (l : list keyed) :
  str_keyed x -> Forall str_keyed l ->
  exists l',
    insert_desc x l = Ok l' /\
    Permutation (x :: l) l' /\
    (StronglySorted not_less l -> StronglySorted not_less l').
Proof.
  intros Hx Hl. induction Hl as [| y l Hy Hl IH]; simpl.
  - exists [x]. split; [reflexivity |]. split; [reflexivity |].
    intros _. repeat constructor.
  - destruct (pair_ltb_total x y Hx Hy) as [[|] Hb]; rewrite Hb; simpl.
    + destruct IH as (l' & Hi & Hp & Hs). rewrite Hi. simpl.
      exists (y :: l'). split; [reflexivity |]. split.
      * rewrite perm_swap. now constructor.
      * intros Hsort. apply StronglySorted_inv in Hsort.
        destruct Hsort as [Hsl Hyl]. constructor; [auto |].
        apply (Permutation_Forall Hp). constructor; [| exact Hyl].
        now apply less_not_less.
    + exists (x :: y :: l). split; [reflexivity |]. split; [reflexivity |].
      intros Hsort. constructor; [exact Hsort |].
      apply StronglySorted_inv in Hsort. destruct Hsort as [_ Hyl].
      constructor; [exact Hb |].
      rewrite Forall_forall in Hyl, Hl |- *. intros z Hz.
      apply not_less_trans with (y := y); auto.
Qed.

Lemma sorted_reverse_sorted (l : list keyed) :
  Forall str_keyed l ->
  exists l',
    sorted_reverse l = Ok l' /\ Permutation l l' /\ StronglySorted not_less l'.
Proof.
  induction 1 as [| x l Hx Hl (l1 & Hs & Hp & Hsort)]; simpl.
  - exists []. split; [reflexivity |]. split; constructor.
  - rewrite Hs. simpl.
    destruct (insert_desc_sorted x l1 Hx) as (l2 & Hi & Hp2 & Hs2).
    { apply (Permutation_Forall Hp). exact Hl. }
    exists l2. split; [exact Hi |]. split; [| auto].
    rewrite <- Hp2. now constructor.
Qed.

End Sort.

Lemma StronglySorted_app_cross {A : Type} (R : A -> A -> Prop) (l1 l2 : list A) :
  StronglySorted R (l1 ++ l2) ->
  forall x y, In x l1 -> In y l2 -> R x y.
Proof.
  induction l1 as [| a l1 IH]; simpl; intros Hs x y Hx Hy; [contradiction |].
  apply StronglySorted_inv in Hs. destruct Hs as [Hs Ha].
  destruct Hx as [<- | Hx].
  - rewrite Forall_forall in Ha. apply Ha. apply in_or_app. now right.
  - eapply IH; eauto.
Qed.

(** ** The findings shown first *)

(** A dict whose severity can be looked up and whose title, if any, is
    text. *)
Definition finding_shaped (v : json) : bool :=
  match v with
  | JObj d =>
      hashable (get d "severity" (JStr "low")) &&
      match get d "title" (JStr "") with
      | JStr _ => true
      | _ => false
      end
  | _ => false
  end.

(** The rank of a severity as the claim gives it: critical 4, high 3,
    medium 2, low 1, anything else 0. *)
Definition claimed_rank (sev : json) : nat :=
  match sev with
  | JStr s =>
      if s =? "critical" then 4
      else if s =? "high" then 3
      else if s =? "medium" then 2
      else if s =? "low" then 1
      else 0
  | _ => 0
  end.

(** The rank of a finding: that of its severity, a finding without
    severity ranking as low. *)
Definition finding_rank (d : dict) : nat :=
  claimed_rank (get d "severity" (JStr "low")).

(** [x] ranks at least as high as [y]: a greater rank, or the same rank
    and titles that [tie] accepts in this order. *)
Definition ranked_before (tie : string -> string -> bool) (x y : json) : Prop :=
  exists d1 t1 d2 t2,
    x = JObj d1 /\ y = JObj d2 /\
    get d1 "title" (JStr "") = JStr t1 /\ get d2 "title" (JStr "") = JStr t2 /\
    (finding_rank d2 < finding_rank d1 \/
     (finding_rank d1 = finding_rank d2 /\ tie t1 t2 = true)).

(** Ties by descending title, as the reversed sort leaves them. *)
Definition shown_before : json -> json -> Prop :=
  ranked_before (fun t1 t2 => String.leb t2 t1).

(** Ties by ascending title, as the claim has them. *)
Definition claimed_before : json -> json -> Prop :=
  ranked_before (fun t1 t2 => String.leb t1 t2).

(** An element of the keyed list: its value is a finding and its key is
    the finding's rank and title. *)
Definition consistent (kv : (nat * json) * json) : Prop :=
  exists d t,
    snd kv = JObj d /\ get d "title" (JStr "") = JStr t /\
    fst kv = (finding_rank d, JStr t).

(** The ranks: an absent severity counts as low, an unknown one as 0. *)
Example severity_ranks :
  map severity_rank [JStr "critical"; JStr "high"; JStr "medium"; JStr "low";
                     JStr "info"; JNull]
  = [Ok 4; Ok 3; Ok 2; Ok 1; Ok 0; Ok 0] /\
  sort_key (JObj [("title", JStr "Weak hash")]) = Ok (1, JStr "Weak hash").
Proof. split; reflexivity. Qed.

(** The table of the code gives every severity the rank of the claim. *)
Lemma severity_rank_claimed (sev : json) :
  hashable sev = true -> severity_rank sev = Ok (claimed_rank sev).
Proof.
  unfold severity_rank. intros ->. destruct sev; try reflexivity.
  unfold claimed_rank, severity_order, lookup.
  rewrite (String.eqb_sym "critical" s), (String.eqb_sym "high" s),
    (String.eqb_sym "medium" s), (String.eqb_sym "low" s).
  destruct (s =? "critical"); [reflexivity |].
  destruct (s =? "high"); [reflexivity |].
  destruct (s =? "medium"); [reflexivity |].
  destruct (s =? "low"); reflexivity.
Qed.

Lemma sort_key_shaped (v : json) :
  finding_shaped v = true ->
  exists d t,
    v = JObj d /\ get d "title" (JStr "") = JStr t /\
    sort_key v = Ok (finding_rank d, JStr t).
Proof.
  destruct v as [| | | | | d]; try discriminate. unfold finding_shaped, sort_key.
  intros H. apply andb_true_iff in H. destruct H as [Hs Ht].
  cbn [vget bind]. rewrite (severity_rank_claimed _ Hs). cbn [bind].
  destruct (get d "title" (JStr "")) as [| | | t | |] eqn:E; try discriminate.
  exists d, t. auto.
Qed.

Lemma keyed_list (vs : list json) :
  forallb finding_shaped vs = true ->
  exists ks,
    mapM (fun v => k <- sort_key v ;; Ok (k, v)) vs = Ok ks /\
    map snd ks = vs /\ Forall consistent ks.
Proof.
  induction vs as [| v vs IH]; simpl.
  - intros _. exists []. repeat split. constructor.
  - intros H. apply andb_true_iff in H. destruct H as [Hv Hvs].
    destruct (sort_key_shaped v Hv) as (d & t & Hd & Ht & Hk).
    destruct (IH Hvs) as (ks & Hm & Hsnd & Hc).
    exists ((finding_rank d, JStr t, v) :: ks). rewrite Hk, Hm. simpl. rewrite Hsnd.
    repeat split. constructor; [| exact Hc]. exists d, t. auto.
Qed.

Lemma consistent_str_keyed (kv : (nat * json) * json) :
  consistent kv -> str_keyed kv.
Proof. intros (d & t & _ & _ & H). exists (finding_rank d), t. exact H. Qed.

Lemma not_less_shown (a b : (nat * json) * json) :
  consistent a -> consistent b -> not_less a b -> shown_before (snd a) (snd b).
Proof.
  intros (d1 & t1 & Hda & Hta & Ha) (d2 & t2 & Hdb & Htb & Hb). unfold not_less.
  rewrite Ha, Hb, pair_ltb_str. intros H.
  exists d1, t1, d2, t2.
  split; [exact Hda |]. split; [exact Hdb |].
  split; [exact Hta |]. split; [exact Htb |].
  unfold key_compare in H. simpl in H.
  destruct (Nat.compare_spec (finding_rank d1) (finding_rank d2)) as [E | Hlt | Hgt].
  - right. split; [exact E |]. unfold String.leb.
    rewrite (String.compare_antisym t2 t1).
    destruct (String.compare t1 t2); simpl; congruence.
  - discriminate.
  - now left.
Qed.

Lemma sorted_shown (l : list ((nat * json) * json)) :
  Forall consistent l -> StronglySorted not_less l ->
  StronglySorted shown_before (map snd l).
Proof.
  intros Hc Hs. induction Hs as [| a l Hs IH Ha]; simpl; [constructor |].
  apply Forall_cons_iff in Hc. destruct Hc as [Hca Hcl].
  constructor; [auto |]. apply Forall_map.
  rewrite Forall_forall in Ha, Hcl |- *. intros b Hb.
  apply not_less_shown; auto.
Qed.

Section Top.

Variable repr_container : json -> string.

(** C10 (as the code has it). For a list of findings with a hashable
    severity and a text title (or none, read as the empty title), the
    sort returns; the findings reported are the first [limit] of the list
    in the order: severity rank descending (critical 4, high 3, medium 2,
    low 1, a finding without severity as low, any other severity 0), ties
    by title descending; each of them ranks at least as high, in this
    order, as each finding left out. *)
Theorem top_findings_descend (limit : nat) (vs : list json) :
  forallb finding_shaped vs = true ->
  exists sorted,
    Permutation vs sorted /\
    StronglySorted shown_before sorted /\
    sorted_vulns limit (JArr vs) = Ok (firstn limit sorted) /\
    _get_top_vulnerabilities repr_container limit (JArr vs)
      = mapM (formatted_vuln repr_container) (firstn limit sorted) /\
    (forall x y, In x (firstn limit sorted) -> In y (skipn limit sorted) ->
                 shown_before x y).
Proof.
  intros Hvs. destruct (keyed_list vs Hvs) as (ks & Hm & Hsnd & Hc).
  destruct (sorted_reverse_sorted ks) as (sk & Hs & Hp & Hsort).
  { eapply Forall_impl; [| exact Hc]. apply consistent_str_keyed. }
  assert (Hcs : Forall consistent sk) by (apply (Permutation_Forall Hp); exact Hc).
  assert (Hshown : StronglySorted shown_before (map snd sk))
    by (apply sorted_shown; assumption).
  assert (Hcode : sorted_vulns limit (JArr vs) = Ok (firstn limit (map snd sk))).
  { unfold sorted_vulns. cbn [iter bind]. rewrite Hm. cbn [bind].
    rewrite Hs. reflexivity. }
  exists (map snd sk). split; [| split; [exact Hshown | split; [exact Hcode | split]]].
  - rewrite <- Hsnd. now apply Permutation_map.
  - unfold _get_top_vulnerabilities. rewrite Hcode. reflexivity.
  - apply StronglySorted_app_cross. now rewrite firstn_skipn.
Qed.

End Top.

Definition titled (t : string) : json :=
  JObj [("severity", JStr "high"); ("title", JStr t); ("tool", JStr "codeql-results")].

Definition two_high : list json :=
  [titled "Command injection"; titled "SQL injection"].

Definition eleven_high : list json :=
  map titled ["Finding A"; "Finding B"; "Finding C"; "Finding D"; "Finding E";
              "Finding F"; "Finding G"; "Finding H"; "Finding I"; "Finding J";
              "Finding K"].

(** A finding of the given severity. *)
Definition rated (sev t : string) : json :=
  JObj [("title", JStr t); ("severity", JStr sev); ("tool", JStr "grype")].

(** Findings of every severity, one without severity and one of a
    severity the table does not know, in no particular order. *)
Definition mixed_findings : list json :=
  [rated "low" "Verbose error page";
   rated "critical" "Deserialization of untrusted data";
   JObj [("title", JStr "Missing security header")];
   rated "high" "Path traversal";
   rated "info" "Outdated comment";
   rated "medium" "Weak hash";
   rated "critical" "SQL injection";
   rated "high" "Command injection"].

Lemma top_findings_descend_witness :
  exists sorted,
    Permutation mixed_findings sorted /\
    StronglySorted shown_before sorted /\
    sorted_vulns 5 (JArr mixed_findings) = Ok (firstn 5 sorted) /\
    _get_top_vulnerabilities (fun _ => "") 5 (JArr mixed_findings)
      = mapM (formatted_vuln (fun _ => "")) (firstn 5 sorted) /\
    (forall x y, In x (firstn 5 sorted) -> In y (skipn 5 sorted) ->
                 shown_before x y).
Proof. exact (top_findings_descend (fun _ => "") 5 mixed_findings eq_refl). Defined.

(** The five findings reported of [mixed_findings]: the critical ones,
    the high ones, the medium one, each rank with the greater title
    first; the two low ones and the unknown one are left out. *)
Example mixed_findings_top :
  sorted_vulns 5 (JArr mixed_findings)
  = Ok [rated "critical" "SQL injection";
        rated "critical" "Deserialization of untrusted data";
        rated "high" "Path traversal";
        rated "high" "Command injection";
        rated "medium" "Weak hash"] /\
  sorted_vulns 8 (JArr mixed_findings)
  = Ok [rated "critical" "SQL injection";
        rated "critical" "Deserialization of untrusted data";
        rated "high" "Path traversal";
        rated "high" "Command injection";
        rated "medium" "Weak hash";
        rated "low" "Verbose error page";
        JObj [("title", JStr "Missing security header")];
        rated "info" "Outdated comment"].
Proof. split; vm_compute; reflexivity. Qed.

Lemma claimed_before_titled (t1 t2 : string) :
  claimed_before (titled t1) (titled t2) -> String.leb t1 t2 = true.
Proof.
  intros (d1 & s1 & d2 & s2 & H1 & H2 & Ht1 & Ht2 & H).
  injection H1 as <-. injection H2 as <-.
  change (JStr t1 = JStr s1) in Ht1. change (JStr t2 = JStr s2) in Ht2.
  injection Ht1 as <-. injection Ht2 as <-.
  change (3 < 3 \/ (3 = 3 /\ String.leb t1 t2 = true)) in H.
  destruct H as [H | [_ H]]; [lia | exact H].
Qed.

(** C10, refuted as stated.  Two findings of equal severity come out with
    the greater title first, which is not the claimed order; and of eleven
    findings of equal severity the ten reported leave out "Finding A",
    the greatest in the claimed order. *)
Lemma top_findings_not_ascending :
  (sorted_vulns 10 (JArr two_high)
     = Ok [titled "SQL injection"; titled "Command injection"] /\
   ~ StronglySorted claimed_before
       [titled "SQL injection"; titled "Command injection"]) /\
  (sorted_vulns 10 (JArr eleven_high)
     = Ok (map titled ["Finding K"; "Finding J"; "Finding I"; "Finding H";
                       "Finding G"; "Finding F"; "Finding E"; "Finding D";
                       "Finding C"; "Finding B"]) /\
   In (titled "Finding A") eleven_high /\
   ~ claimed_before (titled "Finding B") (titled "Finding A")).
Proof.
  split; [split | split; [| split]].
  - reflexivity.
  - intros H. apply StronglySorted_inv in H. destruct H as [_ H].
    apply Forall_inv in H. apply claimed_before_titled in H. discriminate.
  - vm_compute. reflexivity.
  - left. reflexivity.
  - intros H. apply claimed_before_titled in H. discriminate.
Qed.

End DashboardFacts.

(* ===================================================================== *)
(** * Further properties of the aggregator *)
(* ===================================================================== *)

Module AggregatorExtras.
Import Py PyFacts Gate GateFacts AggregatorFacts.

(** The title is text, or the finding has none. *)
Definition text_titled (vuln : dict) : Prop :=
  exists t, get vuln "title" (JStr "") = JStr t.

(** The two ways a finding matches the allow-list. *)
Definition on_allow_list (cfg : SecurityGateConfig) (vuln : dict) (t : string)
  : Prop :=
  (exists s, get_none vuln "cwe_id" = JStr s /\ In s (allow_list cfg)) \/
  (exists a pre post, In a (allow_list cfg) /\ lower t = pre ++ lower a ++ post).

(** X1. For a finding with a text title the allow-list test returns, and
    it returns true exactly when the CWE id is an entry of the allow-list
    or the lower-cased title contains a lower-cased entry; otherwise it
    returns false. *)
Theorem allow_list_criterion (cfg : SecurityGateConfig) (vuln : dict) (t : string) :
  get vuln "title" (JStr "") = JStr t ->
  (_is_allowed_vulnerability cfg vuln = Ok true <-> on_allow_list cfg vuln t) /\
  (_is_allowed_vulnerability cfg vuln = Ok false <-> ~ on_allow_list cfg vuln t).
Proof.
  intros Ht. destruct (is_allowed_iff cfg vuln t Ht) as (b & Hb & Hiff).
  fold (on_allow_list cfg vuln t) in Hiff. rewrite Hb. split; split.
  - intros H. injection H as ->. now apply Hiff.
  - intros H. f_equal. now apply Hiff.
  - intros H Hon. injection H as ->. apply Hiff in Hon. discriminate.
  - intros H. f_equal. destruct b; [| reflexivity].
    exfalso. apply H. now apply Hiff.
Qed.

Lemma allow_list_criterion_witness :
  _is_allowed_vulnerability _get_default_policy documentation_finding = Ok true <->
  on_allow_list _get_default_policy documentation_finding
    "Hardcoded token in API Documentation sample".
Proof.
  exact (proj1 (allow_list_criterion _get_default_policy documentation_finding
                  "Hardcoded token in API Documentation sample" eq_refl)).
Defined.

(** The loop over findings that are all left out ends where it began. *)
Lemma foldM_all_skipped {A S : Type} (f : S -> A -> result S) (s : S) (xs : list A) :
  Forall (fun x => forall s', f s' x = Ok s') xs -> foldM f s xs = Ok s.
Proof.
  induction 1 as [| x xs Hx _ IH]; simpl; [reflexivity |].
  now rewrite Hx.
Qed.

(** X2. An empty string among the allow-list entries is contained in
    every title: when all findings have text titles, none is counted,
    whatever its severity. *)
Theorem empty_entry_suppresses_all (self : Evaluator) (m : Metrics) :
  In "" (allow_list (config self)) ->
  Forall text_titled (vulnerabilities self) ->
  _calculate_vulnerability_metrics self = Ok m ->
  critical_count m = 0 /\ high_count m = 0 /\ medium_count m = 0 /\
  low_count m = 0 /\ secret_count m = 0 /\ cve_count m = 0 /\
  tool_counts m = [] /\ category_counts m = [].
Proof.
  intros Hin Htext Hm. unfold _calculate_vulnerability_metrics in Hm.
  rewrite foldM_all_skipped in Hm.
  - cbn [bind] in Hm. bind_inv Hm. bind_inv Hm. injection Hm as <-.
    repeat split; reflexivity.
  - eapply Forall_impl; [| exact Htext]. intros v (t & Ht) t'.
    apply tally_step_excluded. right.
    apply (proj1 (allow_list_criterion (config self) v t Ht)).
    right. exists "", "", (lower t). auto.
Qed.

Definition catch_all_policy : SecurityGateConfig :=
  {| severity_thresholds := severity_thresholds _get_default_policy;
     tool_requirements := [];
     policy_rules := policy_rules _get_default_policy;
     allow_list := ["CWE-999"; ""];
     fail_conditions := [] |}.

(** The metrics of one finding that is not counted. *)
Definition one_uncounted : Metrics :=
  {| total_vulnerabilities := 1; critical_count := 0; high_count := 0;
     medium_count := 0; low_count := 0; secret_count := 0; cve_count := 0;
     tool_counts := []; category_counts := [];
     critical_vulnerabilities_exist := false;
     excessive_high_vulnerabilities := false;
     secrets_detected := false; required_tools_passed := true |}.

Lemma empty_entry_suppresses_all_witness :
  _calculate_vulnerability_metrics (fresh catch_all_policy [critical_finding])
    = Ok one_uncounted /\
  critical_count one_uncounted = 0 /\ high_count one_uncounted = 0 /\
  medium_count one_uncounted = 0 /\ low_count one_uncounted = 0 /\
  secret_count one_uncounted = 0 /\ cve_count one_uncounted = 0 /\
  tool_counts one_uncounted = [] /\ category_counts one_uncounted = [].
Proof.
  split; [reflexivity |].
  refine (empty_entry_suppresses_all (fresh catch_all_policy [critical_finding])
            one_uncounted _ _ eq_refl).
  - right. left. reflexivity.
  - constructor; [| constructor]. exists "SQL injection". reflexivity.
Defined.

(** A step that raises wherever it is reached makes the loop raise. *)
Lemma foldM_raises {A S : Type} (f : S -> A -> result S) (x : A) (xs : list A) :
  In x xs -> (forall s, exists e, f s x = Raise e) ->
  forall s, exists e, foldM f s xs = Raise e.
Proof.
  intros Hin Hx. induction xs as [| y xs IH]; [contradiction |].
  intros s. simpl. destruct Hin as [-> | Hin].
  - destruct (Hx s) as (e & He). rewrite He. simpl. eauto.
  - destruct (f s y) as [s' | e]; simpl; [apply IH; exact Hin | eauto].
Qed.

(** A finding the loop reaches the title of, whose title is no text. *)
Definition untitled (cfg : SecurityGateConfig) (vuln : dict) : Prop :=
  is_false_positive vuln = false /\
  truthy (get_none vuln "cwe_id") && in_strs (get_none vuln "cwe_id") (allow_list cfg)
    = false /\
  forall t, get vuln "title" (JStr "") <> JStr t.

(** X3. One finding whose title is not text (a JSON null, say), that is
    no false positive and has no allow-listed CWE id, makes the
    aggregation raise, wherever it stands in the list; [main] then reports
    ERROR and exits with 1. *)
Theorem untitled_finding_raises (self : Evaluator) (vuln : dict) :
  In vuln (vulnerabilities self) ->
  untitled (config self) vuln ->
  (exists e, _calculate_vulnerability_metrics self = Raise e) /\
  (forall now stamp later write,
     main_report now stamp later write self = (["SECURITY_GATE_STATUS=ERROR"], 1%Z)).
Proof.
  intros Hin (Hfp & Hcwe & Htitle).
  assert (Hm : exists e, _calculate_vulnerability_metrics self = Raise e).
  { unfold _calculate_vulnerability_metrics.
    destruct (foldM_raises (tally_step (config self)) vuln (vulnerabilities self)
                Hin) with (s := empty_tally) as (e & He).
    - intros t. unfold tally_step, _is_allowed_vulnerability.
      rewrite Hfp, Hcwe. unfold vlower.
      destruct (get vuln "title" (JStr "")) as [| | | title | |] eqn:E;
        try (cbn [bind]; eauto; fail).
      exfalso. now apply (Htitle title).
    - rewrite He. cbn [bind]. eauto. }
  split; [exact Hm |]. intros now stamp later write. destruct Hm as (e & He).
  apply main_report_raises with (e := e). now apply evaluate_raises.
Qed.

(** What [vulnerabilities.json] gives for an entry with a null title. *)
Definition null_title_finding : dict :=
  match _create_vulnerability_from_data
          (JObj [("id", JStr "scan-17"); ("title", JNull); ("severity", JStr "low")])
  with
  | Some vuln => vuln
  | None => []
  end.

Lemma untitled_finding_raises_witness :
  (exists e,
     _calculate_vulnerability_metrics
       (fresh _get_default_policy [critical_finding; null_title_finding]) = Raise e) /\
  (forall now stamp later write,
     main_report now stamp later write
       (fresh _get_default_policy [critical_finding; null_title_finding])
     = (["SECURITY_GATE_STATUS=ERROR"], 1%Z)).
Proof.
  refine (untitled_finding_raises
            (fresh _get_default_policy [critical_finding; null_title_finding])
            null_title_finding _ _).
  - right. left. reflexivity.
  - split; [reflexivity |]. split; [reflexivity |]. intros t. discriminate.
Defined.

(** The evaluation reads the findings only through the metrics. *)
Lemma status_by_metrics (now : string) (self self' : Evaluator) :
  policy_rules (config self) = policy_rules (config self') ->
  _calculate_vulnerability_metrics self = _calculate_vulnerability_metrics self' ->
  status_of (evaluate_security_gates now self) =
  status_of (evaluate_security_gates now self').
Proof.
  intros Hr Hm.
  destruct (_calculate_vulnerability_metrics self') as [m | e] eqn:E.
  - rewrite (evaluate_status now self m Hm), (evaluate_status now self' m E).
    now rewrite Hr.
  - now rewrite (evaluate_raises now self e Hm), (evaluate_raises now self' e E).
Qed.

(** X4. A finding marked as a false positive changes nothing: the
    metrics, the total among them, and the outcome of the evaluation are
    those of the list without it. *)
Theorem false_positive_is_neutral (self : Evaluator) (pre post : list dict)
  (vuln : dict) :
  is_false_positive vuln = true ->
  _calculate_vulnerability_metrics (with_vulnerabilities self (pre ++ vuln :: post))
  = _calculate_vulnerability_metrics (with_vulnerabilities self (pre ++ post)) /\
  (forall now,
     status_of (evaluate_security_gates now
                  (with_vulnerabilities self (pre ++ vuln :: post)))
     = status_of (evaluate_security_gates now
                    (with_vulnerabilities self (pre ++ post)))).
Proof.
  intros Hfp.
  assert (Hm : _calculate_vulnerability_metrics
                 (with_vulnerabilities self (pre ++ vuln :: post))
               = _calculate_vulnerability_metrics
                   (with_vulnerabilities self (pre ++ post))).
  { unfold _calculate_vulnerability_metrics. simpl vulnerabilities.
    change (config (with_vulnerabilities self (pre ++ vuln :: post)))
      with (config self).
    change (config (with_vulnerabilities self (pre ++ post))) with (config self).
    rewrite foldM_skip by (intros s'; apply tally_step_excluded; now left).
    change (_evaluate_required_tools (with_vulnerabilities self (pre ++ vuln :: post)))
      with (_evaluate_required_tools self).
    change (_evaluate_required_tools (with_vulnerabilities self (pre ++ post)))
      with (_evaluate_required_tools self).
    rewrite !filter_app. simpl filter. rewrite Hfp. reflexivity. }
  split; [exact Hm |]. intros now. now apply status_by_metrics.
Qed.

Definition dismissed_finding : dict :=
  [("id", JStr "codeql-results-cs/path-injection");
   ("title", JStr "Path built from user input");
   ("severity", JStr "critical");
   ("tool", JStr "codeql-results");
   ("category", JStr "SAST");
   ("is_false_positive", JBool true)].

Lemma false_positive_is_neutral_witness :
  _calculate_vulnerability_metrics
    (with_vulnerabilities (__init__ _get_default_policy)
       ([high_finding] ++ dismissed_finding :: []))
  = _calculate_vulnerability_metrics
      (with_vulnerabilities (__init__ _get_default_policy) ([high_finding] ++ [])).
Proof.
  exact (proj1 (false_positive_is_neutral (__init__ _get_default_policy)
                  [high_finding] [] dismissed_finding eq_refl)).
Defined.

(** Adding one to the count of [k] adds one to the count read under a
    string exactly when [k] is that string. *)
Lemma count_of_incr (c : counter) (k : json) (s : string) :
  count_of (incr c k) (JStr s) =
  count_of c (JStr s) + (if eq_str k s then 1 else 0).
Proof.
  induction c as [| [k0 n] c IH]; simpl.
  - destruct k; reflexivity.
  - destruct (key_eqb k0 k) eqn:E0; simpl.
    + destruct k0, k; simpl in *; try discriminate; try lia.
      apply String.eqb_eq in E0. subst.
      destruct (_ =? s); lia.
    + destruct (key_eqb k0 (JStr s)) eqn:E1; [| exact IH].
      destruct k0, k; simpl in *; try discriminate; try lia.
      apply String.eqb_eq in E1. subst. rewrite String.eqb_sym, E0. lia.
Qed.

(** The four severity counts the metrics report. *)
Definition four_counts (c : counter) : nat :=
  count_of c (JStr "critical") + count_of c (JStr "high") +
  count_of c (JStr "medium") + count_of c (JStr "low").

Lemma four_counts_incr (c : counter) (k : json) :
  four_counts (incr c k) <= S (four_counts c).
Proof.
  unfold four_counts. rewrite !count_of_incr.
  destruct k as [| | | s | |]; simpl; try lia.
  destruct (String.eqb_spec s "critical") as [-> | _]; [simpl; lia |].
  destruct (String.eqb_spec s "high") as [-> | _]; [simpl; lia |].
  destruct (String.eqb_spec s "medium") as [-> | _]; [simpl; lia |].
  destruct (s =? "low"); lia.
Qed.

(** One iteration raises each figure by at most one, and by nothing for
    a false positive. *)
Lemma tally_step_bound (cfg : SecurityGateConfig) (t t' : Tally) (vuln : dict) :
  tally_step cfg t vuln = Ok t' ->
  four_counts (severity_counts t')
    <= four_counts (severity_counts t) + (if is_false_positive vuln then 0 else 1) /\
  secret_tally t' <= secret_tally t + (if is_false_positive vuln then 0 else 1) /\
  cve_tally t' <= cve_tally t + (if is_false_positive vuln then 0 else 1).
Proof.
  unfold tally_step. destruct (is_false_positive vuln); intros H.
  - injection H as <-. lia.
  - bind_inv H. destruct a.
    + injection H as <-. lia.
    + bind_inv H. bind_inv H. bind_inv H. injection H as <-. simpl.
      unfold bump in Ha0. destruct (hashable _); [| discriminate].
      injection Ha0 as <-.
      pose proof (four_counts_incr (severity_counts t)
                    (get vuln "severity" (JStr "low"))).
      destruct (eq_str _ _); destruct (truthy (get_none vuln "cve_id")); lia.
Qed.

Lemma tally_bound (cfg : SecurityGateConfig) (vs : list dict) (t t' : Tally) :
  foldM (tally_step cfg) t vs = Ok t' ->
  four_counts (severity_counts t')
    <= four_counts (severity_counts t)
       + List.length (filter (fun v => negb (is_false_positive v)) vs) /\
  secret_tally t'
    <= secret_tally t + List.length (filter (fun v => negb (is_false_positive v)) vs) /\
  cve_tally t'
    <= cve_tally t + List.length (filter (fun v => negb (is_false_positive v)) vs).
Proof.
  revert t. induction vs as [| v vs IH]; simpl; intros t H.
  - injection H as <-. lia.
  - bind_inv H. apply tally_step_bound in Ha. apply IH in H.
    destruct (is_false_positive v); simpl in *; lia.
Qed.

(** X5. In every metrics map the four severity counts together, the
    secret count and the CVE count are each at most total_vulnerabilities;
    so the total the report stores (the sum of the four counts) never
    exceeds the total of the metrics. *)
Theorem counts_bounded_by_total (self : Evaluator) (m : Metrics) :
  _calculate_vulnerability_metrics self = Ok m ->
  critical_count m + high_count m + medium_count m + low_count m
    <= total_vulnerabilities m /\
  secret_count m <= total_vulnerabilities m /\
  cve_count m <= total_vulnerabilities m /\
  saved_total_vulnerabilities m <= total_vulnerabilities m.
Proof.
  unfold _calculate_vulnerability_metrics. intros H.
  bind_inv H. bind_inv H. bind_inv H. injection H as <-.
  apply tally_bound in Ha. unfold saved_total_vulnerabilities. simpl in *.
  unfold four_counts in Ha. simpl in Ha. lia.
Qed.

Lemma counts_bounded_by_total_witness :
  critical_count one_uncounted + high_count one_uncounted +
  medium_count one_uncounted + low_count one_uncounted
    <= total_vulnerabilities one_uncounted /\
  secret_count one_uncounted <= total_vulnerabilities one_uncounted /\
  cve_count one_uncounted <= total_vulnerabilities one_uncounted /\
  saved_total_vulnerabilities one_uncounted <= total_vulnerabilities one_uncounted.
Proof.
  exact (counts_bounded_by_total (fresh catch_all_policy [critical_finding])
           one_uncounted eq_refl).
Defined.

End AggregatorExtras.

(* ===================================================================== *)
(** * Further properties of the rules and of the gate *)
(* ===================================================================== *)

Module GateExtras.
Import Py PyFacts Gate GateFacts AggregatorFacts.

(** The evaluator with recorded tool results. *)
Definition not_required (tr : string * dict) : bool :=
  negb (truthy (get (snd tr) "required" (JBool false))).

Definition tool_passed (tool_results : dict) (tr : string * dict) : bool :=
  in_strs (get tool_results (fst tr) (JStr "unknown")) ["passed"; "success"].

(** X6. With a dict of tool results recorded, the required-tools check
    returns true exactly when every tool whose [required] entry is true
    has the result 'passed' or 'success'; tools that are not required are
    not looked at.  If what is recorded is no dict, the check returns true
    when no tool is required and raises otherwise. *)
Theorem required_tools_recorded (self : Evaluator) (recorded : json) :
  lookup (scan_results self) "tool_results" = Some recorded ->
  (forall tool_results,
     recorded = JObj tool_results ->
     _evaluate_required_tools self =
       Ok (forallb (fun tr => not_required tr || tool_passed tool_results tr)
             (tool_requirements (config self)))) /\
  ((forall tool_results, recorded <> JObj tool_results) ->
   if forallb not_required (tool_requirements (config self))
   then _evaluate_required_tools self = Ok true
   else exists e, _evaluate_required_tools self = Raise e).
Proof.
  intros Hrec. unfold _evaluate_required_tools, get. rewrite Hrec.
  generalize (tool_requirements (config self)) as reqs. split.
  - intros tool_results ->.
    induction reqs as [| [tool requirements] reqs IH]; [reflexivity |].
    cbn [required_tools_loop forallb]. unfold not_required at 1, tool_passed at 1.
    cbn [fst snd vget bind].
    destruct (truthy (get requirements "required" (JBool false)));
      cbn [negb orb andb]; [| exact IH].
    destruct (in_strs (get tool_results tool (JStr "unknown")) ["passed"; "success"]);
      cbn [negb andb]; [exact IH | reflexivity].
  - intros Hno.
    induction reqs as [| [tool requirements] reqs IH]; [reflexivity |].
    cbn [required_tools_loop forallb]. unfold not_required at 1. cbn [fst snd].
    destruct (truthy (get requirements "required" (JBool false)));
      cbn [negb andb]; [| exact IH].
    destruct recorded; cbn [vget bind]; eauto. exfalso. eapply Hno. reflexivity.
Qed.

Definition recorded_run (results : list (string * json)) : Evaluator :=
  with_scan_results (__init__ _get_default_policy) [("tool_results", JObj results)].

Lemma required_tools_recorded_witness :
  _evaluate_required_tools
    (recorded_run [("CodeQL", JStr "success"); ("Grype", JStr "passed");
                   ("Semgrep", JStr "failed")])
  = Ok (forallb
          (fun tr => not_required tr ||
                     tool_passed [("CodeQL", JStr "success"); ("Grype", JStr "passed");
                                  ("Semgrep", JStr "failed")] tr)
          (tool_requirements _get_default_policy)).
Proof.
  exact (proj1 (required_tools_recorded
                  (recorded_run [("CodeQL", JStr "success"); ("Grype", JStr "passed");
                                 ("Semgrep", JStr "failed")])
                  (JObj [("CodeQL", JStr "success"); ("Grype", JStr "passed");
                         ("Semgrep", JStr "failed")]) eq_refl) _ eq_refl).
Defined.

Example recorded_tools_pass :
  _evaluate_required_tools
    (recorded_run [("CodeQL", JStr "success"); ("Grype", JStr "passed");
                   ("Semgrep", JStr "failed")]) = Ok true /\
  _evaluate_required_tools
    (recorded_run [("CodeQL", JStr "success"); ("Grype", JStr "skipped")])
  = Ok false.
Proof. split; reflexivity. Qed.

(** X7. The patterns are tested in a fixed order, critical first: a
    condition string that contains "critical_count == 0" is decided by the
    critical count alone, whatever else it asks for.  The rule passes
    exactly when critical_count is 0, and two metrics maps with the same
    critical count give the same result. *)
Theorem critical_pattern_decides (rule : dict) (c : string) :
  get rule "condition" (JStr "") = JStr c ->
  contains "critical_count == 0" c = true ->
  (forall m, passed (_evaluate_rule rule m) = (critical_count m =? 0)%nat) /\
  (forall m m', critical_count m = critical_count m' ->
                _evaluate_rule rule m = _evaluate_rule rule m').
Proof.
  intros Hc Hcrit. split.
  - intros m. destruct (rule_result_str rule c m Hc) as (p & why & Hv & Hp & _).
    rewrite rule_verdict_str, Hcrit in Hv. injection Hv as Ep _. congruence.
  - intros m m' E. unfold _evaluate_rule. rewrite Hc, !rule_verdict_str, Hcrit, E.
    reflexivity.
Qed.

Definition compound_rule : dict :=
  [("name", JStr "Release criteria");
   ("condition", JStr "critical_count == 0 and high_count <= 10 and secret_count == 0");
   ("action", JStr "fail")].

Lemma critical_pattern_decides_witness :
  passed (_evaluate_rule compound_rule fifty_high)
  = (critical_count fifty_high =? 0)%nat.
Proof.
  exact (proj1 (critical_pattern_decides compound_rule
                  "critical_count == 0 and high_count <= 10 and secret_count == 0"
                  eq_refl eq_refl) fifty_high).
Defined.

(** A compound condition passes over fifty high findings. *)
Example compound_rule_passes :
  passed (_evaluate_rule compound_rule fifty_high) = true.
Proof. reflexivity. Qed.

(** No verdict of the [try] block reads like the handler's reason. *)
Lemma verdict_reason (cond : json) (m : Metrics) (p : bool) (why msg : string) :
  rule_verdict cond m = Ok (p, why) -> why <> "Evaluation error: " ++ msg.
Proof.
  unfold rule_verdict. intros H E.
  destruct cond; simpl in H; try discriminate;
    repeat match type of H with
           | context [if ?b then _ else _] => destruct b; simpl in H
           end;
    injection H as _ <-; simpl in E; discriminate.
Qed.

(** X8. A rule result carries the reason "Evaluation error: ..." exactly
    when the rule's condition is null, a boolean or a number; the rule has
    then not passed.  A condition that is a string, a list or a dict, or
    is missing, never gives this reason. *)
Theorem evaluation_error_iff (rule : dict) (m : Metrics) :
  let cond := get rule "condition" (JStr "") in
  ((exists msg, reason (_evaluate_rule rule m) = "Evaluation error: " ++ msg) <->
   cond = JNull \/ (exists b, cond = JBool b) \/ (exists n, cond = JNum n)) /\
  ((exists msg, reason (_evaluate_rule rule m) = "Evaluation error: " ++ msg) ->
   passed (_evaluate_rule rule m) = false).
Proof.
  intros cond. unfold _evaluate_rule. fold cond.
  destruct (rule_verdict cond m) as [[p why] | [k msg]] eqn:E.
  - split.
    + split.
      * intros (msg & Hmsg). simpl in Hmsg.
        exfalso. exact (verdict_reason cond m p why msg E Hmsg).
      * intros H. exfalso.
        destruct cond; simpl in E; try discriminate;
          destruct H as [H | [[b H] | [n H]]]; discriminate.
    + intros (msg & Hmsg). simpl in Hmsg.
      exfalso. exact (verdict_reason cond m p why msg E Hmsg).
  - split; [| reflexivity]. split.
    + intros _. apply rule_verdict_raises in E. tauto.
    + intros _. exists msg. reflexivity.
Qed.

(** What a returned evaluation has stored, case by case. *)
Lemma evaluate_inv (now : string) (self self' : Evaluator) :
  evaluate_security_gates now self = Ok self' ->
  exists m,
    _calculate_vulnerability_metrics self = Ok m /\
    config self' = config self /\
    scan_results self' = scan_results self /\
    vulnerabilities self' = vulnerabilities self /\
    let failed := failed_of (policy_rules (config self)) m in
    let results := map (fun rule => _evaluate_rule rule m)
                       (policy_rules (config self)) in
    (failed <> [] /\
     gate_status self' = FAILED /\
     gate_details self' =
       Some {| status := FAILED;
               failed_rules :=
                 Some (failed ++ (if required_tools_passed m then []
                                  else [required_tools_entry]))%list;
               passed_rules := None;
               metrics := m;
               timestamp := now |}) \/
    (failed = [] /\ required_tools_passed m = true /\
     gate_status self' = PASSED /\
     gate_details self' =
       Some {| status := PASSED;
               failed_rules := None;
               passed_rules := Some (map name results);
               metrics := m;
               timestamp := now |}).
Proof.
  unfold evaluate_security_gates. intros H. bind_inv H. exists a.
  pose proof (metrics_required_tools self a Ha) as Ht.
  fold (failed_of (policy_rules (config self)) a) in H.
  split; [exact Ha |]. cbv zeta.
  destruct (failed_of (policy_rules (config self)) a) as [| r rs] eqn:Ef;
    unfold _evaluate_required_tools in *; cbn [config scan_results] in H;
    rewrite Ht in H; cbn [bind] in H;
    destruct (required_tools_passed a); cbn [negb gate_details] in H;
    try discriminate; injection H as <-; cbn.
  - repeat split. right. repeat split.
  - repeat split. left. split; [discriminate |]. rewrite app_nil_r. split; reflexivity.
  - repeat split. left. split; [discriminate |]. split; reflexivity.
Qed.

(** X9. When an evaluation returns, [gate_details] holds the metrics and
    a status equal to [gate_status].  If the status is FAILED, failed_rules
    lists every rule that did not pass, in the order of the policy (the
    evaluation does not stop at the first), followed by the entry
    "Required tools evaluation" when the required tools did not pass; if
    it is PASSED, passed_rules lists the names of all rules. *)
Theorem failed_rules_are_complete (now : string) (self self' : Evaluator) :
  evaluate_security_gates now self = Ok self' ->
  exists m d,
    _calculate_vulnerability_metrics self = Ok m /\
    gate_details self' = Some d /\
    status d = gate_status self' /\ metrics d = m /\ timestamp d = now /\
    match gate_status self' with
    | FAILED =>
        failed_rules d =
          Some (failed_of (policy_rules (config self)) m ++
                (if required_tools_passed m then [] else [required_tools_entry]))%list
        /\ passed_rules d = None
    | _ =>
        failed_rules d = None /\
        passed_rules d =
          Some (map (fun rule => name (_evaluate_rule rule m))
                  (policy_rules (config self)))
    end.
Proof.
  intros H. destruct (evaluate_inv now self self' H) as (m & Hm & _ & _ & _ & Hc).
  cbv zeta in Hc. exists m.
  destruct Hc as [(_ & Hs & Hd) | (_ & _ & Hs & Hd)]; rewrite Hs, Hd;
    eexists; (split; [exact Hm |]); (split; [reflexivity |]); cbn;
    repeat split.
  now rewrite map_map.
Qed.

(** Two rules fail over one critical finding with a secret in it. *)
Definition leaked_key_finding : dict :=
  [("id", JStr "secret-scanning-aws-key");
   ("title", JStr "AWS access key in appsettings.json");
   ("severity", JStr "critical");
   ("tool", JStr "secret-scanning");
   ("category", JStr "Secret Scanning")].

Definition leaked_key_run : Evaluator :=
  fresh _get_default_policy [leaked_key_finding].

Definition leaked_key_result : Evaluator :=
  match evaluate_security_gates "2024-01-01T00:00:00" leaked_key_run with
  | Ok self' => self'
  | Raise _ => leaked_key_run
  end.

Lemma failed_rules_are_complete_witness :
  exists m d,
    _calculate_vulnerability_metrics leaked_key_run = Ok m /\
    gate_details leaked_key_result = Some d /\
    status d = gate_status leaked_key_result /\ metrics d = m /\
    timestamp d = "2024-01-01T00:00:00" /\
    match gate_status leaked_key_result with
    | FAILED =>
        failed_rules d =
          Some (failed_of (policy_rules (config leaked_key_run)) m ++
                (if required_tools_passed m then [] else [required_tools_entry]))%list
        /\ passed_rules d = None
    | _ =>
        failed_rules d = None /\
        passed_rules d =
          Some (map (fun rule => name (_evaluate_rule rule m))
                  (policy_rules (config leaked_key_run)))
    end.
Proof.
  exact (failed_rules_are_complete "2024-01-01T00:00:00" leaked_key_run
           leaked_key_result eq_refl).
Defined.

(** The names of the failed rules of that run. *)
Example leaked_key_failed_rules :
  match gate_details leaked_key_result with
  | Some d => option_map (map name) (failed_rules d)
  | None => None
  end
  = Some [JStr "No critical vulnerabilities"; JStr "No secrets in code";
          JStr "All required tools must pass"; JStr "Required tools evaluation"].
Proof. reflexivity. Qed.

(** The evaluation reads three attributes of the evaluator. *)
Lemma evaluate_reads (now : string) (self self' : Evaluator) :
  config self = config self' ->
  scan_results self = scan_results self' ->
  vulnerabilities self = vulnerabilities self' ->
  evaluate_security_gates now self = evaluate_security_gates now self'.
Proof.
  destruct self, self'. simpl. intros -> -> ->. reflexivity.
Qed.

(** X10. An evaluation that returns leaves the policy, the scan results
    and the findings as they were, and evaluating again at the same time
    returns the same evaluator: status and details are overwritten, never
    accumulated. *)
Theorem evaluation_is_idempotent (now : string) (self self' : Evaluator) :
  evaluate_security_gates now self = Ok self' ->
  config self' = config self /\
  scan_results self' = scan_results self /\
  vulnerabilities self' = vulnerabilities self /\
  evaluate_security_gates now self' = Ok self'.
Proof.
  intros H. destruct (evaluate_inv now self self' H) as (m & _ & Hc & Hs & Hv & _).
  repeat split; try assumption.
  rewrite <- H. now apply evaluate_reads.
Qed.

Lemma evaluation_is_idempotent_witness :
  config leaked_key_result = config leaked_key_run /\
  scan_results leaked_key_result = scan_results leaked_key_run /\
  vulnerabilities leaked_key_result = vulnerabilities leaked_key_run /\
  evaluate_security_gates "2024-01-01T00:00:00" leaked_key_result
  = Ok leaked_key_result.
Proof.
  exact (evaluation_is_idempotent "2024-01-01T00:00:00" leaked_key_run
           leaked_key_result eq_refl).
Defined.

Lemma status_of_ok (r : result Evaluator) (st : Status) :
  status_of r = Ok st <-> exists self', r = Ok self' /\ gate_status self' = st.
Proof.
  unfold status_of. destruct r as [self' | e]; simpl; split.
  - intros H. injection H as <-. eauto.
  - intros (s & Hs & <-). now injection Hs as <-.
  - discriminate.
  - intros (s & Hs & _). discriminate.
Qed.

(** The metrics an outcome comes from. *)
Lemma status_metrics (now : string) (self : Evaluator) (st : Status) :
  status_of (evaluate_security_gates now self) = Ok st ->
  exists m, _calculate_vulnerability_metrics self = Ok m.
Proof.
  intros H. apply status_of_ok in H. destruct H as (self' & H & _).
  destruct (evaluate_inv now self self' H) as (m & Hm & _). eauto.
Qed.

(** X11. A policy can only get stricter by more rules: if the gate fails
    under a list of rules it fails under every list that has further rules
    inserted, and if it passes it also passes with rules taken out. *)
Theorem more_rules_are_stricter (now : string) (self : Evaluator)
  (pre more post : list dict) :
  (status_of (evaluate_security_gates now (with_rules self (pre ++ post)))
     = Ok FAILED ->
   status_of (evaluate_security_gates now (with_rules self (pre ++ more ++ post)))
     = Ok FAILED) /\
  (status_of (evaluate_security_gates now (with_rules self (pre ++ more ++ post)))
     = Ok PASSED ->
   status_of (evaluate_security_gates now (with_rules self (pre ++ post)))
     = Ok PASSED).
Proof.
  split; intros H; destruct (status_metrics _ _ _ H) as (m & Hm);
    rewrite metrics_with_rules in Hm;
    rewrite (evaluate_status now (with_rules self _) m Hm) in H;
    rewrite (evaluate_status now (with_rules self _) m Hm);
    cbn [policy_rules config with_rules] in *;
    rewrite !failed_of_app in *.
  - destruct (failed_of pre m); [| reflexivity]. simpl in *.
    destruct (failed_of post m).
    + destruct (required_tools_passed m); discriminate.
    + destruct (failed_of more m); reflexivity.
  - destruct (failed_of pre m); [| discriminate]. simpl in *.
    destruct (failed_of more m); [exact H | discriminate].
Qed.

(** The report of an evaluation that returned. *)
Lemma saved_report (now stamp later : string) (self self' : Evaluator) :
  evaluate_security_gates now self = Ok self' ->
  exists m d,
    _calculate_vulnerability_metrics self = Ok m /\
    gate_details self' = Some d /\
    metrics d = m /\ status d = gate_status self' /\
    (gate_status self' = PASSED \/ gate_status self' = FAILED) /\
    save_evaluation_results stamp later self'
    = Ok {| details := {| status := status d;
                          failed_rules := failed_rules d;
                          passed_rules := passed_rules d;
                          metrics := m;
                          timestamp := later |};
            scan_id := "scan-" ++ stamp;
            saved_gate_status := gate_status self';
            saved_total := saved_total_vulnerabilities m;
            critical_issues := critical_count m;
            high_issues := high_count m;
            medium_issues := medium_count m;
            low_issues := low_count m |}.
Proof.
  intros H. destruct (evaluate_inv now self self' H) as (m & Hm & _ & _ & _ & Hc).
  cbv zeta in Hc. exists m. unfold save_evaluation_results.
  destruct Hc as [(_ & Hs & Hd) | (_ & _ & Hs & Hd)]; rewrite Hd, Hs;
    eexists; (split; [exact Hm |]); (split; [reflexivity |]); cbn; auto.
Qed.

(** What [main] does once the evaluation has returned and the report is
    built: the writing decides between the status lines and ERROR. *)
Lemma main_report_written (now stamp later : string)
  (write : Report -> result unit) (self self' : Evaluator) (r : Report) :
  evaluate_security_gates now self = Ok self' ->
  save_evaluation_results stamp later self' = Ok r ->
  main_report now stamp later write self =
    match write r with
    | Ok _ =>
        match gate_status self' with
        | FAILED =>
            (["SECURITY_GATE_STATUS=FAILED";
              "CRITICAL_ISSUES=" ++ str_nat (critical_issues r);
              "HIGH_ISSUES=" ++ str_nat (high_issues r)], 1%Z)
        | _ => (["SECURITY_GATE_STATUS=PASSED"], 0%Z)
        end
    | Raise _ => (["SECURITY_GATE_STATUS=ERROR"], 1%Z)
    end.
Proof.
  intros He Hs. unfold main_report, main_try. rewrite He. cbn [bind].
  rewrite Hs. cbn [bind]. destruct (write r) as [u | e]; cbn [bind]; [| reflexivity].
  destruct (gate_status self'); reflexivity.
Qed.

(** X12. Once the scan results are loaded, [main] exits with 0 exactly
    when the evaluation returns with status PASSED and the report is
    written, and exactly then it prints the one line
    SECURITY_GATE_STATUS=PASSED; in every other case it exits with 1.
    When the evaluation has returned, the report is built, and a writing
    that raises makes [main] print SECURITY_GATE_STATUS=ERROR, whatever
    the status was. *)
Theorem exit_code_zero_iff_passed_and_written (now stamp later : string)
  (write : Report -> result unit) (self : Evaluator) :
  (snd (main_report now stamp later write self) = 0%Z <->
   exists self' r,
     evaluate_security_gates now self = Ok self' /\
     gate_status self' = PASSED /\
     save_evaluation_results stamp later self' = Ok r /\
     write r = Ok tt) /\
  (fst (main_report now stamp later write self) = ["SECURITY_GATE_STATUS=PASSED"] <->
   snd (main_report now stamp later write self) = 0%Z) /\
  (snd (main_report now stamp later write self) = 0%Z \/
   snd (main_report now stamp later write self) = 1%Z) /\
  (forall self',
     evaluate_security_gates now self = Ok self' ->
     exists r,
       save_evaluation_results stamp later self' = Ok r /\
       forall e, write r = Raise e ->
                 main_report now stamp later write self
                 = (["SECURITY_GATE_STATUS=ERROR"], 1%Z)).
Proof.
  destruct (evaluate_security_gates now self) as [self' | e] eqn:E.
  - destruct (saved_report now stamp later self self' E)
      as (m & d & _ & _ & _ & _ & Hst & Hr).
    match type of Hr with _ = Ok ?x => set (r := x) in * end. clearbody r.
    rewrite (main_report_written now stamp later write self self' r E Hr).
    split; [| split; [| split]].
    + split.
      * intros H. exists self', r. split; [reflexivity |].
        destruct (write r) as [[] | e] eqn:Ew; [| discriminate].
        destruct Hst as [Hs | Hs]; rewrite Hs in H |- *; [| discriminate].
        repeat split. exact Hr.
      * intros (s1 & r1 & Hs1 & Hg & Hr1 & Hw). injection Hs1 as <-.
        rewrite Hr in Hr1. injection Hr1 as <-. rewrite Hw, Hg. reflexivity.
    + destruct (write r) as [[] | e];
        [destruct Hst as [Hs | Hs]; rewrite Hs |];
        cbn; split; (reflexivity || discriminate).
    + destruct (write r) as [[] | e];
        [destruct Hst as [Hs | Hs]; rewrite Hs |]; cbn; auto.
    + intros s1 Hs1. injection Hs1 as <-. exists r. split; [exact Hr |].
      intros e He. now rewrite He.
  - rewrite (main_report_raises now stamp later write self e E). cbn.
    split; [| split; [| split]].
    + split; [discriminate | intros (s1 & r & Hs1 & _); discriminate].
    + split; discriminate.
    + now right.
    + intros s1 Hs1. discriminate.
Qed.

(** X13. A policy whose severity_thresholds have no 'high' entry cannot
    be evaluated: the aggregation raises whatever the findings and the
    rules are, and [main] reports ERROR. *)
Theorem missing_high_threshold_is_error (self : Evaluator) :
  lookup (severity_thresholds (config self)) "high" = None ->
  (exists e, _calculate_vulnerability_metrics self = Raise e) /\
  (forall now stamp later write,
     main_report now stamp later write self = (["SECURITY_GATE_STATUS=ERROR"], 1%Z)).
Proof.
  intros Hth.
  assert (Hm : exists e, _calculate_vulnerability_metrics self = Raise e).
  { unfold _calculate_vulnerability_metrics, high_threshold. rewrite Hth.
    destruct (foldM _ _ _); cbn [bind]; eauto. }
  split; [exact Hm |]. intros now stamp later write. destruct Hm as (e & He).
  apply main_report_raises with (e := e). now apply evaluate_raises.
Qed.

(** A policy file that gives only the rules. *)
Definition rules_only_policy : SecurityGateConfig :=
  {| severity_thresholds := [];
     tool_requirements := [];
     policy_rules := [default_rule "No critical vulnerabilities" "critical_count == 0"];
     allow_list := [];
     fail_conditions := [] |}.

Lemma missing_high_threshold_is_error_witness :
  (exists e, _calculate_vulnerability_metrics (fresh rules_only_policy []) = Raise e) /\
  (forall now stamp later write,
     main_report now stamp later write (fresh rules_only_policy [])
     = (["SECURITY_GATE_STATUS=ERROR"], 1%Z)).
Proof.
  exact (missing_high_threshold_is_error (fresh rules_only_policy []) eq_refl).
Defined.

(** The rule of the default policy on the required tools. *)
Definition tools_rule : dict :=
  default_rule "All required tools must pass" "required_tools_passed".

(** X14. When the policy holds the default rule on the required tools
    and has a high threshold, the findings can be counted (text titles;
    severity, tool and category usable as keys) and no tool results are
    recorded, the evaluation returns with status PASSED or FAILED.  If the
    report can then be written, [main] does not report ERROR: it prints
    SECURITY_GATE_STATUS=PASSED and exits with 0, or it prints
    SECURITY_GATE_STATUS=FAILED, CRITICAL_ISSUES and HIGH_ISSUES with the
    two counts of the metrics, and exits with 1. *)
Theorem countable_run_is_decided (now : string) (self : Evaluator) :
  In tools_rule (policy_rules (config self)) ->
  forallb countable (vulnerabilities self) = true ->
  lookup (severity_thresholds (config self)) "high" <> None ->
  lookup (scan_results self) "tool_results" = None ->
  (exists self', evaluate_security_gates now self = Ok self' /\
                 (gate_status self' = PASSED \/ gate_status self' = FAILED)) /\
  (exists m,
     _calculate_vulnerability_metrics self = Ok m /\
     forall stamp later write,
       (forall r, write r = Ok tt) ->
       main_report now stamp later write self
       = (["SECURITY_GATE_STATUS=PASSED"], 0%Z) \/
       main_report now stamp later write self
       = (["SECURITY_GATE_STATUS=FAILED";
           "CRITICAL_ISSUES=" ++ str_nat (critical_count m);
           "HIGH_ISSUES=" ++ str_nat (high_count m)], 1%Z)).
Proof.
  intros Hrule Hv Hth Htr.
  destruct (metrics_returns self Hv Hth Htr) as (m & Hm).
  pose proof (evaluate_status now self m Hm) as Hs.
  assert (Hst : status_of (evaluate_security_gates now self) = Ok PASSED \/
                status_of (evaluate_security_gates now self) = Ok FAILED).
  { rewrite Hs. destruct (failed_of (policy_rules (config self)) m) eqn:Ef;
      [| now right].
    destruct (required_tools_passed m) eqn:Et; [now left |].
    rewrite failed_of_nil in Ef. specialize (Ef tools_rule Hrule).
    change (passed (_evaluate_rule tools_rule m)) with (required_tools_passed m) in Ef.
    congruence. }
  assert (Hret : exists self', evaluate_security_gates now self = Ok self' /\
                   (gate_status self' = PASSED \/ gate_status self' = FAILED)).
  { destruct Hst as [H | H]; apply status_of_ok in H;
      destruct H as (self' & H & Hg); eauto. }
  split; [exact Hret |]. exists m. split; [exact Hm |].
  intros stamp later write Hw. destruct Hret as (self' & He & Hg).
  destruct (saved_report now stamp later self self' He)
    as (m' & d & Hm' & _ & _ & _ & _ & Hr).
  assert (m' = m) as -> by congruence.
  rewrite (main_report_written now stamp later write self self' _ He Hr), Hw.
  destruct Hg as [Hg | Hg]; rewrite Hg; cbn; auto.
Qed.

(** A file system on which the writing succeeds. *)
Definition writable (r : Report) : result unit := Ok tt.

Lemma countable_run_is_decided_witness :
  (exists self',
     evaluate_security_gates "2024-01-01T00:00:00" leaked_key_run = Ok self' /\
     (gate_status self' = PASSED \/ gate_status self' = FAILED)) /\
  (exists m,
     _calculate_vulnerability_metrics leaked_key_run = Ok m /\
     forall stamp later write,
       (forall r, write r = Ok tt) ->
       main_report "2024-01-01T00:00:00" stamp later write leaked_key_run
       = (["SECURITY_GATE_STATUS=PASSED"], 0%Z) \/
       main_report "2024-01-01T00:00:00" stamp later write leaked_key_run
       = (["SECURITY_GATE_STATUS=FAILED";
           "CRITICAL_ISSUES=" ++ str_nat (critical_count m);
           "HIGH_ISSUES=" ++ str_nat (high_count m)], 1%Z)).
Proof.
  refine (countable_run_is_decided "2024-01-01T00:00:00" leaked_key_run
            _ eq_refl _ eq_refl).
  - right. right. right. left. reflexivity.
  - discriminate.
Defined.

(** The run of the leaked key as [main] reports it: the gate fails, on a
    disk that can be written with the three lines, on one that cannot
    with ERROR. *)
Example leaked_key_reported :
  main_report "2024-01-01T00:00:00" "20240101-000005" "2024-01-01T00:00:05"
    writable leaked_key_run
  = (["SECURITY_GATE_STATUS=FAILED"; "CRITICAL_ISSUES=1"; "HIGH_ISSUES=0"], 1%Z) /\
  main_report "2024-01-01T00:00:00" "20240101-000005" "2024-01-01T00:00:05"
    (fun _ => Raise (Exn OSError "[Errno 13] Permission denied")) leaked_key_run
  = (["SECURITY_GATE_STATUS=ERROR"], 1%Z).
Proof. split; reflexivity. Qed.

(** X15. The report [main] writes after an evaluation that returned: it
    carries the status twice, as 'status' and as 'gate_status', and the
    two agree; failed_rules and passed_rules are those of the evaluation;
    its four issue counts are the four severity counts of the metrics and
    its total is their sum; the timestamp is the one of the writing.
    Without an evaluation there are no metrics to write and the call
    raises KeyError. *)
Theorem report_is_consistent (stamp now later : string) (self self' : Evaluator) :
  evaluate_security_gates now self = Ok self' ->
  (exists r d,
     save_evaluation_results stamp later self' = Ok r /\
     gate_details self' = Some d /\
     status (details r) = saved_gate_status r /\
     saved_gate_status r = gate_status self' /\
     failed_rules (details r) = failed_rules d /\
     passed_rules (details r) = passed_rules d /\
     _calculate_vulnerability_metrics self = Ok (metrics (details r)) /\
     saved_total r =
       critical_issues r + high_issues r + medium_issues r + low_issues r /\
     critical_issues r = critical_count (metrics (details r)) /\
     high_issues r = high_count (metrics (details r)) /\
     medium_issues r = medium_count (metrics (details r)) /\
     low_issues r = low_count (metrics (details r)) /\
     timestamp (details r) = later /\
     scan_id r = "scan-" ++ stamp) /\
  save_evaluation_results stamp later (__init__ (config self))
    = Raise (Exn KeyError "'metrics'").
Proof.
  intros H. split; [| reflexivity].
  destruct (saved_report now stamp later self self' H)
    as (m & d & Hm & Hd & _ & Hs & _ & Hr).
  eexists. exists d. split; [exact Hr |]. split; [exact Hd |]. cbn.
  repeat split; auto.
Qed.

Lemma report_is_consistent_witness :
  exists r d,
    save_evaluation_results "20240101-000005" "2024-01-01T00:00:05" leaked_key_result
      = Ok r /\
    gate_details leaked_key_result = Some d /\
    status (details r) = saved_gate_status r /\
    saved_gate_status r = gate_status leaked_key_result /\
    failed_rules (details r) = failed_rules d /\
    passed_rules (details r) = passed_rules d /\
    _calculate_vulnerability_metrics leaked_key_run = Ok (metrics (details r)) /\
    saved_total r =
      critical_issues r + high_issues r + medium_issues r + low_issues r /\
    critical_issues r = critical_count (metrics (details r)) /\
    high_issues r = high_count (metrics (details r)) /\
    medium_issues r = medium_count (metrics (details r)) /\
    low_issues r = low_count (metrics (details r)) /\
    timestamp (details r) = "2024-01-01T00:00:05" /\
    scan_id r = "scan-20240101-000005".
Proof.
  exact (proj1 (report_is_consistent "20240101-000005" "2024-01-01T00:00:00"
                  "2024-01-01T00:00:05" leaked_key_run leaked_key_result eq_refl)).
Defined.

End GateExtras.

(* ===================================================================== *)
(** * Further properties of the loader *)
(* ===================================================================== *)

Module LoaderExtras.
Import Py PyFacts Gate GateFacts SarifFacts.

(** If each step appends what [g] gives, the fold appends all of it. *)
Lemma fold_left_adds {A : Type} (f : Evaluator -> A -> Evaluator)
  (g : A -> list dict) (l : list A) (self : Evaluator) :
  (forall s x, vulnerabilities (f s x) = (vulnerabilities s ++ g x)%list) ->
  vulnerabilities (fold_left f l self)
  = (vulnerabilities self ++ List.concat (map g l))%list.
Proof.
  intros Hf. revert self. induction l as [| x l IH]; intros self; simpl.
  - now rewrite app_nil_r.
  - now rewrite IH, Hf, app_assoc.
Qed.

Section Loading.

Variable repr_container : json -> string.
Variable hash : json -> Z.

(** What one file adds: its findings, or nothing when it cannot be read
    or its processing raises. *)
Definition sarif_part (tool_name : string) (f : parsed) : list dict :=
  match f with
  | Some sarif_data =>
      match _process_sarif_for_tool repr_container sarif_data tool_name with
      | Ok results => results
      | Raise _ => []
      end
  | None => []
  end.

Definition json_part (tool_name : string) (f : string * parsed) : list dict :=
  if contains "sarif" (lower (fst f)) then []
  else
    match snd f with
    | Some json_data =>
        match _process_json_for_tool repr_container hash json_data tool_name with
        | Ok results => results
        | Raise _ => []
        end
    | None => []
    end.

Definition directory_part (tool_name : string) (tool_dir : ToolDir) : list dict :=
  (List.concat (map (sarif_part tool_name) (sarif_files tool_dir)) ++
   List.concat (map (json_part tool_name) (json_files tool_dir)))%list.

Definition tools_part (dir : ScanDir) : list dict :=
  List.concat
    (map (fun pattern =>
            List.concat (map (directory_part (rstrip_dash pattern)) (glob dir pattern)))
       tool_dirs).

Definition analysis_part (dir : ScanDir) : list dict :=
  match vulnerability_analysis dir with
  | Some {| vulnerabilities_json := Some (Some vuln_data) |} =>
      match iter vuln_data with
      | Ok entries => somes (map _create_vulnerability_from_data entries)
      | Raise _ => []
      end
  | _ => []
  end.

Lemma load_sarif_file_adds (tool_name : string) (self : Evaluator) (f : parsed) :
  vulnerabilities (load_sarif_file repr_container tool_name self f)
  = (vulnerabilities self ++ sarif_part tool_name f)%list.
Proof.
  unfold load_sarif_file, sarif_part. destruct f as [sarif_data |].
  - destruct (_process_sarif_for_tool _ _ _); simpl; [reflexivity |].
    now rewrite app_nil_r.
  - now rewrite app_nil_r.
Qed.

Lemma load_json_file_adds (tool_name : string) (self : Evaluator)
  (f : string * parsed) :
  vulnerabilities (load_json_file repr_container hash tool_name self f)
  = (vulnerabilities self ++ json_part tool_name f)%list.
Proof.
  unfold load_json_file, json_part.
  destruct (contains "sarif" (lower (fst f))); [now rewrite app_nil_r |].
  destruct (snd f) as [json_data |]; [| now rewrite app_nil_r].
  destruct (_process_json_for_tool _ _ _ _); simpl; [reflexivity |].
  now rewrite app_nil_r.
Qed.

Lemma process_tool_directory_adds (tool_name : string) (self : Evaluator)
  (tool_dir : ToolDir) :
  vulnerabilities (_process_tool_directory repr_container hash tool_name self tool_dir)
  = (vulnerabilities self ++ directory_part tool_name tool_dir)%list.
Proof.
  unfold _process_tool_directory, directory_part.
  rewrite (fold_left_adds _ (json_part tool_name))
    by (intros; apply load_json_file_adds).
  rewrite (fold_left_adds _ (sarif_part tool_name))
    by (intros; apply load_sarif_file_adds).
  now rewrite app_assoc.
Qed.

Lemma load_tool_results_adds (self : Evaluator) (dir : ScanDir) :
  vulnerabilities (_load_tool_results repr_container hash self dir)
  = (vulnerabilities self ++ tools_part dir)%list.
Proof.
  unfold _load_tool_results, tools_part.
  apply (fold_left_adds _
           (fun pattern =>
              List.concat (map (directory_part (rstrip_dash pattern))
                             (glob dir pattern)))).
  intros s pattern. apply fold_left_adds. intros.
  apply process_tool_directory_adds.
Qed.

Lemma load_scan_results_adds (self : Evaluator) (dir : ScanDir) :
  vulnerabilities (load_scan_results repr_container hash self dir)
  = (vulnerabilities self ++ analysis_part dir ++ tools_part dir)%list.
Proof.
  unfold load_scan_results. rewrite load_tool_results_adds, app_assoc. f_equal.
  unfold analysis_part, _load_vulnerability_analysis.
  destruct (vulnerability_analysis dir) as [[vj aj] |]; simpl;
    [| now rewrite app_nil_r].
  assert (H : forall s : Evaluator,
             vulnerabilities
               match aj with
               | Some (Some analysis_data) =>
                   with_scan_results s (set (scan_results s) "analysis" analysis_data)
               | _ => s
               end = vulnerabilities s).
  { intros s. destruct aj as [[a |] |]; reflexivity. }
  rewrite H. destruct vj as [[vuln_data |] |]; try now rewrite app_nil_r.
  destruct (iter vuln_data); simpl; [reflexivity | now rewrite app_nil_r].
Qed.

(** X16. Loading only appends: the findings held before stay first and
    in order, followed by those of [vulnerabilities.json] and then those of
    the tool directories, pattern by pattern in the fixed order of
    [tool_dirs], in each directory the SARIF files before the JSON files;
    a file adds its findings or nothing.  The policy is not touched. *)
Theorem loading_only_appends (self : Evaluator) (dir : ScanDir) :
  vulnerabilities (load_scan_results repr_container hash self dir)
  = (vulnerabilities self ++ analysis_part dir ++
     List.concat
       (map (fun pattern =>
               List.concat
                 (map (fun tool_dir =>
                         List.concat (map (sarif_part (rstrip_dash pattern))
                                        (sarif_files tool_dir)) ++
                         List.concat (map (json_part (rstrip_dash pattern))
                                        (json_files tool_dir)))
                    (glob dir pattern)))
          tool_dirs))%list /\
  config (load_scan_results repr_container hash self dir) = config self.
Proof.
  split.
  - rewrite load_scan_results_adds. reflexivity.
  - unfold load_scan_results.
    pose proof (LoaderFacts.load_tool_results_frame repr_container hash
                  match vulnerability_analysis dir with
                  | Some d => _load_vulnerability_analysis self d
                  | None => self
                  end dir) as Hf.
    injection Hf as Hc _. rewrite Hc.
    destruct (vulnerability_analysis dir) as [d |]; [| reflexivity].
    apply (LoaderFacts.load_vulnerability_analysis_frame self d).
Qed.

(** A SARIF file that adds nothing: it cannot be opened or parsed, or
    its processing raises. *)
Definition dropped (tool_name : string) (f : parsed) : Prop :=
  f = None \/
  exists sarif_data e,
    f = Some sarif_data /\
    _process_sarif_for_tool repr_container sarif_data tool_name = Raise e.

(** X17. Failure is isolated per file: a SARIF file that cannot be read,
    or on which the processing raises, leaves the findings of a tool
    directory exactly as they are without the file; the files before and
    after it are processed all the same. *)
Theorem dropped_file_is_isolated (tool_name : string) (self : Evaluator)
  (before after : list parsed) (jsons : list (string * parsed)) (f : parsed) :
  dropped tool_name f ->
  vulnerabilities
    (_process_tool_directory repr_container hash tool_name self
       {| sarif_files := before ++ f :: after; json_files := jsons |})
  = vulnerabilities
      (_process_tool_directory repr_container hash tool_name self
         {| sarif_files := before ++ after; json_files := jsons |}).
Proof.
  intros Hf. rewrite !process_tool_directory_adds. unfold directory_part.
  cbn [sarif_files json_files]. rewrite !map_app, !concat_app. cbn [map List.concat].
  assert (E : sarif_part tool_name f = []).
  { unfold sarif_part. destruct Hf as [-> | (d & e & -> & He)]; [reflexivity |].
    now rewrite He. }
  now rewrite E.
Qed.

End Loading.

(** A report that is no object, between two readable ones. *)
Definition broken_report : parsed := Some (JArr [JStr "not a SARIF log"]).

Lemma dropped_file_is_isolated_witness :
  vulnerabilities
    (_process_tool_directory (fun _ => "") (fun _ => 0%Z) "codeql-results"
       (__init__ _get_default_policy)
       {| sarif_files := [Some codeql_report] ++ broken_report :: [Some codeql_report];
          json_files := [] |})
  = vulnerabilities
      (_process_tool_directory (fun _ => "") (fun _ => 0%Z) "codeql-results"
         (__init__ _get_default_policy)
         {| sarif_files := [Some codeql_report] ++ [Some codeql_report];
            json_files := [] |}).
Proof.
  refine (dropped_file_is_isolated (fun _ => "") (fun _ => 0%Z) "codeql-results"
            (__init__ _get_default_policy) [Some codeql_report] [Some codeql_report]
            [] broken_report _).
  right. eexists. eexists. split; reflexivity.
Defined.

(** ** What the loaded findings look like *)

(** The keys every producer of findings sets. *)
Definition core_keys : list string :=
  ["id"; "tool"; "severity"; "title"; "description"; "file_path"; "line_number";
   "category"].

Definition has_entry (f : dict) (k : string) : bool :=
  match lookup f k with
  | Some _ => true
  | None => false
  end.

Definition has_core_keys (f : dict) : bool := forallb (has_entry f) core_keys.

(** The finding names this tool and this category. *)
Definition labelled (tool category : string) (f : dict) : Prop :=
  lookup f "tool" = Some (JStr tool) /\ lookup f "category" = Some (JStr category).

Lemma mapM_Forall {A B : Type} (f : A -> result B) (P : B -> Prop)
  (xs : list A) (ys : list B) :
  (forall x y, f x = Ok y -> P y) -> mapM f xs = Ok ys -> Forall P ys.
Proof.
  intros Hf H. apply mapM_ok in H.
  induction H as [| x y xs ys Hxy _ IH]; constructor; eauto.
Qed.

Lemma Forall_somes {A : Type} (P : A -> Prop) (os : list (option A)) :
  Forall (fun o => match o with Some x => P x | None => True end) os ->
  Forall P (somes os).
Proof.
  induction 1 as [| [x |] os H _ IH]; simpl; auto.
Qed.

Lemma Forall_concat {A : Type} (P : A -> Prop) (xss : list (list A)) :
  Forall (Forall P) xss -> Forall P (List.concat xss).
Proof.
  induction 1 as [| xs xss H _ IH]; simpl; [constructor |].
  apply Forall_app. auto.
Qed.

Section Shapes.

Variable repr_container : json -> string.
Variable hash : json -> Z.

Lemma sarif_result_shape (tool_name : string) (res : json) (f : dict) :
  sarif_result repr_container tool_name res = Ok (Some f) ->
  labelled tool_name "SAST" f /\ has_core_keys f = true.
Proof.
  unfold sarif_result. intros H. bind_inv H.
  destruct (in_strs a ["error"; "warning"; "note"]); [| discriminate].
  bind_inv H. bind_inv H. bind_inv H. bind_inv H. bind_inv H. bind_inv H.
  bind_inv H. injection H as <-.
  destruct res as [| | | | | d]; try discriminate.
  apply extract_location_ok in Ha6.
  destruct (first_physical_location d); subst a6; repeat split.
Qed.

Lemma grype_match_shape (m : json) (f : dict) :
  grype_match repr_container m = Ok f ->
  labelled "Grype" "SCA" f /\ has_core_keys f = true.
Proof.
  unfold grype_match. intros H. do 9 bind_inv H. injection H as <-.
  repeat split.
Qed.

Lemma retire_finding_shape (finding : json) (f : dict) :
  retire_finding hash finding = Ok f -> has_core_keys f = true.
Proof.
  unfold retire_finding. intros H. do 6 bind_inv H. now injection H as <-.
Qed.

Lemma trufflehog_finding_shape (json_data : json) (f : dict) :
  trufflehog_finding repr_container hash json_data = Ok f -> has_core_keys f = true.
Proof.
  unfold trufflehog_finding. intros H. do 7 bind_inv H. now injection H as <-.
Qed.

Lemma sarif_shape (tool_name : string) (sarif_data : json) (fs : list dict) :
  _process_sarif_for_tool repr_container sarif_data tool_name = Ok fs ->
  Forall (fun f => labelled tool_name "SAST" f /\ has_core_keys f = true) fs.
Proof.
  unfold _process_sarif_for_tool. intros H. do 3 bind_inv H. injection H as <-.
  apply Forall_concat. eapply mapM_Forall; [| exact Ha1].
  intros run fs Hrun. unfold sarif_run in Hrun. do 3 bind_inv Hrun.
  injection Hrun as <-. apply Forall_somes.
  eapply mapM_Forall; [| exact Ha4].
  intros res [f |] Hres; [| exact I]. now apply sarif_result_shape in Hres.
Qed.

(** Whatever the tool name, a JSON file gives findings with the core
    keys. *)
Lemma json_shape (tool_name : string) (json_data : json) (fs : list dict) :
  _process_json_for_tool repr_container hash json_data tool_name = Ok fs ->
  Forall (fun f => has_core_keys f = true) fs.
Proof.
  unfold _process_json_for_tool.
  destruct (_ || _).
  - destruct json_data as [| | | | | d]; try (intros H; injection H as <-; constructor).
    destruct (has_key d "matches"); [| intros H; injection H as <-; constructor].
    intros H. do 2 bind_inv H. eapply mapM_Forall; [| exact H].
    intros m f Hm. now apply grype_match_shape in Hm.
  - destruct (lower tool_name =? "retire").
    + destruct json_data as [| | | | l |];
        try (intros H; injection H as <-; constructor).
      intros H. eapply mapM_Forall; [| exact H]. apply retire_finding_shape.
    + destruct (lower tool_name =? "trufflehog");
        [| intros H; injection H as <-; constructor].
      destruct json_data as [| | | | | d];
        try (intros H; injection H as <-; constructor).
      destruct (has_key d "SourceMetadata");
        [| intros H; injection H as <-; constructor].
      intros H. bind_inv H. injection H as <-.
      constructor; [| constructor]. now apply trufflehog_finding_shape in Ha.
Qed.

(** Under the names the loader passes, a JSON file is read as a Grype
    report or not at all. *)
Lemma json_for_loader (pattern : string) (json_data : json) (fs : list dict) :
  In pattern tool_dirs ->
  _process_json_for_tool repr_container hash json_data (rstrip_dash pattern) = Ok fs ->
  Forall (labelled "Grype" "SCA") fs /\
  (pattern <> "sca-results-" -> pattern <> "secret-scanning-" -> fs = []).
Proof.
  assert (Hgrype : forall fs',
             match json_data with
             | JObj d =>
                 if has_key d "matches" then
                   matches <- item json_data "matches" ;;
                   entries <- iter matches ;;
                   mapM (grype_match repr_container) entries
                 else Ok []
             | _ => Ok []
             end = Ok fs' -> Forall (labelled "Grype" "SCA") fs').
  { intros fs'. destruct json_data as [| | | | | d];
      try (intros H; injection H as <-; constructor).
    destruct (has_key d "matches"); [| intros H; injection H as <-; constructor].
    intros H. do 2 bind_inv H. eapply mapM_Forall; [| exact H].
    intros m f Hm. now apply grype_match_shape in Hm. }
  intros Hin. unfold tool_dirs in Hin. simpl in Hin.
  destruct Hin as [<- | [<- | [<- | [<- | [<- | [<- | [<- | []]]]]]]];
    intros H;
    first [ injection H as <-; split; [constructor | reflexivity]
          | split; [now apply Hgrype | congruence] ].
Qed.

End Shapes.

Section Loaded.

Variable repr_container : json -> string.
Variable hash : json -> Z.

(** A finding of a tool directory: from SARIF under the directory's tool
    name, or from JSON as a Grype finding. *)
Definition tool_finding (f : dict) : Prop :=
  (exists tool_name, labelled tool_name "SAST" f) \/ labelled "Grype" "SCA" f.

Lemma directory_part_shape (pattern : string) (tool_dir : ToolDir) :
  In pattern tool_dirs ->
  Forall (fun f => tool_finding f /\ has_core_keys f = true)
    (directory_part repr_container hash (rstrip_dash pattern) tool_dir).
Proof.
  intros Hin. unfold directory_part. apply Forall_app. split; apply Forall_concat;
    apply Forall_map, Forall_forall; intros file _.
  - unfold sarif_part. destruct file as [sarif_data |]; [| constructor].
    destruct (_process_sarif_for_tool _ _ _) as [fs |] eqn:E; [| constructor].
    eapply Forall_impl; [| exact (sarif_shape _ _ _ _ E)].
    intros f [Hl Hk]. split; [left; eauto | exact Hk].
  - unfold json_part. destruct (contains "sarif" _); [constructor |].
    destruct (snd file) as [json_data |]; [| constructor].
    destruct (_process_json_for_tool _ _ _ _) as [fs |] eqn:E; [| constructor].
    pose proof (json_shape _ _ _ _ _ E) as Hk.
    destruct (json_for_loader _ _ pattern json_data fs Hin E) as [Hl _].
    rewrite Forall_forall in Hk, Hl |- *. intros f Hf.
    split; [right; auto | auto].
Qed.

Lemma tools_part_shape (dir : ScanDir) :
  Forall (fun f => tool_finding f /\ has_core_keys f = true)
    (tools_part repr_container hash dir).
Proof.
  unfold tools_part. apply Forall_concat, Forall_map, Forall_forall.
  intros pattern Hin. apply Forall_concat, Forall_map, Forall_forall.
  intros tool_dir _. now apply directory_part_shape.
Qed.

Lemma analysis_part_shape (dir : ScanDir) :
  Forall (fun f => has_core_keys f = true) (analysis_part dir).
Proof.
  unfold analysis_part. destruct (vulnerability_analysis dir) as [[vj aj] |];
    [| constructor].
  destruct vj as [[vuln_data |] |]; try constructor.
  destruct (iter vuln_data) as [entries |]; [| constructor].
  apply Forall_somes, Forall_map, Forall_forall. intros entry _.
  destruct entry; simpl; auto.
Qed.

(** A tool finding leaves the secret tally as it is. *)
Lemma tally_step_no_secret (cfg : SecurityGateConfig) (t t' : Tally) (f : dict) :
  tool_finding f -> tally_step cfg t f = Ok t' -> secret_tally t' = secret_tally t.
Proof.
  intros Hf. unfold tally_step. destruct (is_false_positive f).
  - intros H. now injection H as <-.
  - intros H. bind_inv H. destruct a; [now injection H as <- |].
    do 3 bind_inv H. injection H as <-. simpl.
    assert (E : eq_str (get f "category" (JStr "unknown")) "Secret Scanning" = false).
    { unfold get. destruct Hf as [(tool & _ & Hc) | [_ Hc]]; rewrite Hc; reflexivity. }
    now rewrite E.
Qed.

Lemma tally_no_secret (cfg : SecurityGateConfig) (fs : list dict) (t t' : Tally) :
  Forall tool_finding fs -> foldM (tally_step cfg) t fs = Ok t' ->
  secret_tally t' = secret_tally t.
Proof.
  intros Hfs. revert t. induction Hfs as [| f fs Hf _ IH]; simpl; intros t H.
  - now injection H as <-.
  - bind_inv H. apply IH in H. rewrite H. eapply tally_step_no_secret; eauto.
Qed.

(** X18. The tool directories yield no secret finding: a finding read
    from SARIF has category SAST, one read from JSON is a Grype finding of
    category SCA, and JSON files are read only under [sca-results-*] and
    [secret-scanning-*].  So after loading, secret_count is the secret
    tally of the findings of [vulnerabilities.json] alone. *)
Theorem tool_directories_hold_no_secrets (policy : SecurityGateConfig)
  (dir : ScanDir) (m : Metrics) :
  _calculate_vulnerability_metrics
    (load_scan_results repr_container hash (__init__ policy) dir) = Ok m ->
  Forall tool_finding (tools_part repr_container hash dir) /\
  (forall pattern file,
     In pattern tool_dirs ->
     pattern <> "sca-results-" -> pattern <> "secret-scanning-" ->
     json_part repr_container hash (rstrip_dash pattern) file = []) /\
  exists t,
    foldM (tally_step policy) empty_tally (analysis_part dir) = Ok t /\
    secret_count m = secret_tally t.
Proof.
  intros Hm.
  assert (Htools : Forall tool_finding (tools_part repr_container hash dir)).
  { eapply Forall_impl; [| apply tools_part_shape]. now intros f [Hf _]. }
  split; [exact Htools |]. split.
  - intros pattern file Hin H1 H2. unfold json_part.
    destruct (contains "sarif" _); [reflexivity |].
    destruct (snd file) as [json_data |]; [| reflexivity].
    destruct (_process_json_for_tool _ _ _ _) as [fs |] eqn:E; [| reflexivity].
    now apply (json_for_loader _ _ pattern json_data fs Hin E).
  - unfold _calculate_vulnerability_metrics in Hm.
    destruct (LoaderFacts.load_scan_results_frame repr_container hash policy dir)
      as [Hc _].
    rewrite load_scan_results_adds, Hc in Hm. cbn [vulnerabilities __init__ app config] in Hm.
    rewrite AggregatorFacts.foldM_app in Hm.
    bind_inv Hm. bind_inv Ha. do 2 bind_inv Hm. injection Hm as <-.
    exists a0. split; [exact Ha0 |]. cbn [secret_count].
    eapply tally_no_secret; eauto.
Qed.

(** X19. Every finding the loader holds after a run has the keys id,
    tool, severity, title, description, file_path, line_number and
    category, whichever file it came from. *)
Theorem loaded_findings_have_core_keys (policy : SecurityGateConfig) (dir : ScanDir) :
  Forall (fun f => has_core_keys f = true)
    (vulnerabilities (load_scan_results repr_container hash (__init__ policy) dir)).
Proof.
  rewrite load_scan_results_adds. cbn [vulnerabilities __init__ app].
  apply Forall_app. split.
  - apply analysis_part_shape.
  - eapply Forall_impl; [| apply tools_part_shape]. now intros f [_ Hk].
Qed.

End Loaded.

(** A results directory: one analysed finding and a stray string in
    [vulnerabilities.json], a CodeQL report, and two JSON files under
    [secret-scanning-*], the first a TruffleHog record. *)
Definition sample_dir : ScanDir :=
  {| vulnerability_analysis :=
       Some {| vulnerabilities_json :=
                 Some (Some (JArr [JObj GateExtras.leaked_key_finding; JStr "note"]));
               analysis_json := Some (Some (JObj [("summary", JStr "ok")])) |};
     glob := fun pattern =>
       if pattern =? "codeql-results-" then
         [{| sarif_files := [Some codeql_report]; json_files := [] |}]
       else if pattern =? "secret-scanning-" then
         [{| sarif_files := [];
             json_files :=
               [("trufflehog.json",
                 Some (JObj [("SourceMetadata", JObj []);
                             ("DetectorName", JStr "AWS")]));
                ("grype.json",
                 Some (JObj [("matches",
                              JArr [JObj [("vulnerability",
                                           JObj [("id", JStr "CVE-2024-1");
                                                 ("severity", JStr "High")])]])]))] |}]
       else [] |}.

Definition sample_metrics : Metrics :=
  {| total_vulnerabilities := 4; critical_count := 1; high_count := 2;
     medium_count := 0; low_count := 1; secret_count := 1; cve_count := 0;
     tool_counts := [(JStr "secret-scanning", 1); (JStr "codeql-results", 2);
                     (JStr "Grype", 1)];
     category_counts := [(JStr "Secret Scanning", 1); (JStr "SAST", 2);
                         (JStr "SCA", 1)];
     critical_vulnerabilities_exist := true;
     excessive_high_vulnerabilities := false;
     secrets_detected := true; required_tools_passed := false |}.

(** The evaluator after loading the sample with the default policy. *)
Definition sample_run : Evaluator :=
  load_scan_results (fun _ => "") (fun _ => 0%Z) (__init__ _get_default_policy)
    sample_dir.

Lemma tool_directories_hold_no_secrets_witness :
  Forall tool_finding (tools_part (fun _ => "") (fun _ => 0%Z) sample_dir) /\
  (forall pattern file,
     In pattern tool_dirs ->
     pattern <> "sca-results-" -> pattern <> "secret-scanning-" ->
     json_part (fun _ => "") (fun _ => 0%Z) (rstrip_dash pattern) file = []) /\
  exists t,
    foldM (tally_step _get_default_policy) empty_tally (analysis_part sample_dir)
      = Ok t /\
    secret_count sample_metrics = secret_tally t.
Proof.
  exact (tool_directories_hold_no_secrets (fun _ => "") (fun _ => 0%Z)
           _get_default_policy sample_dir sample_metrics eq_refl).
Defined.

(** The TruffleHog record of the sample is read as a Grype report
    without matches: the directory adds one Grype finding. *)
Example sample_tools_part :
  map (fun f => (get_none f "tool", get_none f "category"))
    (tools_part (fun _ => "") (fun _ => 0%Z) sample_dir)
  = [(JStr "codeql-results", JStr "SAST"); (JStr "codeql-results", JStr "SAST");
     (JStr "Grype", JStr "SCA")].
Proof. reflexivity. Qed.

End LoaderExtras.

(* ===================================================================== *)
(** * Further properties of the dashboard and of the notifications *)
(* ===================================================================== *)

Module ReportingExtras.
Import Py PyFacts Dashboard DashboardFacts Notify.

(** The keys of a row of the dashboard's table. *)
Definition row_keys : list string :=
  ["severity"; "title"; "tool"; "category"; "location"].

Lemma mapM_rows {A B : Type} (f : A -> result B) (P : B -> Prop) (xs : list A) :
  Forall (fun x => exists y, f x = Ok y /\ P y) xs ->
  exists ys, mapM f xs = Ok ys /\ List.length ys = List.length xs /\ Forall P ys.
Proof.
  induction 1 as [| x xs (y & Hy & Hp) _ (ys & Hys & Hl & Hps)]; simpl.
  - exists []. repeat split. constructor.
  - exists (y :: ys). rewrite Hy, Hys. simpl. repeat split; auto.
Qed.

Section Rows.

Variable repr_container : json -> string.

Lemma formatted_vuln_row (d : dict) :
  exists row, formatted_vuln repr_container (JObj d) = Ok row /\
              map fst row = row_keys.
Proof.
  unfold formatted_vuln, _format_location. cbn [vget bind].
  destruct (truthy (get d "file_path" (JStr "")) && truthy (get d "line_number" JNull));
    [| destruct (truthy (get d "file_path" (JStr "")))];
    cbn [bind]; eexists; split; reflexivity.
Qed.

(** X20. For findings with a hashable severity and a text title the
    dashboard's table is computed, has [limit] rows or as many as there
    are findings, whichever is less, and each row has exactly the keys
    severity, title, tool, category and location, in this order. *)
Theorem top_findings_rows (limit : nat) (vs : list json) :
  forallb finding_shaped vs = true ->
  exists rows,
    _get_top_vulnerabilities repr_container limit (JArr vs) = Ok rows /\
    List.length rows = Nat.min limit (List.length vs) /\
    Forall (fun row => map fst row = row_keys) rows.
Proof.
  intros Hvs. destruct (keyed_list vs Hvs) as (ks & Hm & Hsnd & Hc).
  destruct (sorted_reverse_sorted ks) as (sk & Hs & Hp & _).
  { eapply Forall_impl; [| exact Hc]. apply consistent_str_keyed. }
  assert (Hcs : Forall consistent sk) by (apply (Permutation_Forall Hp); exact Hc).
  unfold _get_top_vulnerabilities, sorted_vulns. cbn [iter bind].
  rewrite Hm. cbn [bind]. rewrite Hs. cbn [bind].
  destruct (mapM_rows (formatted_vuln repr_container)
              (fun row => map fst row = row_keys) (firstn limit (map snd sk)))
    as (rows & Hrows & Hlen & Hkeys).
  { apply Forall_forall. intros v Hv.
    assert (Hin : In v (map snd sk)).
    { rewrite <- (firstn_skipn limit (map snd sk)). apply in_or_app. now left. }
    clear Hv. rename Hin into Hv.
    apply in_map_iff in Hv. destruct Hv as (kv & <- & Hkv).
    rewrite Forall_forall in Hcs. destruct (Hcs kv Hkv) as (d & t & Hd & _).
    rewrite Hd. apply formatted_vuln_row. }
  exists rows. split; [exact Hrows |]. split; [| exact Hkeys].
  rewrite Hlen, length_firstn, length_map, <- Hsnd, length_map.
  f_equal. symmetry. exact (Permutation_length Hp).
Qed.

End Rows.

Lemma top_findings_rows_witness :
  exists rows,
    _get_top_vulnerabilities (fun _ => "") 10 (JArr eleven_high) = Ok rows /\
    List.length rows = Nat.min 10 (List.length eleven_high) /\
    Forall (fun row => map fst row = row_keys) rows.
Proof. exact (top_findings_rows (fun _ => "") 10 eleven_high eq_refl). Defined.

(** ** Notifications *)

(** X21. Whatever the counts, when the urgency is determined: a failed
    gate is at least of high urgency and reaches email, slack and webhook;
    the urgency is critical only for a failed gate; teams is notified
    exactly for critical urgency; and some channel is always notified. *)
Theorem failure_reaches_every_channel (gate_result : string) (scan_data : dict)
  (urgency : string) (channels : list string) :
  _determine_notification_requirements gate_result scan_data
    = Ok (urgency, channels) ->
  (gate_result = "failure" ->
   (urgency = "critical" \/ urgency = "high") /\
   In "email" channels /\ In "slack" channels /\ In "webhook" channels) /\
  (urgency = "critical" -> gate_result = "failure") /\
  (In "teams" channels <-> urgency = "critical") /\
  channels <> [] /\
  In urgency ["critical"; "high"; "medium"; "info"].
Proof.
  unfold _determine_notification_requirements. intros H.
  destruct (String.eqb_spec gate_result "failure") as [-> | Hne].
  - do 2 bind_inv H.
    match type of H with (if ?b then _ else _) = _ => destruct b end;
      injection H as <- <-; simpl;
      intuition (try discriminate; try congruence; auto).
  - do 2 bind_inv H.
    match type of H with (if ?b then _ else _) = _ => destruct b end.
    + injection H as <- <-; simpl;
        intuition (try discriminate; try congruence; auto).
    + do 2 bind_inv H.
      match type of H with (if ?b then _ else _) = _ => destruct b end;
        injection H as <- <-; simpl;
        intuition (try discriminate; try congruence; auto).
Qed.

Definition counted_scan : dict :=
  [("gate_status", JStr "FAILED");
   ("severity_counts", JObj [("critical", JNum 2); ("high", JNum 7)])].

Lemma failure_reaches_every_channel_witness :
  ("failure" = "failure" ->
   ("critical" = "critical" \/ "critical" = "high") /\
   In "email" ["email"; "slack"; "teams"; "webhook"] /\
   In "slack" ["email"; "slack"; "teams"; "webhook"] /\
   In "webhook" ["email"; "slack"; "teams"; "webhook"]) /\
  ("critical" = "critical" -> "failure" = "failure") /\
  (In "teams" ["email"; "slack"; "teams"; "webhook"] <-> "critical" = "critical") /\
  ["email"; "slack"; "teams"; "webhook"] <> [] /\
  In "critical" ["critical"; "high"; "medium"; "info"].
Proof.
  exact (failure_reaches_every_channel "failure" counted_scan "critical"
           ["email"; "slack"; "teams"; "webhook"] eq_refl).
Defined.

(** X22. Without a 'severity_counts' entry every count reads as 0: a
    failed gate is notified with urgency high (not critical, whatever the
    findings were) to email, slack and webhook, and any other result with
    urgency info to the webhook alone. *)
Theorem missing_counts_read_as_zero (gate_result : string) (scan_data : dict) :
  lookup scan_data "severity_counts" = None ->
  _determine_notification_requirements gate_result scan_data
  = Ok (if gate_result =? "failure" then ("high", ["email"; "slack"; "webhook"])
        else ("info", ["webhook"])).
Proof.
  intros H. unfold _determine_notification_requirements, severity_count, get.
  rewrite H. destruct (gate_result =? "failure"); reflexivity.
Qed.

Lemma missing_counts_read_as_zero_witness :
  _determine_notification_requirements "failure" [("gate_status", JStr "FAILED")]
  = Ok (if "failure" =? "failure" then ("high", ["email"; "slack"; "webhook"])
        else ("info", ["webhook"])).
Proof.
  exact (missing_counts_read_as_zero "failure" [("gate_status", JStr "FAILED")]
           eq_refl).
Defined.

End ReportingExtras.

(* ===================================================================== *)
(** * What the counts count *)
(* ===================================================================== *)

Module CountExtras.
Import Py PyFacts Gate GateFacts AggregatorFacts AggregatorExtras GateExtras.

(** The finding reaches the counters: no false positive, and the
    allow-list test returns false. *)
Definition is_counted (cfg : SecurityGateConfig) (vuln : dict) : bool :=
  negb (is_false_positive vuln) &&
  match _is_allowed_vulnerability cfg vuln with
  | Ok false => true
  | _ => false
  end.

(** The number of counted findings with the property [p]. *)
Definition counted_with (cfg : SecurityGateConfig) (p : dict -> bool)
  (vs : list dict) : nat :=
  List.length (filter (fun v => is_counted cfg v && p v) vs).

Definition severity_is (s : string) (vuln : dict) : bool :=
  eq_str (get vuln "severity" (JStr "low")) s.

Definition tool_is (s : string) (vuln : dict) : bool :=
  eq_str (get vuln "tool" (JStr "unknown")) s.

Definition category_is (s : string) (vuln : dict) : bool :=
  eq_str (get vuln "category" (JStr "unknown")) s.

Definition has_cve (vuln : dict) : bool := truthy (get_none vuln "cve_id").

Definition one_if (b : bool) : nat := if b then 1 else 0.

Lemma counted_with_cons (cfg : SecurityGateConfig) (p : dict -> bool)
  (v : dict) (vs : list dict) :
  counted_with cfg p (v :: vs) = one_if (is_counted cfg v && p v) + counted_with cfg p vs.
Proof.
  unfold counted_with. simpl. destruct (is_counted cfg v && p v); reflexivity.
Qed.

(** What one iteration adds to each figure. *)
Lemma tally_step_adds (cfg : SecurityGateConfig) (t t' : Tally) (v : dict) :
  tally_step cfg t v = Ok t' ->
  (forall s, count_of (severity_counts t') (JStr s) =
             count_of (severity_counts t) (JStr s)
             + one_if (is_counted cfg v && severity_is s v)) /\
  (forall s, count_of (tool_tally t') (JStr s) =
             count_of (tool_tally t) (JStr s) + one_if (is_counted cfg v && tool_is s v)) /\
  (forall s, count_of (category_tally t') (JStr s) =
             count_of (category_tally t) (JStr s)
             + one_if (is_counted cfg v && category_is s v)) /\
  secret_tally t' =
    secret_tally t + one_if (is_counted cfg v && category_is "Secret Scanning" v) /\
  cve_tally t' = cve_tally t + one_if (is_counted cfg v && has_cve v).
Proof.
  unfold tally_step, is_counted. destruct (is_false_positive v); cbn [negb andb].
  - intros H. injection H as <-. cbn [one_if]. repeat split; intros; lia.
  - intros H. bind_inv H. rewrite Ha. destruct a.
    + injection H as <-. cbn [negb andb one_if]. repeat split; intros; lia.
    + do 3 bind_inv H. injection H as <-. cbn.
      unfold bump in *.
      destruct (hashable (get v "severity" (JStr "low"))); [| discriminate].
      destruct (hashable (get v "tool" (JStr "unknown"))); [| discriminate].
      destruct (hashable (get v "category" (JStr "unknown"))); [| discriminate].
      injection Ha0 as <-. injection Ha1 as <-. injection Ha2 as <-.
      unfold severity_is, tool_is, category_is, has_cve, one_if.
      repeat split; intros; rewrite ?count_of_incr; try reflexivity.
      * destruct (eq_str _ _); lia.
      * destruct (truthy _); lia.
Qed.

(** The closed form of the loop: every figure is a number of findings. *)
Lemma tally_adds (cfg : SecurityGateConfig) (vs : list dict) (t t' : Tally) :
  foldM (tally_step cfg) t vs = Ok t' ->
  (forall s, count_of (severity_counts t') (JStr s) =
             count_of (severity_counts t) (JStr s) + counted_with cfg (severity_is s) vs) /\
  (forall s, count_of (tool_tally t') (JStr s) =
             count_of (tool_tally t) (JStr s) + counted_with cfg (tool_is s) vs) /\
  (forall s, count_of (category_tally t') (JStr s) =
             count_of (category_tally t) (JStr s) + counted_with cfg (category_is s) vs) /\
  secret_tally t' =
    secret_tally t + counted_with cfg (category_is "Secret Scanning") vs /\
  cve_tally t' = cve_tally t + counted_with cfg has_cve vs.
Proof.
  revert t. induction vs as [| v vs IH]; simpl; intros t H.
  - injection H as <-. unfold counted_with. simpl. repeat split; intros; lia.
  - bind_inv H. apply tally_step_adds in Ha. apply IH in H.
    destruct Ha as (A1 & A2 & A3 & A4 & A5).
    destruct H as (B1 & B2 & B3 & B4 & B5).
    repeat split; intros;
      rewrite ?B1, ?B2, ?B3, ?B4, ?B5, ?A1, ?A2, ?A3, ?A4, ?A5, counted_with_cons;
      lia.
Qed.

(** The figures of a metrics map, as numbers of findings of a run. *)
Definition counts_findings (cfg : SecurityGateConfig) (vs : list dict)
  (m : Metrics) : Prop :=
  critical_count m = counted_with cfg (severity_is "critical") vs /\
  high_count m = counted_with cfg (severity_is "high") vs /\
  medium_count m = counted_with cfg (severity_is "medium") vs /\
  low_count m = counted_with cfg (severity_is "low") vs /\
  secret_count m = counted_with cfg (category_is "Secret Scanning") vs /\
  cve_count m = counted_with cfg has_cve vs /\
  (forall s, count_of (tool_counts m) (JStr s) = counted_with cfg (tool_is s) vs) /\
  (forall s, count_of (category_counts m) (JStr s)
             = counted_with cfg (category_is s) vs) /\
  total_vulnerabilities m
    = List.length (filter (fun v => negb (is_false_positive v)) vs).

Lemma metrics_count_findings (self : Evaluator) (m : Metrics) :
  _calculate_vulnerability_metrics self = Ok m ->
  counts_findings (config self) (vulnerabilities self) m.
Proof.
  unfold _calculate_vulnerability_metrics, counts_findings. intros H.
  do 3 bind_inv H. injection H as <-. apply tally_adds in Ha.
  destruct Ha as (A1 & A2 & A3 & A4 & A5). cbn.
  repeat split; intros; rewrite ?A1, ?A2, ?A3, ?A4, ?A5; reflexivity.
Qed.

(** X23. What the metrics count.  Each severity count is the number of
    findings that are no false positives, fail the allow-list test and
    have that severity (a finding without severity counts as low); the
    tool and category counts, secret_count and cve_count are numbers of
    such findings likewise; total_vulnerabilities is the number of findings
    that are no false positives. *)
Theorem counts_are_numbers_of_findings (self : Evaluator) (m : Metrics) :
  _calculate_vulnerability_metrics self = Ok m ->
  counts_findings (config self) (vulnerabilities self) m.
Proof.
  apply metrics_count_findings.
Qed.

Lemma counts_are_numbers_of_findings_witness :
  counts_findings (config LoaderExtras.sample_run)
    (vulnerabilities LoaderExtras.sample_run) LoaderExtras.sample_metrics.
Proof.
  exact (counts_are_numbers_of_findings LoaderExtras.sample_run
           LoaderExtras.sample_metrics eq_refl).
Defined.

(** The iteration for the finding returns: whether it does is a matter
    of the finding and the allow-list, not of the counters. *)
Definition step_returns (cfg : SecurityGateConfig) (vuln : dict) : bool :=
  is_false_positive vuln ||
  match _is_allowed_vulnerability cfg vuln with
  | Ok true => true
  | Ok false =>
      hashable (get vuln "severity" (JStr "low")) &&
      hashable (get vuln "tool" (JStr "unknown")) &&
      hashable (get vuln "category" (JStr "unknown"))
  | Raise _ => false
  end.

Lemma tally_step_returns_iff (cfg : SecurityGateConfig) (t : Tally) (v : dict) :
  (exists t', tally_step cfg t v = Ok t') <-> step_returns cfg v = true.
Proof.
  unfold tally_step, step_returns, bump.
  destruct (is_false_positive v); cbn [orb]; [split; eauto |].
  destruct (_is_allowed_vulnerability cfg v) as [[|] | e]; cbn [bind].
  - split; eauto.
  - destruct (hashable (get v "severity" (JStr "low"))); cbn [bind andb];
      [| split; [intros [t' H] |]; discriminate].
    destruct (hashable (get v "tool" (JStr "unknown"))); cbn [bind andb];
      [| split; [intros [t' H] |]; discriminate].
    destruct (hashable (get v "category" (JStr "unknown"))); cbn [bind andb];
      [| split; [intros [t' H] |]; discriminate].
    split; eauto.
  - split; [intros [t' H] |]; discriminate.
Qed.

Lemma tally_returns_iff (cfg : SecurityGateConfig) (vs : list dict) (t : Tally) :
  (exists t', foldM (tally_step cfg) t vs = Ok t') <->
  forallb (step_returns cfg) vs = true.
Proof.
  revert t. induction vs as [| v vs IH]; intros t; simpl.
  - split; eauto.
  - rewrite andb_true_iff. split.
    + intros [t' H]. bind_inv H. split.
      * apply (tally_step_returns_iff cfg t v). eauto.
      * apply (IH a). eauto.
    + intros [Hv Hvs]. apply (tally_step_returns_iff cfg t v) in Hv.
      destruct Hv as [a Ha]. rewrite Ha. cbn [bind]. now apply IH.
Qed.

(** The three things the aggregation needs in order to return. *)
Lemma metrics_returns_iff (self : Evaluator) :
  (exists m, _calculate_vulnerability_metrics self = Ok m) <->
  forallb (step_returns (config self)) (vulnerabilities self) = true /\
  (exists n, high_threshold (config self) = Ok n) /\
  (exists b, _evaluate_required_tools self = Ok b).
Proof.
  unfold _calculate_vulnerability_metrics. split.
  - intros [m H]. do 3 bind_inv H. split; [| eauto].
    apply (tally_returns_iff (config self) _ empty_tally). eauto.
  - intros (Hv & [n Hn] & [b Hb]).
    apply (tally_returns_iff (config self) _ empty_tally) in Hv.
    destruct Hv as [t Ht]. rewrite Ht, Hn, Hb. cbn [bind]. eauto.
Qed.

(** The three flags are functions of the counts and the high threshold. *)
Lemma metrics_flags (self : Evaluator) (m : Metrics) :
  _calculate_vulnerability_metrics self = Ok m ->
  critical_vulnerabilities_exist m = (0 <? critical_count m)%nat /\
  secrets_detected m = (0 <? secret_count m)%nat /\
  exists threshold,
    high_threshold (config self) = Ok threshold /\
    excessive_high_vulnerabilities m = (threshold <? Z.of_nat (high_count m))%Z.
Proof.
  unfold _calculate_vulnerability_metrics. intros H.
  do 3 bind_inv H. injection H as <-. cbn. eauto.
Qed.

(** The required-tools check does not read the findings. *)
Lemma required_tools_with_vulnerabilities (self : Evaluator) (vs : list dict) :
  _evaluate_required_tools (with_vulnerabilities self vs)
  = _evaluate_required_tools self.
Proof. reflexivity. Qed.

Lemma counted_with_perm (cfg : SecurityGateConfig) (p : dict -> bool)
  (vs vs' : list dict) :
  Permutation vs vs' -> counted_with cfg p vs = counted_with cfg p vs'.
Proof.
  induction 1; rewrite ?counted_with_cons; lia.
Qed.

Lemma counted_with_filter (cfg : SecurityGateConfig) (p keep : dict -> bool)
  (vs : list dict) :
  counted_with cfg p (filter keep vs) <= counted_with cfg p vs.
Proof.
  induction vs as [| v vs IH]; simpl; [lia |].
  destruct (keep v); rewrite ?counted_with_cons; lia.
Qed.

(** A rule reads three counts and the tools flag, and more findings can
    only make it fail. *)
Lemma rule_passed_antitone (rule : dict) (m m' : Metrics) :
  critical_count m <= critical_count m' ->
  high_count m <= high_count m' ->
  secret_count m <= secret_count m' ->
  required_tools_passed m = required_tools_passed m' ->
  passed (_evaluate_rule rule m') = true ->
  passed (_evaluate_rule rule m) = true.
Proof.
  intros Hc Hh Hs Ht. unfold _evaluate_rule, rule_verdict.
  generalize (get rule "condition" (JStr "")) as cond. intros cond.
  destruct (str_in "critical_count == 0" cond) as [[|] | [k1 msg1]];
    cbn [bind passed].
  - rewrite !Nat.eqb_eq. lia.
  - destruct (str_in "high_count <= 10" cond) as [[|] | [k2 msg2]];
      cbn [bind passed].
    + rewrite !Nat.leb_le. lia.
    + destruct (str_in "secret_count == 0" cond) as [[|] | [k3 msg3]];
        cbn [bind passed].
      * rewrite !Nat.eqb_eq. lia.
      * destruct (str_in "required_tools_passed" cond) as [[|] | [k4 msg4]];
          cbn [bind passed]; congruence.
      * auto.
    + auto.
  - auto.
Qed.

Lemma failed_of_antitone (rules : list dict) (m m' : Metrics) :
  critical_count m <= critical_count m' ->
  high_count m <= high_count m' ->
  secret_count m <= secret_count m' ->
  required_tools_passed m = required_tools_passed m' ->
  failed_of rules m' = [] -> failed_of rules m = [].
Proof.
  intros Hc Hh Hs Ht. rewrite !failed_of_nil. intros H rule Hin.
  apply (rule_passed_antitone rule m m'); auto.
Qed.

(** Two metrics maps with the same figures; the tool and category
    counts are compared key by key. *)
Definition same_figures (m m' : Metrics) : Prop :=
  total_vulnerabilities m = total_vulnerabilities m' /\
  critical_count m = critical_count m' /\
  high_count m = high_count m' /\
  medium_count m = medium_count m' /\
  low_count m = low_count m' /\
  secret_count m = secret_count m' /\
  cve_count m = cve_count m' /\
  (forall s, count_of (tool_counts m) (JStr s) = count_of (tool_counts m') (JStr s)) /\
  (forall s, count_of (category_counts m) (JStr s)
             = count_of (category_counts m') (JStr s)) /\
  critical_vulnerabilities_exist m = critical_vulnerabilities_exist m' /\
  excessive_high_vulnerabilities m = excessive_high_vulnerabilities m' /\
  secrets_detected m = secrets_detected m' /\
  required_tools_passed m = required_tools_passed m'.

Lemma forallb_perm {A : Type} (f : A -> bool) (xs ys : list A) :
  Permutation xs ys -> forallb f xs = true -> forallb f ys = true.
Proof.
  intros Hp. rewrite !forallb_forall. intros H x Hin.
  apply H. apply (Permutation_in x (Permutation_sym Hp) Hin).
Qed.

Lemma forallb_filter {A : Type} (f keep : A -> bool) (xs : list A) :
  forallb f xs = true -> forallb f (filter keep xs) = true.
Proof.
  rewrite !forallb_forall. intros H x Hin. apply filter_In in Hin. apply H, Hin.
Qed.

(** The metrics of a reordered list of findings. *)
Lemma metrics_perm (self : Evaluator) (vs vs' : list dict) (m : Metrics) :
  Permutation vs vs' ->
  _calculate_vulnerability_metrics (with_vulnerabilities self vs) = Ok m ->
  exists m',
    _calculate_vulnerability_metrics (with_vulnerabilities self vs') = Ok m' /\
    same_figures m m'.
Proof.
  intros Hp Hm.
  assert (Hr : exists m',
             _calculate_vulnerability_metrics (with_vulnerabilities self vs') = Ok m').
  { apply metrics_returns_iff.
    destruct (proj1 (metrics_returns_iff _) (ex_intro _ m Hm)) as (Hv & Hn & Hb).
    split; [| split; assumption].
    exact (forallb_perm _ _ _ Hp Hv). }
  destruct Hr as [m' Hm']. exists m'. split; [exact Hm' |].
  pose proof (metrics_count_findings _ _ Hm) as C.
  pose proof (metrics_count_findings _ _ Hm') as C'.
  pose proof (metrics_flags _ _ Hm) as (F1 & F2 & th & Hth & F3).
  pose proof (metrics_flags _ _ Hm') as (G1 & G2 & th' & Hth' & G3).
  pose proof (metrics_required_tools _ _ Hm) as T.
  pose proof (metrics_required_tools _ _ Hm') as T'.
  rewrite required_tools_with_vulnerabilities in T, T'.
  cbn [config vulnerabilities with_vulnerabilities] in *.
  assert (th' = th) as -> by congruence.
  destruct C as (C1 & C2 & C3 & C4 & C5 & C6 & C7 & C8 & C9).
  destruct C' as (D1 & D2 & D3 & D4 & D5 & D6 & D7 & D8 & D9).
  assert (Ecrit : critical_count m = critical_count m')
    by (rewrite C1, D1; now apply counted_with_perm).
  assert (Ehigh : high_count m = high_count m')
    by (rewrite C2, D2; now apply counted_with_perm).
  assert (Esec : secret_count m = secret_count m')
    by (rewrite C5, D5; now apply counted_with_perm).
  unfold same_figures. split.
  { rewrite C9, D9. apply Permutation_length.
    clear - Hp. induction Hp; simpl;
      repeat match goal with
             | |- context [negb (is_false_positive ?v)] =>
                 destruct (negb (is_false_positive v))
             end; eauto using Permutation. }
  split; [exact Ecrit |]. split; [exact Ehigh |].
  split; [rewrite C3, D3; now apply counted_with_perm |].
  split; [rewrite C4, D4; now apply counted_with_perm |].
  split; [exact Esec |].
  split; [rewrite C6, D6; now apply counted_with_perm |].
  split; [intros s; rewrite C7, D7; now apply counted_with_perm |].
  split; [intros s; rewrite C8, D8; now apply counted_with_perm |].
  split; [rewrite F1, G1; now rewrite Ecrit |].
  split; [rewrite F3, G3; now rewrite Ehigh |].
  split; [rewrite F2, G2; now rewrite Esec |].
  congruence.
Qed.

(** X24. The order of the findings is irrelevant.  If the aggregation
    returns for a list of findings it returns for every reordering of it,
    with the same total, severity counts, secret and CVE counts, flags and
    count per tool and per category; and the evaluation of the reordered
    list ends with the same status. *)
Theorem findings_order_is_irrelevant (now : string) (self : Evaluator)
  (vs vs' : list dict) :
  Permutation vs vs' ->
  (forall m,
     _calculate_vulnerability_metrics (with_vulnerabilities self vs) = Ok m ->
     exists m',
       _calculate_vulnerability_metrics (with_vulnerabilities self vs') = Ok m' /\
       same_figures m m') /\
  (forall st,
     status_of (evaluate_security_gates now (with_vulnerabilities self vs)) = Ok st ->
     status_of (evaluate_security_gates now (with_vulnerabilities self vs')) = Ok st).
Proof.
  intros Hp. split; [intros m Hm; exact (metrics_perm self vs vs' m Hp Hm) |].
  intros st H. destruct (status_metrics _ _ _ H) as (m & Hm).
  destruct (metrics_perm self vs vs' m Hp Hm) as (m' & Hm' & S).
  rewrite (evaluate_status now _ m Hm) in H.
  rewrite (evaluate_status now _ m' Hm').
  cbn [config with_vulnerabilities] in *.
  destruct S as (_ & Sc & Sh & _ & _ & Ss & _ & _ & _ & _ & _ & _ & St).
  pose proof (failed_of_antitone (policy_rules (config self)) m m') as A.
  pose proof (failed_of_antitone (policy_rules (config self)) m' m) as B.
  rewrite <- St.
  destruct (failed_of (policy_rules (config self)) m) as [| r rs].
  - rewrite B; [exact H | lia | lia | lia | congruence | reflexivity].
  - destruct (failed_of (policy_rules (config self)) m') as [| r' rs'];
      [| exact H].
    discriminate A; [lia | lia | lia | congruence | reflexivity].
Qed.

(** Two findings of one scan, and the scan with them the other way
    round. *)
Definition two_findings : list dict :=
  [ [("title", JStr "Hardcoded key"); ("severity", JStr "critical");
     ("tool", JStr "trufflehog"); ("category", JStr "Secret Scanning")];
    [("title", JStr "Outdated parser"); ("severity", JStr "medium");
     ("tool", JStr "grype"); ("category", JStr "Dependency Scanning");
     ("cve_id", JStr "CVE-2024-0001")] ].

Lemma findings_order_is_irrelevant_witness :
  (forall m,
     _calculate_vulnerability_metrics (fresh _get_default_policy two_findings) = Ok m ->
     exists m',
       _calculate_vulnerability_metrics
         (with_vulnerabilities (__init__ _get_default_policy) (rev two_findings))
       = Ok m' /\
       same_figures m m') /\
  (forall st,
     status_of (evaluate_security_gates "2024-01-01T00:00:00"
                  (fresh _get_default_policy two_findings)) = Ok st ->
     status_of (evaluate_security_gates "2024-01-01T00:00:00"
                  (with_vulnerabilities (__init__ _get_default_policy)
                     (rev two_findings))) = Ok st).
Proof.
  exact (findings_order_is_irrelevant "2024-01-01T00:00:00"
           (__init__ _get_default_policy) two_findings (rev two_findings)
           (Permutation_rev two_findings)).
Defined.

(** X25. Fewer findings never fail a passing gate.  If the evaluation of
    a list of findings ends with PASSED, so does the evaluation of every
    selection of these findings, under the same policy and tool results,
    whatever the rules of the policy are. *)
Theorem fewer_findings_still_pass (now : string) (self : Evaluator)
  (keep : dict -> bool) (vs : list dict) :
  status_of (evaluate_security_gates now (with_vulnerabilities self vs))
    = Ok PASSED ->
  status_of (evaluate_security_gates now (with_vulnerabilities self (filter keep vs)))
    = Ok PASSED.
Proof.
  intros H. destruct (status_metrics _ _ _ H) as (m' & Hm').
  assert (Hr : exists m, _calculate_vulnerability_metrics
                           (with_vulnerabilities self (filter keep vs)) = Ok m).
  { apply metrics_returns_iff.
    destruct (proj1 (metrics_returns_iff _) (ex_intro _ m' Hm')) as (Hv & Hn & Hb).
    split; [| split; assumption].
    exact (forallb_filter _ keep _ Hv). }
  destruct Hr as [m Hm].
  rewrite (evaluate_status now _ m' Hm') in H.
  rewrite (evaluate_status now _ m Hm).
  pose proof (metrics_count_findings _ _ Hm) as (C1 & C2 & _ & _ & C5 & _).
  pose proof (metrics_count_findings _ _ Hm') as (D1 & D2 & _ & _ & D5 & _).
  pose proof (metrics_required_tools _ _ Hm) as T.
  pose proof (metrics_required_tools _ _ Hm') as T'.
  rewrite required_tools_with_vulnerabilities in T, T'.
  cbn [config vulnerabilities with_vulnerabilities] in *.
  assert (Et : required_tools_passed m = required_tools_passed m') by congruence.
  destruct (failed_of (policy_rules (config self)) m') eqn:E'; [| discriminate].
  rewrite (failed_of_antitone (policy_rules (config self)) m m');
    [now rewrite Et | | | | exact Et | exact E'].
  - rewrite C1, D1. apply counted_with_filter.
  - rewrite C2, D2. apply counted_with_filter.
  - rewrite C5, D5. apply counted_with_filter.
Qed.

(** A policy file with the default thresholds, rules and allow-list that
    requires no tool. *)
Definition advisory_policy : SecurityGateConfig :=
  {| severity_thresholds := severity_thresholds _get_default_policy;
     tool_requirements := [("Semgrep", default_tool false)];
     policy_rules := policy_rules _get_default_policy;
     allow_list := allow_list _get_default_policy;
     fail_conditions := fail_conditions _get_default_policy |}.

Definition outdated_parser : dict :=
  [("title", JStr "Outdated parser"); ("severity", JStr "medium");
   ("tool", JStr "grype"); ("category", JStr "Dependency Scanning");
   ("cve_id", JStr "CVE-2024-0001")].

(** Three findings the default rules pass, one of them with a CVE id. *)
Definition passing_findings : list dict :=
  [ [("title", JStr "Weak cipher"); ("severity", JStr "high");
     ("tool", JStr "codeql-results"); ("category", JStr "SAST")];
    outdated_parser;
    [("title", JStr "Verbose log"); ("severity", JStr "low");
     ("tool", JStr "codeql-results"); ("category", JStr "SAST")] ].

Lemma fewer_findings_still_pass_witness :
  filter has_cve passing_findings = [outdated_parser] /\
  status_of (evaluate_security_gates "2024-01-01T00:00:00"
               (with_vulnerabilities (__init__ advisory_policy)
                  (filter has_cve passing_findings)))
  = Ok PASSED.
Proof.
  split; [reflexivity |].
  exact (fewer_findings_still_pass "2024-01-01T00:00:00"
           (__init__ advisory_policy) has_cve passing_findings eq_refl).
Defined.

End CountExtras.
